(** * Dual-session reconciliation and consent synchronisation

    A shallow embedding of the session facades, the REST client, the route
    guard and the consent pages of the consumer portal, with the properties
    its specification states about them. *)

From Stdlib Require Import ZArith List String Ascii Bool Lia.
From stdpp Require Import gmap strings list.

Local Open Scope string_scope.
Local Open Scope Z_scope.

Set Warnings "-register-all".

(** ** The route guard (router: [ProtectedRoute], [PublicRoute]) *)

Module RouteGuard.

(** What a route element renders. *)
Inductive Rendered : Type :=
| Spinner
| NavigateTo (path : string)
| Outlet.

Section Guard.
(** The guard only tests the two user objects for presence. *)
Context {LegacyUser SupabaseUser : Type}.

Definition ProtectedRoute
    (legacyUser : option LegacyUser) (legacyLoading : bool)
    (supabaseUser : option SupabaseUser) (supabaseLoading : bool) : Rendered :=
  if legacyLoading || supabaseLoading then Spinner
  else match supabaseUser with
       | None => NavigateTo "/login"
       | Some _ => Outlet
       end.

Definition PublicRoute
    (legacyUser : option LegacyUser) (legacyLoading : bool)
    (supabaseUser : option SupabaseUser) (supabaseLoading : bool) : Rendered :=
  if legacyLoading || supabaseLoading then Spinner
  else match supabaseUser with
       | Some _ => NavigateTo "/"
       | None => Outlet
       end.
End Guard.

(** Access to the protected screens is given exactly by [Outlet]. *)
Definition admits (r : Rendered) : bool :=
  match r with Outlet => true | _ => false end.

End RouteGuard.

(** ** The JavaScript primitives the code relies on *)

Module JS.

(** *** Strings.  A string is its sequence of code units; [ascii] covers
    the code units below 256. *)

(** [\s] in a regular expression, and what [trim] and [parseInt] strip:
    tab, line feed, vertical tab, form feed, carriage return, space and
    no-break space are the members below 256. *)
Definition is_whitespace (c : ascii) : bool :=
  let n := N_of_ascii c in
  (((9 <=? n) && (n <=? 13)) || (n =? 32) || (n =? 160))%N.

Fixpoint trimStart (s : string) : string :=
  match s with
  | String c s' => if is_whitespace c then trimStart s' else s
  | EmptyString => EmptyString
  end.

Definition reverse (s : string) : string :=
  string_of_list_ascii (List.rev (list_ascii_of_string s)).

Definition trimEnd (s : string) : string := reverse (trimStart (reverse s)).

Definition trim (s : string) : string := trimEnd (trimStart s).

(** Truthiness of a string: only the empty string is falsy. *)
Definition truthy (s : string) : bool :=
  match s with EmptyString => false | String _ _ => true end.

(** *** Regular expressions, matched by derivatives. *)
Inductive regex : Type :=
| Void
| Eps
| Class (p : ascii -> bool)
| Cat (r1 r2 : regex)
| Alt (r1 r2 : regex)
| Star (r : regex).

Definition Plus (r : regex) : regex := Cat r (Star r).
Definition Chr (c : ascii) : regex := Class (Ascii.eqb c).

Fixpoint nullable (r : regex) : bool :=
  match r with
  | Void => false
  | Eps => true
  | Class _ => false
  | Cat r1 r2 => nullable r1 && nullable r2
  | Alt r1 r2 => nullable r1 || nullable r2
  | Star _ => true
  end.

Fixpoint deriv (c : ascii) (r : regex) : regex :=
  match r with
  | Void => Void
  | Eps => Void
  | Class p => if p c then Eps else Void
  | Cat r1 r2 =>
      if nullable r1 then Alt (Cat (deriv c r1) r2) (deriv c r2)
      else Cat (deriv c r1) r2
  | Alt r1 r2 => Alt (deriv c r1) (deriv c r2)
  | Star r1 => Cat (deriv c r1) (Star r1)
  end.

(** [s.match(/^r$/)] is truthy exactly when the whole of [s] matches. *)
Fixpoint matches (r : regex) (s : string) : bool :=
  match s with
  | EmptyString => nullable r
  | String c s' => matches (deriv c r) s'
  end.

(** *** Integers and their decimal text. *)

Definition digit_char (d : Z) : ascii := ascii_of_N (48 + Z.to_N d).

Fixpoint digits_from (fuel : nat) (n : Z) (acc : string) : string :=
  match fuel with
  | O => acc
  | S fuel' =>
      let acc' := String (digit_char (n mod 10)) acc in
      if n / 10 =? 0 then acc' else digits_from fuel' (n / 10) acc'
  end.

Definition digits (n : Z) : string :=
  digits_from (S (Z.to_nat (Z.log2 n))) n EmptyString.

(** [n.toString()] for an integral number. *)
Definition Number_toString (n : Z) : string :=
  if n <? 0 then String "-" (digits (- n)) else digits n.

Definition digit_value (radix : Z) (c : ascii) : option Z :=
  let n := Z.of_N (N_of_ascii c) in
  let v :=
    if (48 <=? n) && (n <=? 57) then Some (n - 48)
    else if (97 <=? n) && (n <=? 122) then Some (n - 87)
    else if (65 <=? n) && (n <=? 90) then Some (n - 55)
    else None in
  match v with
  | Some d => if d <? radix then Some d else None
  | None => None
  end.

(** Longest prefix of digits; [None] when there is no digit at all. *)
Fixpoint parse_digits (radix : Z) (s : string) (acc : option Z) : option Z :=
  match s with
  | String c s' =>
      match digit_value radix c with
      | Some d =>
          parse_digits radix s'
            (Some (match acc with Some a => a * radix + d | None => d end))
      | None => acc
      end
  | EmptyString => acc
  end.

(** [parseInt(s)] with no radix argument; [None] is [NaN].  The value is
    the mathematical integer (exact below 2^53). *)
Definition parseInt (s : string) : option Z :=
  let s1 := trimStart s in
  let '(sign, s2) :=
    match s1 with
    | String "-" r => (-1, r)
    | String "+" r => (1, r)
    | _ => (1, s1)
    end in
  let '(radix, s3) :=
    match s2 with
    | String "0" (String "x" r) => (16, r)
    | String "0" (String "X" r) => (16, r)
    | _ => (10, s2)
    end in
  match parse_digits radix s3 None with
  | Some v => Some (sign * v)
  | None => None
  end.

(** *** JSON values, as [response.json()] and [JSON.parse] produce them. *)
Inductive Json : Type :=
| JNull
| JBool (b : bool)
| JNumber (canon : string)   (* a number, kept as its canonical text *)
| JString (s : string)
| JArray (items : list Json)
| JObject (fields : list (string * Json)).

(** What reading a property yields. *)
Inductive Value : Type :=
| Undefined
| Of (j : Json).

(** The last occurrence of a key wins, as in [JSON.parse]. *)
Fixpoint field (k : string) (fs : list (string * Json)) : option Json :=
  match fs with
  | [] => None
  | (k', v) :: fs' =>
      match field k fs' with
      | Some v' => Some v'
      | None => if String.eqb k k' then Some v else None
      end
  end.

(** [v.k] for a key [k] that is no built-in property of arrays, strings,
    numbers and booleans; [None] is the [TypeError] of reading a property
    of [null]. *)
Definition getProp (v : Json) (k : string) : option Value :=
  match v with
  | JNull => None
  | JObject fs =>
      Some (match field k fs with Some j => Of j | None => Undefined end)
  | _ => Some Undefined
  end.

(** [ToString j]; [None] is the [TypeError] of an object that has no
    primitive value.  A parsed object converts through the inherited
    [Object.prototype.toString], unless an own key [toString] hides it: the
    value under that key cannot be called, [valueOf] hands the object back,
    and the conversion throws.  An array joins the conversions of its
    elements ([null] gives the empty string), and throws when one of them
    does. *)
Fixpoint ToString (j : Json) : option string :=
  match j with
  | JNull => Some "null"
  | JBool true => Some "true"
  | JBool false => Some "false"
  | JNumber canon => Some canon
  | JString s => Some s
  | JArray items =>
      (fix join (l : list Json) : option string :=
         match l with
         | [] => Some ""
         | [x] => match x with JNull => Some "" | _ => ToString x end
         | x :: l' =>
             match (match x with JNull => Some "" | _ => ToString x end),
                   join l' with
             | Some first, Some others => Some (first ++ "," ++ others)
             | _, _ => None
             end
         end) items
  | JObject fs =>
      match field "toString" fs with
      | Some _ => None
      | None => Some "[object Object]"
      end
  end.

(** *** Thrown values. *)
Inductive ErrorClass : Type :=
| ApiError (status : Z)     (* the REST client's typed error *)
| TypeError
| SyntaxError
| PlainError                (* [new Error(msg)] *)
| BackendError.             (* an error object handed back by the platform client *)

Record Thrown : Type := mkThrown { class : ErrorClass; message : string }.

(** What a failed [ToString] throws. *)
Definition not_primitive : Thrown :=
  mkThrown TypeError "Cannot convert object to primitive value".

(** [new Error(m)] keeps [ToString m], and the empty inherited message
    when [m] is [undefined]; [None] when the conversion throws. *)
Definition error_message (m : Value) : option string :=
  match m with
  | Undefined => Some ""
  | Of j => ToString j
  end.

(** Truthiness of a value read from a response: [undefined], [null],
    [false], zero and the empty string are falsy. *)
Definition truthy_value (v : Value) : bool :=
  match v with
  | Undefined => false
  | Of JNull => false
  | Of (JBool b) => b
  | Of (JNumber canon) => negb (String.eqb canon "0")
  | Of (JString s) => truthy s
  | Of (JArray _) => true
  | Of (JObject _) => true
  end.

(** [String(v)], as [localStorage.setItem] applies it to its value;
    [None] when the conversion throws. *)
Definition value_text (v : Value) : option string :=
  match v with
  | Undefined => Some "undefined"
  | Of j => ToString j
  end.

(** *** What a regular expression matches, as a relation. *)
Inductive lang : regex -> string -> Prop :=
| lang_eps : lang Eps EmptyString
| lang_class (p : ascii -> bool) (c : ascii) :
    p c = true -> lang (Class p) (String c EmptyString)
| lang_cat (r1 r2 : regex) (s1 s2 : string) :
    lang r1 s1 -> lang r2 s2 -> lang (Cat r1 r2) (s1 ++ s2)
| lang_alt_l (r1 r2 : regex) (s : string) : lang r1 s -> lang (Alt r1 r2) s
| lang_alt_r (r1 r2 : regex) (s : string) : lang r2 s -> lang (Alt r1 r2) s
| lang_star_nil (r : regex) : lang (Star r) EmptyString
| lang_star_cons (r : regex) (s1 s2 : string) :
    lang r s1 -> lang (Star r) s2 -> lang (Star r) (s1 ++ s2).

(** Every code unit of [s] satisfies [p]. *)
Fixpoint every (p : ascii -> bool) (s : string) : bool :=
  match s with
  | EmptyString => true
  | String c s' => p c && every p s'
  end.

End JS.

(** ** The REST client ([services/api]) : requests, responses, [handleResponse] *)

Module Api.
Import JS.

Record Request : Type := mkRequest {
  method : string;
  endpoint : string;
  bearer : option string;     (* the [Authorization: Bearer] header, if any *)
  payload : option Json       (* the body, before [JSON.stringify] *)
}.

(** A response as [handleResponse] sees it: the status, and what
    [response.json()] settles to ([inl]: it rejects, with that message). *)
Record Response : Type := mkResponse {
  status : Z;
  json : string + Json
}.

(** [response.ok] *)
Definition ok (r : Response) : bool := (200 <=? status r) && (status r <=? 299).

Definition null_property_message : string :=
  "Cannot read properties of null (reading 'message')".

Definition handleResponse (r : Response) : Thrown + Json :=
  if negb (ok r) then
    let error :=
      match json r with
      | inr v => v
      | inl _ =>
          JObject [("message",
                    JString (if status r =? 401 then "Invalid credentials"
                             else "An error occurred"))]
      end in
    match getProp error "message" with
    | Some m =>
        match error_message m with
        | Some text => inl (mkThrown (ApiError (status r)) text)
        | None => inl not_primitive
        end
    | None => inl (mkThrown TypeError null_property_message)
    end
  else
    match json r with
    | inr v => inr v
    | inl why => inl (mkThrown SyntaxError why)
    end.

(** How a [fetch] settles. *)
Inductive Fetched : Type :=
| Responds (r : Response)
| Rejects (why : string).     (* network failure: a [TypeError] *)

End Api.

(** ** Data of the consent screens and of the platform tables *)

Module Types.

(** [Provider['permissions']] *)
Record Permissions : Type := mkPermissions {
  labResults : bool;
  medications : bool;
  fitnessData : bool
}.

(** [keyof Provider['permissions']] *)
Inductive PermissionKey : Type :=
| LabResults
| Medications
| FitnessData.

Inductive AccessStatus : Type :=
| Granted
| Disconnected.

Record Provider : Type := mkProvider {
  id : string;
  name : string;
  logo : string;
  dateAdded : string;
  accessStatus : AccessStatus;
  permissions : Permissions
}.

(** [p[k]] *)
Definition get (p : Permissions) (k : PermissionKey) : bool :=
  match k with
  | LabResults => labResults p
  | Medications => medications p
  | FitnessData => fitnessData p
  end.

(** [{ ...p, [k]: v }] *)
Definition set (p : Permissions) (k : PermissionKey) (v : bool) : Permissions :=
  match k with
  | LabResults => mkPermissions v (medications p) (fitnessData p)
  | Medications => mkPermissions (labResults p) v (fitnessData p)
  | FitnessData => mkPermissions (labResults p) (medications p) v
  end.

(** [Object.values(p)], in the order the keys were created. *)
Definition Object_values (p : Permissions) : list bool :=
  [labResults p; medications p; fitnessData p].

(** [xs.some(Boolean)] *)
Definition some_Boolean (xs : list bool) : bool := existsb (fun b => b) xs.

End Types.

Module Db.

(** The columns the client writes ([dbPermissions]); instants are
    milliseconds since the epoch. *)
Record Columns : Type := mkColumns {
  lab_results : bool;
  medications : bool;
  fitness_data : bool;
  approved : bool;
  updated_at : Z
}.

(** A row of [user_provider_consents]; its primary key
    [(user_id, provider_id)] is the key it is stored under. *)
Record Row : Type := mkRow {
  columns : Columns;
  created_at : Z
}.

(** The derived-column invariant of a consent record. *)
Definition approved_is_any (c : Columns) : Prop :=
  approved c = lab_results c || medications c || fitness_data c.

End Db.

(** ** React state of the components *)

Module AuthContext.         (* [useAuth()], the legacy facade *)
Record t : Type := mk {
  user : option JS.Json;
  loading : bool;
  error : option string
}.
End AuthContext.

Module SupabaseAuthContext. (* [useSupabaseAuth()], the platform facade *)
Record User : Type := mkUser { id : string; email : string }.
Record Session : Type := mkSession { access_token : string; session_user : User }.
Record t : Type := mk {
  user : option User;
  session : option Session;
  loading : bool;
  error : option string
}.
End SupabaseAuthContext.

Module ConsentPage.         (* [pages/Consent] *)
Record t : Type := mk {
  providers : list Types.Provider;
  selectedProvider : option Types.Provider;
  isModalOpen : bool;
  loading : bool;
  error : option string
}.
End ConsentPage.

Module AccessModal.         (* [components/ProviderAccessModal] *)
Record t : Type := mk {
  provider : Types.Provider;          (* the [provider] prop *)
  loading : bool;
  error : option string;
  currentPermissions : Types.Permissions;
  confirmingDelete : bool
}.
End AccessModal.

(** ** The browser tab: everything the handlers read and write *)

Module Browser.
Import JS.

(** A pending [setTimeout] of the legacy facade.  Every callback it
    registers is [setLoading(false); setError(message)]. *)
Record Timer : Type := mkTimer {
  timer_id : nat;
  deadline : Z;
  timeout_message : string
}.

(** How a call to the platform client settles. *)
Inductive Reply : Type :=
| Done                                        (* no error *)
| Granted (s : SupabaseAuthContext.Session)   (* no error, and a session *)
| Failed (why : string)                       (* resolves with [error] set *)
| Raised (why : string).                      (* the promise rejects *)

Record Tab : Type := mkTab {
  now : Z;                                               (* [Date.now()] *)
  localStorage : gmap string string;
  sent : list Api.Request;                               (* requests handed to [fetch], oldest first *)
  replies : list (N * Api.Fetched);                      (* how the awaited fetches will settle: delay, result *)
  timers : list Timer;                                   (* pending timers, oldest first *)
  next_timer : nat;
  timed_out : list (Z * AuthContext.t);                  (* timer callbacks that ran: deadline, legacy state they left *)
  location : string;                                     (* the router's current path *)
  client_session : option SupabaseAuthContext.Session;   (* held by the platform client *)
  subscribed : bool;                                     (* the provider listens to session changes *)
  backend : list (N * Reply);                            (* how the awaited platform calls will settle *)
  consents : gmap (string * string) Db.Row;              (* [user_provider_consents] *)
  alerts : list string;                                  (* [alert(...)], oldest first *)
  console : list string;                                 (* [console.error(...)], oldest first *)
  auth : AuthContext.t;
  supabaseAuth : SupabaseAuthContext.t;
  consentPage : ConsentPage.t;
  accessModal : AccessModal.t
}.

Definition with_now (v : Z) (t : Tab) : Tab :=
  let '(mkTab now' localStorage' sent' replies' timers' next_timer' timed_out' location'
        client_session' subscribed' backend' consents' alerts' console' auth'
        supabaseAuth' consentPage' accessModal') := t in
  mkTab v localStorage' sent' replies' timers' next_timer' timed_out' location'
    client_session' subscribed' backend' consents' alerts' console' auth' supabaseAuth'
    consentPage' accessModal'.
Definition with_localStorage (v : gmap string string) (t : Tab) : Tab :=
  let '(mkTab now' localStorage' sent' replies' timers' next_timer' timed_out' location'
        client_session' subscribed' backend' consents' alerts' console' auth'
        supabaseAuth' consentPage' accessModal') := t in
  mkTab now' v sent' replies' timers' next_timer' timed_out' location' client_session'
    subscribed' backend' consents' alerts' console' auth' supabaseAuth' consentPage'
    accessModal'.
Definition with_sent (v : list Api.Request) (t : Tab) : Tab :=
  let '(mkTab now' localStorage' sent' replies' timers' next_timer' timed_out' location'
        client_session' subscribed' backend' consents' alerts' console' auth'
        supabaseAuth' consentPage' accessModal') := t in
  mkTab now' localStorage' v replies' timers' next_timer' timed_out' location'
    client_session' subscribed' backend' consents' alerts' console' auth' supabaseAuth'
    consentPage' accessModal'.
Definition with_replies (v : list (N * Api.Fetched)) (t : Tab) : Tab :=
  let '(mkTab now' localStorage' sent' replies' timers' next_timer' timed_out' location'
        client_session' subscribed' backend' consents' alerts' console' auth'
        supabaseAuth' consentPage' accessModal') := t in
  mkTab now' localStorage' sent' v timers' next_timer' timed_out' location'
    client_session' subscribed' backend' consents' alerts' console' auth' supabaseAuth'
    consentPage' accessModal'.
Definition with_timers (v : list Timer) (n : nat) (t : Tab) : Tab :=
  let '(mkTab now' localStorage' sent' replies' timers' next_timer' timed_out' location'
        client_session' subscribed' backend' consents' alerts' console' auth'
        supabaseAuth' consentPage' accessModal') := t in
  mkTab now' localStorage' sent' replies' v n timed_out' location' client_session'
    subscribed' backend' consents' alerts' console' auth' supabaseAuth' consentPage'
    accessModal'.
Definition with_timed_out (v : list (Z * AuthContext.t)) (t : Tab) : Tab :=
  let '(mkTab now' localStorage' sent' replies' timers' next_timer' timed_out' location'
        client_session' subscribed' backend' consents' alerts' console' auth'
        supabaseAuth' consentPage' accessModal') := t in
  mkTab now' localStorage' sent' replies' timers' next_timer' v location'
    client_session' subscribed' backend' consents' alerts' console' auth' supabaseAuth'
    consentPage' accessModal'.
Definition with_location (v : string) (t : Tab) : Tab :=
  let '(mkTab now' localStorage' sent' replies' timers' next_timer' timed_out' location'
        client_session' subscribed' backend' consents' alerts' console' auth'
        supabaseAuth' consentPage' accessModal') := t in
  mkTab now' localStorage' sent' replies' timers' next_timer' timed_out' v
    client_session' subscribed' backend' consents' alerts' console' auth' supabaseAuth'
    consentPage' accessModal'.
Definition with_client_session (v : option SupabaseAuthContext.Session) (t : Tab) : Tab :=
  let '(mkTab now' localStorage' sent' replies' timers' next_timer' timed_out' location'
        client_session' subscribed' backend' consents' alerts' console' auth'
        supabaseAuth' consentPage' accessModal') := t in
  mkTab now' localStorage' sent' replies' timers' next_timer' timed_out' location' v
    subscribed' backend' consents' alerts' console' auth' supabaseAuth' consentPage'
    accessModal'.
Definition with_subscribed (v : bool) (t : Tab) : Tab :=
  let '(mkTab now' localStorage' sent' replies' timers' next_timer' timed_out' location'
        client_session' subscribed' backend' consents' alerts' console' auth'
        supabaseAuth' consentPage' accessModal') := t in
  mkTab now' localStorage' sent' replies' timers' next_timer' timed_out' location'
    client_session' v backend' consents' alerts' console' auth' supabaseAuth'
    consentPage' accessModal'.
Definition with_backend (v : list (N * Reply)) (t : Tab) : Tab :=
  let '(mkTab now' localStorage' sent' replies' timers' next_timer' timed_out' location'
        client_session' subscribed' backend' consents' alerts' console' auth'
        supabaseAuth' consentPage' accessModal') := t in
  mkTab now' localStorage' sent' replies' timers' next_timer' timed_out' location'
    client_session' subscribed' v consents' alerts' console' auth' supabaseAuth'
    consentPage' accessModal'.
Definition with_consents (v : gmap (string * string) Db.Row) (t : Tab) : Tab :=
  let '(mkTab now' localStorage' sent' replies' timers' next_timer' timed_out' location'
        client_session' subscribed' backend' consents' alerts' console' auth'
        supabaseAuth' consentPage' accessModal') := t in
  mkTab now' localStorage' sent' replies' timers' next_timer' timed_out' location'
    client_session' subscribed' backend' v alerts' console' auth' supabaseAuth'
    consentPage' accessModal'.
Definition with_alerts (v : list string) (t : Tab) : Tab :=
  let '(mkTab now' localStorage' sent' replies' timers' next_timer' timed_out' location'
        client_session' subscribed' backend' consents' alerts' console' auth'
        supabaseAuth' consentPage' accessModal') := t in
  mkTab now' localStorage' sent' replies' timers' next_timer' timed_out' location'
    client_session' subscribed' backend' consents' v console' auth' supabaseAuth'
    consentPage' accessModal'.
Definition with_console (v : list string) (t : Tab) : Tab :=
  let '(mkTab now' localStorage' sent' replies' timers' next_timer' timed_out' location'
        client_session' subscribed' backend' consents' alerts' console' auth'
        supabaseAuth' consentPage' accessModal') := t in
  mkTab now' localStorage' sent' replies' timers' next_timer' timed_out' location'
    client_session' subscribed' backend' consents' alerts' v auth' supabaseAuth'
    consentPage' accessModal'.
Definition with_auth (v : AuthContext.t) (t : Tab) : Tab :=
  let '(mkTab now' localStorage' sent' replies' timers' next_timer' timed_out' location'
        client_session' subscribed' backend' consents' alerts' console' auth'
        supabaseAuth' consentPage' accessModal') := t in
  mkTab now' localStorage' sent' replies' timers' next_timer' timed_out' location'
    client_session' subscribed' backend' consents' alerts' console' v supabaseAuth'
    consentPage' accessModal'.
Definition with_supabaseAuth (v : SupabaseAuthContext.t) (t : Tab) : Tab :=
  let '(mkTab now' localStorage' sent' replies' timers' next_timer' timed_out' location'
        client_session' subscribed' backend' consents' alerts' console' auth'
        supabaseAuth' consentPage' accessModal') := t in
  mkTab now' localStorage' sent' replies' timers' next_timer' timed_out' location'
    client_session' subscribed' backend' consents' alerts' console' auth' v consentPage'
    accessModal'.
Definition with_consentPage (v : ConsentPage.t) (t : Tab) : Tab :=
  let '(mkTab now' localStorage' sent' replies' timers' next_timer' timed_out' location'
        client_session' subscribed' backend' consents' alerts' console' auth'
        supabaseAuth' consentPage' accessModal') := t in
  mkTab now' localStorage' sent' replies' timers' next_timer' timed_out' location'
    client_session' subscribed' backend' consents' alerts' console' auth' supabaseAuth'
    v accessModal'.
Definition with_accessModal (v : AccessModal.t) (t : Tab) : Tab :=
  let '(mkTab now' localStorage' sent' replies' timers' next_timer' timed_out' location'
        client_session' subscribed' backend' consents' alerts' console' auth'
        supabaseAuth' consentPage' accessModal') := t in
  mkTab now' localStorage' sent' replies' timers' next_timer' timed_out' location'
    client_session' subscribed' backend' consents' alerts' console' auth' supabaseAuth'
    consentPage' v.

(** *** Asynchronous code, run to the point it settles.

    An [async] function either returns, throws, or waits on a call that
    never settles.  [try]/[catch]/[finally] see only the first two. *)
Inductive Outcome (A : Type) : Type :=
| Returns (a : A)
| Throws (e : Thrown)
| Hangs.
Arguments Returns {A} a.
Arguments Throws {A} e.
Arguments Hangs {A}.

Definition Eff (A : Type) : Type := Tab -> Outcome A * Tab.

Definition ret {A} (a : A) : Eff A := fun t => (Returns a, t).

Definition bind {A B} (m : Eff A) (k : A -> Eff B) : Eff B :=
  fun t =>
    match m t with
    | (Returns a, t') => k a t'
    | (Throws e, t') => (Throws e, t')
    | (Hangs, t') => (Hangs, t')
    end.

Definition throw {A} (e : Thrown) : Eff A := fun t => (Throws e, t).

Definition try_catch {A} (m : Eff A) (handler : Thrown -> Eff A) : Eff A :=
  fun t =>
    match m t with
    | (Throws e, t') => handler e t'
    | r => r
    end.

Definition finally {A} (m : Eff A) (f : Eff unit) : Eff A :=
  fun t =>
    match m t with
    | (Hangs, t') => (Hangs, t')
    | (r, t') =>
        match f t' with
        | (Returns _, t'') => (r, t'')
        | (Throws e, t'') => (Throws e, t'')
        | (Hangs, t'') => (Hangs, t'')
        end
    end.

Definition gets {A} (f : Tab -> A) : Eff A := fun t => (Returns (f t), t).
Definition modify (f : Tab -> Tab) : Eff unit := fun t => (Returns tt, f t).

(** The state a computation leaves, and how it settled. *)
Definition after {A} (m : Eff A) (t : Tab) : Tab := snd (m t).
Definition outcome {A} (m : Eff A) (t : Tab) : Outcome A := fst (m t).

End Browser.

Declare Scope eff_scope.
Delimit Scope eff_scope with eff.
Notation "x <- m ;; k" := (Browser.bind m (fun x => k))
  (at level 100, m at next level, k at level 200, right associativity) : eff_scope.
Notation "m ;; k" := (Browser.bind m (fun _ => k))
  (at level 100, k at level 200, right associativity) : eff_scope.

(** ** What the handlers call: storage, timers, the REST client, the
    platform client *)

Module Runtime.
Import JS Browser.
Local Open Scope eff_scope.

Definition Date_now : Eff Z := gets now.

(** *** [localStorage], the router, [alert], [console.error] *)
Definition getItem (k : string) : Eff (option string) :=
  gets (fun t => localStorage t !! k).
Definition setItem (k v : string) : Eff unit :=
  modify (fun t => with_localStorage (<[k := v]> (localStorage t)) t).
(** [localStorage.setItem(k, v)] for a value read off a response: it is
    converted to a string first, and nothing is stored when that throws. *)
Definition setItem_value (k : string) (v : Value) : Eff unit :=
  match value_text v with
  | Some text => setItem k text
  | None => throw not_primitive
  end.
Definition removeItem (k : string) : Eff unit :=
  modify (fun t => with_localStorage (delete k (localStorage t)) t).
Definition navigate (path : string) : Eff unit := modify (with_location path).
Definition alert (msg : string) : Eff unit :=
  modify (fun t => with_alerts (alerts t ++ [msg]) t).
Definition console_error (msg : string) : Eff unit :=
  modify (fun t => with_console (console t ++ [msg]) t).

(** *** Timers *)

(** The callback of a legacy-facade timer:
    [setLoading(false); setError(message)].  Each run is noted with the
    state it leaves. *)
Definition fire (st : AuthContext.t * list (Z * AuthContext.t)) (tm : Timer)
  : AuthContext.t * list (Z * AuthContext.t) :=
  let a := AuthContext.mk (AuthContext.user (fst st)) false (Some (timeout_message tm)) in
  (a, (snd st ++ [(deadline tm, a)])%list).

Definition due (clock : Z) (tm : Timer) : bool := deadline tm <=? clock.

Definition fire_all (tms : list Timer) (t : Tab) : Tab :=
  let st := fold_left fire tms (auth t, timed_out t) in
  with_auth (fst st) (with_timed_out (snd st) t).

(** Timers whose deadline has passed run, oldest first, and are gone. *)
Definition run_timers (t : Tab) : Tab :=
  fire_all (List.filter (due (now t)) (timers t))
    (with_timers (List.filter (fun tm => negb (due (now t) tm)) (timers t))
       (next_timer t) t).

(** [d] milliseconds pass while the handler is suspended. *)
Definition elapse (d : N) (t : Tab) : Tab :=
  run_timers (with_now (now t + Z.of_N d) t).

(** The awaited call never settles: every pending timer has its turn. *)
Definition forever (t : Tab) : Tab :=
  fire_all (timers t)
    (with_timers [] (next_timer t)
       (with_now (fold_left Z.max (map deadline (timers t)) (now t)) t)).

Definition setTimeout (msg : string) (delay : Z) : Eff nat :=
  fun t =>
    (Returns (next_timer t),
     with_timers (timers t ++ [mkTimer (next_timer t) (now t + delay) msg])
       (S (next_timer t)) t).

Definition clearTimeout (id : nat) : Eff unit :=
  modify (fun t =>
    with_timers (List.filter (fun tm => negb (Nat.eqb (timer_id tm) id)) (timers t))
      (next_timer t) t).

(** *** The REST client *)

(** [getHeaders]: the bearer token, when one is stored. *)
Definition getHeaders : Eff (option string) :=
  token <- getItem "token";;
  ret (match token with
       | Some tk => if truthy tk then Some tk else None
       | None => None
       end).

(** [fetch] hands the request to the network at once ... *)
Definition send (method endpoint : string) (data : option Json) : Eff unit :=
  b <- getHeaders;;
  modify (fun t => with_sent (sent t ++ [Api.mkRequest method endpoint b data]) t).

(** ... and awaiting it suspends the caller until it settles. *)
Definition await_fetch : Eff Api.Fetched :=
  fun t =>
    match replies t with
    | [] => (Hangs, forever t)
    | (d, r) :: rest => (Returns r, elapse d (with_replies rest t))
    end.

Definition settle (f : Api.Fetched) : Eff Json :=
  match f with
  | Api.Rejects why => throw (mkThrown TypeError why)
  | Api.Responds r =>
      match Api.handleResponse r with
      | inl e => throw e
      | inr v => ret v
      end
  end.

Definition request (method endpoint : string) (data : option Json) : Eff Json :=
  send method endpoint data;;
  f <- await_fetch;;
  settle f.

Definition api_get (endpoint : string) : Eff Json := request "GET" endpoint None.
Definition api_post (endpoint : string) (data : Json) : Eff Json :=
  request "POST" endpoint (Some data).

(** *** The platform client *)

Definition await_backend : Eff Reply :=
  fun t =>
    match backend t with
    | [] => (Hangs, forever t)
    | (d, r) :: rest =>
        let t' := elapse d (with_backend rest t) in
        match r with
        | Raised why => (Throws (mkThrown BackendError why), t')
        | _ => (Returns r, t')
        end
    end.

Definition backend_error (why : string) : Thrown := mkThrown BackendError why.

(** The call went through: it settled without an error. *)
Definition accepted (r : Reply) : bool :=
  match r with
  | Done | Granted _ => true
  | Failed _ | Raised _ => false
  end.

(** The listener the provider registers with [onAuthStateChange]:
    [setSession(session); setUser(session?.user || null)]. *)
Definition notify (s : option SupabaseAuthContext.Session) (t : Tab) : Tab :=
  if subscribed t then
    with_supabaseAuth
      (SupabaseAuthContext.mk
         (option_map SupabaseAuthContext.session_user s) s
         (SupabaseAuthContext.loading (supabaseAuth t))
         (SupabaseAuthContext.error (supabaseAuth t))) t
  else t.

Definition set_session (s : option SupabaseAuthContext.Session) : Eff unit :=
  modify (fun t => notify s (with_client_session s t)).

(** [supabase.auth.getUser()]: [data.user] *)
Definition auth_getUser : Eff (option SupabaseAuthContext.User) :=
  r <- await_backend;;
  match r with
  | Failed _ => ret None
  | _ => gets (fun t => option_map SupabaseAuthContext.session_user (client_session t))
  end.

(** [supabase.auth.getSession()]: [data.session] and [error] *)
Definition auth_getSession
  : Eff (option SupabaseAuthContext.Session * option Thrown) :=
  r <- await_backend;;
  match r with
  | Failed why => ret (None, Some (backend_error why))
  | _ => s <- gets client_session;; ret (s, None)
  end.

(** [supabase.auth.signInWithPassword(...)]: [data.session] and [error] *)
Definition auth_signInWithPassword (email password : string)
  : Eff (option SupabaseAuthContext.Session * option Thrown) :=
  r <- await_backend;;
  match r with
  | Failed why => ret (None, Some (backend_error why))
  | Granted s => set_session (Some s);; ret (Some s, None)
  | _ => ret (None, None)
  end.

(** [supabase.auth.signUp(...)]: [data.user] and [error] *)
Definition auth_signUp (email password name : string)
  : Eff (option SupabaseAuthContext.User * option Thrown) :=
  r <- await_backend;;
  match r with
  | Failed why => ret (None, Some (backend_error why))
  | Granted s =>
      set_session (Some s);; ret (Some (SupabaseAuthContext.session_user s), None)
  | _ => ret (None, None)
  end.

(** [supabase.auth.signOut()]: [error] *)
Definition auth_signOut : Eff (option Thrown) :=
  r <- await_backend;;
  match r with
  | Failed why => ret (Some (backend_error why))
  | _ => set_session None;; ret None
  end.

(** [auth.uid()] of the row-level policies *)
Definition uid (t : Tab) : option string :=
  option_map (fun s => SupabaseAuthContext.id (SupabaseAuthContext.session_user s))
    (client_session t).

Definition owns (user_id : string) (t : Tab) : bool :=
  match uid t with
  | Some u => String.eqb u user_id
  | None => false
  end.

(** [from('user_provider_consents').select('*').eq(..).eq(..).maybeSingle()] *)
Definition select_consent (user_id provider_id : string)
  : Eff (option Db.Row * option Thrown) :=
  r <- await_backend;;
  match r with
  | Failed why => ret (None, Some (backend_error why))
  | _ =>
      gets (fun t =>
        (if owns user_id t then consents t !! (user_id, provider_id) else None, None))
  end.

(** [.update(columns).eq(..).eq(..)]; the table's trigger stamps
    [updated_at] with the time of the update. *)
Definition update_consent (c : Db.Columns) (user_id provider_id : string)
  : Eff (option Thrown) :=
  r <- await_backend;;
  match r with
  | Failed why => ret (Some (backend_error why))
  | _ =>
      modify (fun t =>
        if owns user_id t then
          with_consents
            (alter
               (fun row =>
                  Db.mkRow
                    (Db.mkColumns (Db.lab_results c) (Db.medications c)
                       (Db.fitness_data c) (Db.approved c) (now t))
                    (Db.created_at row))
               (user_id, provider_id) (consents t)) t
        else t);;
      ret None
  end.

(** [.insert({ user_id, provider_id, ...columns })] *)
Definition insert_consent (user_id provider_id : string) (c : Db.Columns)
  : Eff (option Thrown) :=
  r <- await_backend;;
  match r with
  | Failed why => ret (Some (backend_error why))
  | _ =>
      fun t =>
        if negb (owns user_id t) then
          (Returns (Some (backend_error "new row violates row-level security policy")), t)
        else
          match consents t !! (user_id, provider_id) with
          | Some _ =>
              (Returns (Some (backend_error "duplicate key value violates unique constraint")), t)
          | None =>
              (Returns None,
               with_consents (<[(user_id, provider_id) := Db.mkRow c (now t)]> (consents t)) t)
          end
  end.

(** [.delete().eq(..).eq(..)] *)
Definition delete_consent (user_id provider_id : string) : Eff (option Thrown) :=
  r <- await_backend;;
  match r with
  | Failed why => ret (Some (backend_error why))
  | _ =>
      modify (fun t =>
        if owns user_id t then
          with_consents (delete (user_id, provider_id) (consents t)) t
        else t);;
      ret None
  end.

End Runtime.

(** ** [services/auth]: the legacy session adapter *)

Module AuthService.
Import JS Browser Runtime.
Local Open Scope eff_scope.

Definition cooldownPeriod : Z := 60000.

(** [`verification_${email}`] *)
Definition verification_key (email : string) : string := "verification_" ++ email.

Definition rate_limit_message : string :=
  "Please wait a minute before requesting another verification email.".

Definition resendVerification (email : string) : Eff unit :=
  lastAttempt <- getItem (verification_key email);;
  (match lastAttempt with
   | Some stamp =>
       if truthy stamp then
         clock <- Date_now;;
         match parseInt stamp with
         | Some at_ =>
             if clock - at_ <? cooldownPeriod
             then throw (mkThrown PlainError rate_limit_message)
             else ret tt
         | None => ret tt       (* a comparison with [NaN] is false *)
         end
       else ret tt
   | None => ret tt
   end);;
  api_post "send-Verify-email" (JObject [("email", JString email)]);;
  clock <- Date_now;;
  setItem (verification_key email) (Number_toString clock).

Definition logout : Eff unit :=
  api_get "logout";;
  removeItem "token";;
  removeItem "user".

(** [o.token], or the [TypeError] of reading it off [null]. *)
Definition token_of (response : Json) : Eff Value :=
  match getProp response "token" with
  | Some v => ret v
  | None => throw (mkThrown TypeError "Cannot read properties of null (reading 'token')")
  end.

(** No attempt is on record for the address, or the recorded one is a
    cooldown or more away. *)
Definition cooled (email : string) (t : Tab) : Prop :=
  localStorage t !! verification_key email = None
  \/ exists at_, localStorage t !! verification_key email = Some (Number_toString at_)
                 /\ cooldownPeriod <= now t - at_.

End AuthService.

(** ** [services/authBridge]: one session from the other *)

Module AuthBridge.
Import JS Browser Runtime.
Local Open Scope eff_scope.

(** [None] is the [null] the function returns. *)
Definition authenticateLegacy (email password : string) : Eff (option Json) :=
  try_catch
    (response <-
       api_post "login" (JObject [("email", JString email); ("password", JString password)]);;
     token <- AuthService.token_of response;;
     if truthy_value token then
       setItem_value "token" token;;
       ret (Some response)
     else ret None)
    (fun error =>
       console_error "Legacy API authentication failed:";;
       ret None).

(** The pair is [{ supabase, legacy }]. *)
Definition checkAuth : Eff (bool * bool) :=
  supabaseSession <- auth_getSession;;
  legacyToken <- getItem "token";;
  legacyValid <-
    (match legacyToken with
     | Some tk =>
         if truthy tk then
           try_catch (api_get "me";; ret true) (fun _ => ret false)
         else ret false
     | None => ret false
     end);;
  ret (match fst supabaseSession with Some _ => true | None => false end, legacyValid).

End AuthBridge.

(** ** [hooks/useAuth]: the legacy facade *)

Module AuthProvider.
Import JS Browser Runtime.
Local Open Scope eff_scope.

Definition TIMEOUT_DURATION : Z := 15000.

Definition setUser (u : option Json) : Eff unit :=
  modify (fun t =>
    with_auth (AuthContext.mk u (AuthContext.loading (auth t)) (AuthContext.error (auth t))) t).
Definition setLoading (b : bool) : Eff unit :=
  modify (fun t =>
    with_auth (AuthContext.mk (AuthContext.user (auth t)) b (AuthContext.error (auth t))) t).
Definition setError (e : option string) : Eff unit :=
  modify (fun t =>
    with_auth (AuthContext.mk (AuthContext.user (auth t)) (AuthContext.loading (auth t)) e) t).

Record RegisterCredentials : Type := mkRegisterCredentials {
  email : string;
  password : string;
  name : string;
  redirectTo : option string
}.

Record LoginCredentials : Type := mkLoginCredentials {
  login_email : string;
  login_password : string;
  login_redirectTo : option string
}.

Definition optional_field (k : string) (v : option string) : list (string * Json) :=
  match v with
  | Some s => [(k, JString s)]
  | None => []
  end.

Definition register_body (c : RegisterCredentials) : Json :=
  JObject ([("email", JString (email c)); ("password", JString (password c));
            ("name", JString (name c))] ++ optional_field "redirectTo" (redirectTo c)).

Definition login_body (c : LoginCredentials) : Json :=
  JObject ([("email", JString (login_email c)); ("password", JString (login_password c))]
           ++ optional_field "redirectTo" (login_redirectTo c)).

(** [[^\s@]] *)
Definition local_char (c : ascii) : bool :=
  negb (is_whitespace c || Ascii.eqb c "@").

(** [/^[^\s@]+@[^\s@]+\.[^\s@]+$/] *)
Definition email_pattern : regex :=
  Cat (Plus (Class local_char))
    (Cat (Chr "@")
       (Cat (Plus (Class local_char))
          (Cat (Chr ".") (Plus (Class local_char))))).

(** Every value thrown here but the platform's plain error objects is an
    [Error]. *)
Definition instanceof_Error (e : Thrown) : bool :=
  match class e with
  | BackendError => false
  | _ => true
  end.

Definition register_timeout : string :=
  "Registration request timed out. Please try again.".
Definition login_timeout : string := "Login request timed out. Please try again.".
Definition request_timeout : string := "Request timed out. Please try again.".

Definition register (credentials : RegisterCredentials) : Eff unit :=
  setLoading true;;
  setError None;;
  if negb (matches email_pattern (email credentials)) then
    setError (Some "Please enter a valid email address");;
    setLoading false
  else if (String.length (password credentials) <? 8)%nat then
    setError (Some "Password must be at least 8 characters long");;
    setLoading false
  else if negb (truthy (trim (name credentials))) then
    setError (Some "Name is required");;
    setLoading false
  else
    timeoutId <- setTimeout register_timeout TIMEOUT_DURATION;;
    try_catch
      (api_post "register" (register_body credentials);;
       clearTimeout timeoutId;;
       setLoading false;;
       setError (Some "Registration successful! Please check your email to verify your account."))
      (fun err =>
         clearTimeout timeoutId;;
         (if instanceof_Error err then setError (Some (message err))
          else setError (Some "Registration failed. Please try again."));;
         setLoading false).

(** [o.k], throwing the [TypeError] of a [null] receiver. *)
Definition prop (o : Json) (k : string) : Eff Value :=
  match getProp o k with
  | Some v => ret v
  | None =>
      throw (mkThrown TypeError
               ("Cannot read properties of null (reading '" ++ k ++ "')"))
  end.

(** A value put in the [user] state: [null] and [undefined] are no user. *)
Definition as_user (v : Value) : option Json :=
  match v with
  | Undefined => None
  | Of JNull => None
  | Of j => Some j
  end.

Section Serialised.
(** The text [localStorage.setItem(k, JSON.stringify(v))] stores; the
    serialiser belongs to the platform. *)
Variable JSON_stringify : Value -> string.

Definition login (credentials : LoginCredentials) : Eff unit :=
  setLoading true;;
  setError None;;
  if negb (truthy (trim (login_email credentials)))
     || negb (truthy (trim (login_password credentials))) then
    setError (Some "Email and password are required");;
    setLoading false
  else
    timeoutId <- setTimeout login_timeout TIMEOUT_DURATION;;
    finally
      (try_catch
         (response <- api_post "login" (login_body credentials);;
          clearTimeout timeoutId;;
          token <- prop response "token";;
          setItem_value "token" token;;
          user <- prop response "user";;
          setItem "user" (JSON_stringify user);;
          setUser (as_user user);;
          setError (Some "");;
          navigate "/")
         (fun err =>
            clearTimeout timeoutId;;
            (if instanceof_Error err then setError (Some (message err))
             else setError (Some "Login failed. Please try again."));;
            throw err))
      (setLoading false).

Definition updateProfile (credentials : Json) : Eff unit :=
  setLoading true;;
  setError None;;
  timeoutId <- setTimeout request_timeout TIMEOUT_DURATION;;
  try_catch
    (updatedUser <- api_post "profile" credentials;;
     clearTimeout timeoutId;;
     setUser (as_user (Of updatedUser));;
     setItem "user" (JSON_stringify (Of updatedUser));;
     setLoading false)
    (fun err =>
       clearTimeout timeoutId;;
       setError (Some "Failed to update profile. Please try again.");;
       setLoading false).
End Serialised.

Definition resendVerification (email : string) : Eff unit :=
  setLoading true;;
  setError None;;
  timeoutId <- setTimeout request_timeout TIMEOUT_DURATION;;
  try_catch
    (api_post "send-Verify-email" (JObject [("email", JString email)]);;
     clearTimeout timeoutId;;
     setLoading false;;
     setError (Some "Verification email has been resent. Please check your inbox."))
    (fun err =>
       clearTimeout timeoutId;;
       (if instanceof_Error err then setError (Some (message err))
        else setError (Some "Failed to resend verification email. Please try again."));;
       setLoading false).

Definition logout : Eff unit :=
  setLoading true;;
  setError None;;
  try_catch
    (send "GET" "logout" None;;       (* [api.get('logout')], not awaited *)
     removeItem "token";;
     removeItem "user";;
     setUser None;;
     setLoading false;;
     navigate "/login")
    (fun err =>
       setError (Some "Failed to logout");;
       setLoading false;;
       throw err).

(** The shape shared by the remaining operations: arm the timer, await one
    POST, and on failure show a fixed message. *)
Definition guarded_post (endpoint : string) (body : Json) (failure : string)
  : Eff unit :=
  setLoading true;;
  setError None;;
  timeoutId <- setTimeout request_timeout TIMEOUT_DURATION;;
  try_catch
    (api_post endpoint body;;
     clearTimeout timeoutId;;
     setLoading false)
    (fun err =>
       clearTimeout timeoutId;;
       setError (Some failure);;
       setLoading false).

Definition forgotPassword (email : string) : Eff unit :=
  guarded_post "forgot-password" (JObject [("email", JString email)])
    "Failed to send password reset email. Please try again.".

Definition verifyForgotPassword (credentials : Json) : Eff unit :=
  guarded_post "forgot-password-verify" credentials
    "Password reset verification failed. Please try again.".

Definition resetPassword (credentials : Json) : Eff unit :=
  guarded_post "reset-password" credentials
    "Password reset failed. Please try again.".

Definition verifyTwoFactor (credentials : Json) : Eff unit :=
  guarded_post "two-factor-verify-code" credentials
    "Two-factor verification failed. Please try again.".

Definition sendTwoFactorCode (email : string) : Eff unit :=
  guarded_post "send-2facode" (JObject [("email", JString email)])
    "Failed to send verification code. Please try again.".

Definition updatePassword (credentials : Json) : Eff unit :=
  guarded_post "update-password" credentials
    "Failed to update password. Please try again.".

Definition updateNotificationSettings (settings : Json) : Eff unit :=
  guarded_post "user-notification-settings" settings
    "Failed to update notification settings. Please try again.".

Definition getNotificationSettings : Eff Json :=
  setLoading true;;
  setError None;;
  timeoutId <- setTimeout request_timeout TIMEOUT_DURATION;;
  try_catch
    (settings <- api_get "user-notification-settings";;
     clearTimeout timeoutId;;
     setLoading false;;
     ret settings)
    (fun err =>
       clearTimeout timeoutId;;
       setError (Some "Failed to get notification settings. Please try again.");;
       setLoading false;;
       throw err).

Section Mounted.
(** [JSON.parse], which belongs to the platform: the value, or the
    [SyntaxError] it throws. *)
Variable JSON_parse : string -> Thrown + Json.

(** The effect run once when the provider mounts. *)
Definition checkAuthStatus : Eff unit :=
  finally
    (try_catch
       (token <- getItem "token";;
        savedUser <- getItem "user";;
        match token, savedUser with
        | Some tk, Some su =>
            if truthy tk && truthy su then
              match JSON_parse su with
              | inr v => setUser (as_user (Of v))
              | inl e => throw e
              end
            else
              setUser None;;
              removeItem "token";;
              removeItem "user"
        | _, _ =>
            setUser None;;
            removeItem "token";;
            removeItem "user"
        end)
       (fun err =>
          console_error "Auth error:";;
          removeItem "token";;
          removeItem "user";;
          setUser None))
    (setLoading false).
End Mounted.

(** The operations of the facade that await the network. *)
Inductive Operation : Type :=
| Register (credentials : RegisterCredentials)
| Login (credentials : LoginCredentials)
| ResendVerification (email : string)
| ForgotPassword (email : string)
| VerifyForgotPassword (credentials : Json)
| ResetPassword (credentials : Json)
| VerifyTwoFactor (credentials : Json)
| SendTwoFactorCode (email : string)
| UpdateProfile (credentials : Json)
| UpdatePassword (credentials : Json)
| GetNotificationSettings
| UpdateNotificationSettings (settings : Json).

Definition perform (JSON_stringify : Value -> string) (op : Operation) : Eff unit :=
  match op with
  | Register c => register c
  | Login c => login JSON_stringify c
  | ResendVerification e => resendVerification e
  | ForgotPassword e => forgotPassword e
  | VerifyForgotPassword c => verifyForgotPassword c
  | ResetPassword c => resetPassword c
  | VerifyTwoFactor c => verifyTwoFactor c
  | SendTwoFactorCode e => sendTwoFactorCode e
  | UpdateProfile c => updateProfile JSON_stringify c
  | UpdatePassword c => updatePassword c
  | GetNotificationSettings => getNotificationSettings;; ret tt
  | UpdateNotificationSettings s => updateNotificationSettings s
  end.

(** The message each operation gives its timer. *)
Definition timeout_of (op : Operation) : string :=
  match op with
  | Register _ => register_timeout
  | Login _ => login_timeout
  | _ => request_timeout
  end.

(** The client-side checks that come before the request. *)
Definition validated (op : Operation) : bool :=
  match op with
  | Register c =>
      matches email_pattern (email c)
      && negb (String.length (password c) <? 8)%nat
      && truthy (trim (name c))
  | Login c => truthy (trim (login_email c)) && truthy (trim (login_password c))
  | _ => true
  end.

(** The operations whose [catch] throws the error again. *)
Definition rethrows (op : Operation) : bool :=
  match op with
  | Login _ | GetNotificationSettings => true
  | _ => false
  end.

(** The awaited call is still pending when the timer is due: it settles
    [TIMEOUT_DURATION] or more after the operation began, or never. *)
Definition outlasts_timeout (t : Tab) : Prop :=
  replies t = []
  \/ exists d f rest, replies t = (d, f) :: rest /\ TIMEOUT_DURATION <= Z.of_N d.

End AuthProvider.

(** ** [hooks/useSupabaseAuth]: the platform facade *)

Module SupabaseAuthProvider.
Import JS Browser Runtime.
Import SupabaseAuthContext.
Local Open Scope eff_scope.

Definition setUser (u : option User) : Eff unit :=
  modify (fun t =>
    with_supabaseAuth
      (mk u (session (supabaseAuth t)) (loading (supabaseAuth t)) (error (supabaseAuth t))) t).
Definition setSession (s : option Session) : Eff unit :=
  modify (fun t =>
    with_supabaseAuth
      (mk (user (supabaseAuth t)) s (loading (supabaseAuth t)) (error (supabaseAuth t))) t).
Definition setLoading (b : bool) : Eff unit :=
  modify (fun t =>
    with_supabaseAuth
      (mk (user (supabaseAuth t)) (session (supabaseAuth t)) b (error (supabaseAuth t))) t).
Definition setError (e : option string) : Eff unit :=
  modify (fun t =>
    with_supabaseAuth
      (mk (user (supabaseAuth t)) (session (supabaseAuth t)) (loading (supabaseAuth t)) e) t).

Definition initializeAuth : Eff unit :=
  setLoading true;;
  got <- auth_getSession;;
  (match snd got with
   | Some error =>
       console_error "Error getting session:";;
       setError (Some (message error))
   | None =>
       setSession (fst got);;
       setUser (option_map session_user (fst got))
   end);;
  modify (with_subscribed true);;      (* [supabase.auth.onAuthStateChange(...)] *)
  setLoading false.

Definition signUp (email password name : string) : Eff unit :=
  finally
    (try_catch
       (setLoading true;;
        setError None;;
        got <- auth_signUp email password name;;
        match snd got with
        | Some error => setError (Some (message error))
        | None => ret tt
        end)
       (fun e => setError (Some (message e))))
    (setLoading false).

Definition signIn (email password : string) : Eff unit :=
  finally
    (try_catch
       (setLoading true;;
        setError None;;
        got <- auth_signInWithPassword email password;;
        match snd got, fst got with
        | Some error, _ => setError (Some (message error))
        | None, Some s =>
            setItem "supabase_auth_token" (access_token s);;
            navigate "/"
        | None, None => ret tt
        end)
       (fun e => setError (Some (message e))))
    (setLoading false).

Definition signOut : Eff unit :=
  finally
    (try_catch
       (setLoading true;;
        auth_signOut;;
        removeItem "token";;
        removeItem "user";;
        navigate "/login")
       (fun e => setError (Some (message e))))
    (setLoading false).

(** The operations of the facade that await the platform. *)
Inductive Operation : Type :=
| SignUp (email password name : string)
| SignIn (email password : string)
| SignOut.

Definition perform (op : Operation) : Eff unit :=
  match op with
  | SignUp email password name => signUp email password name
  | SignIn email password => signIn email password
  | SignOut => signOut
  end.

(** Whether the operation calls [setError(null)] before it awaits:
    [signOut] does not. *)
Definition clears_error (op : Operation) : bool :=
  match op with
  | SignOut => false
  | _ => true
  end.

End SupabaseAuthProvider.

(** ** [components/Sidebar]: the logout button *)

Module Sidebar.
Import JS Browser Runtime.
Local Open Scope eff_scope.

Definition handleLogout : Eff unit :=
  try_catch
    (AuthProvider.logout;;
     SupabaseAuthProvider.signOut;;
     navigate "/login")
    (fun error => console_error "Logout error:").

End Sidebar.

(** ** The router's guard, read off the tab *)

Module Router.
Import Browser.

Definition ProtectedRoute (t : Tab) : RouteGuard.Rendered :=
  RouteGuard.ProtectedRoute
    (AuthContext.user (auth t)) (AuthContext.loading (auth t))
    (SupabaseAuthContext.user (supabaseAuth t))
    (SupabaseAuthContext.loading (supabaseAuth t)).

Definition PublicRoute (t : Tab) : RouteGuard.Rendered :=
  RouteGuard.PublicRoute
    (AuthContext.user (auth t)) (AuthContext.loading (auth t))
    (SupabaseAuthContext.user (supabaseAuth t))
    (SupabaseAuthContext.loading (supabaseAuth t)).

(** What a completed sign-out leaves behind: neither storage key, no
    platform session or user, and a guard that lets nobody in. *)
Definition signed_out (t : Tab) : Prop :=
  localStorage t !! "token" = None
  /\ localStorage t !! "user" = None
  /\ client_session t = None
  /\ SupabaseAuthContext.user (supabaseAuth t) = None
  /\ SupabaseAuthContext.loading (supabaseAuth t) = false
  /\ RouteGuard.admits (ProtectedRoute t) = false
  /\ (AuthContext.loading (auth t) = false ->
      ProtectedRoute t = RouteGuard.NavigateTo "/login").

End Router.

(** ** [pages/Login]: the redirect of a visitor who is signed in *)

Module Login.
Import JS Browser Runtime.
Local Open Scope eff_scope.

(** The effect that follows a change of either session. *)
Definition checkAuthStatus : Eff unit :=
  session <- gets (fun t => SupabaseAuthContext.session (supabaseAuth t));;
  legacyUser <- gets (fun t => AuthContext.user (auth t));;
  if match session with Some _ => true | None => false end
     || match legacyUser with Some u => truthy_value (Of u) | None => false end
  then navigate "/"
  else ret tt.

End Login.

(** ** [pages/Consent]: the consent screen *)

Module Consent.
Import JS Browser Runtime Types.
Import ConsentPage.
Local Open Scope eff_scope.

Definition setProviders (f : list Provider -> list Provider) : Eff unit :=
  modify (fun t =>
    let s := consentPage t in
    with_consentPage
      (mk (f (providers s)) (selectedProvider s) (isModalOpen s) (loading s) (error s)) t).
Definition setIsModalOpen (b : bool) : Eff unit :=
  modify (fun t =>
    let s := consentPage t in
    with_consentPage
      (mk (providers s) (selectedProvider s) b (loading s) (error s)) t).
Definition setLoading (b : bool) : Eff unit :=
  modify (fun t =>
    let s := consentPage t in
    with_consentPage
      (mk (providers s) (selectedProvider s) (isModalOpen s) b (error s)) t).

(** [providers.find(p => p.id === providerId)] *)
Definition find_provider (providerId : string) (ps : list Provider) : option Provider :=
  List.find (fun p => String.eqb (id p) providerId) ps.

Definition status_of (any : bool) : AccessStatus :=
  if any then Granted else Disconnected.

(** [{ ...provider, permissions, accessStatus }] for the provider with the
    given id, every other provider as it is. *)
Definition with_permissions (providerId : string) (p : Permissions) (any : bool)
    (ps : list Provider) : list Provider :=
  map (fun provider =>
         if String.eqb (id provider) providerId then
           mkProvider (id provider) (name provider) (logo provider)
             (dateAdded provider) (status_of any) p
         else provider) ps.

(** [dbPermissions] *)
Definition dbPermissions (p : Permissions) (any : bool) (clock : Z) : Db.Columns :=
  Db.mkColumns (labResults p) (medications p) (fitnessData p) any clock.

Definition not_authenticated : Thrown := mkThrown PlainError "User not authenticated".

(** The read-then-write both handlers share, statement for statement:
    look the record up, then update it or insert it. *)
Definition write_consent (user_id providerId : string) (c : Db.Columns) : Eff unit :=
  found <- select_consent user_id providerId;;
  match snd found with
  | Some queryError => throw queryError
  | None =>
      match fst found with
      | Some _ =>
          updateError <- update_consent c user_id providerId;;
          match updateError with
          | Some e => throw e
          | None => ret tt
          end
      | None =>
          insertError <- insert_consent user_id providerId c;;
          match insertError with
          | Some e => throw e
          | None => ret tt
          end
      end
  end.

Definition handlePermissionToggle (providerId : string) (permission : PermissionKey)
  : Eff unit :=
  finally
    (try_catch
       (setLoading true;;
        shown <- gets (fun t => providers (consentPage t));;
        match find_provider providerId shown with
        | None => ret tt
        | Some provider =>
            let newPermissions :=
              set (permissions provider) permission
                (negb (get (permissions provider) permission)) in
            user <- auth_getUser;;
            match user with
            | None => throw not_authenticated
            | Some user =>
                let hasAnyPermissions := some_Boolean (Object_values newPermissions) in
                clock <- Date_now;;
                write_consent (SupabaseAuthContext.id user) providerId
                  (dbPermissions newPermissions hasAnyPermissions clock);;
                setProviders
                  (with_permissions providerId newPermissions
                     (some_Boolean (Object_values newPermissions)))
            end
        end)
       (fun err =>
          console_error "Error toggling permission:";;
          alert "Failed to update permission. Please try again."))
    (setLoading false).

(** The parameter is declared with an index signature; the one caller
    passes the modal's three-flag [currentPermissions], and the value is
    stored in a field of that type, which is the type taken here. *)
Definition handleUpdatePermissions (providerId : string) (newPermissions : Permissions)
  : Eff unit :=
  finally
    (try_catch
       (setLoading true;;
        user <- auth_getUser;;
        match user with
        | None => throw not_authenticated
        | Some user =>
            let hasAnyPermissions := some_Boolean (Object_values newPermissions) in
            clock <- Date_now;;
            write_consent (SupabaseAuthContext.id user) providerId
              (dbPermissions newPermissions hasAnyPermissions clock);;
            setProviders (with_permissions providerId newPermissions hasAnyPermissions);;
            setIsModalOpen false
        end)
       (fun err =>
          console_error "Error updating permissions:";;
          alert "Failed to update permissions. Please try again."))
    (setLoading false).

Definition setError (e : option string) : Eff unit :=
  modify (fun t =>
    let s := consentPage t in
    with_consentPage
      (mk (providers s) (selectedProvider s) (isModalOpen s) (loading s) e) t).

(** [{ ...provider, accessStatus: 'Disconnected', permissions: all off }]
    for the provider with the given id. *)
Definition disconnected (providerId : string) (ps : list Provider) : list Provider :=
  map (fun provider =>
         if String.eqb (id provider) providerId then
           mkProvider (id provider) (name provider) (logo provider)
             (dateAdded provider) Disconnected (mkPermissions false false false)
         else provider) ps.

(** [fetchProviders()], called and not awaited: what it does before it
    first suspends, on the platform's [getUser].  What it does once the
    platform answers comes after the calling handler is over. *)
Definition start_fetchProviders : Eff unit :=
  setLoading true;;
  setError None.

Definition handleDeleteProvider (providerId : string) : Eff unit :=
  finally
    (try_catch
       (setLoading true;;
        user <- auth_getUser;;
        match user with
        | None => throw not_authenticated
        | Some user =>
            deleteError <- delete_consent (SupabaseAuthContext.id user) providerId;;
            match deleteError with
            | Some e => throw e
            | None =>
                setProviders (disconnected providerId);;
                setIsModalOpen false;;
                start_fetchProviders
            end
        end)
       (fun err =>
          console_error "Error deleting provider:";;
          alert "Failed to disconnect provider. Please try again."))
    (setLoading false).

(** The status column agrees with the three switches. *)
Definition status_agrees (p : Provider) : Prop :=
  accessStatus p = status_of (some_Boolean (Object_values (permissions p))).

(** What the consent screen shows of a save: its list, its alerts, whether
    the modal is open. *)
Definition shown (t : Tab) : list Provider * list string * bool :=
  (providers (consentPage t), alerts t, isModalOpen (consentPage t)).

End Consent.

(** ** [components/ProviderAccessModal] *)

Module ProviderAccessModal.
Import JS Browser Runtime Types.
Import AccessModal.
Local Open Scope eff_scope.

Definition setLoading (b : bool) : Eff unit :=
  modify (fun t =>
    let s := accessModal t in
    with_accessModal
      (mk (provider s) b (error s) (currentPermissions s) (confirmingDelete s)) t).
Definition setError (e : option string) : Eff unit :=
  modify (fun t =>
    let s := accessModal t in
    with_accessModal
      (mk (provider s) (loading s) e (currentPermissions s) (confirmingDelete s)) t).
Definition setCurrentPermissions (f : Permissions -> Permissions) : Eff unit :=
  modify (fun t =>
    let s := accessModal t in
    with_accessModal
      (mk (provider s) (loading s) (error s) (f (currentPermissions s))
         (confirmingDelete s)) t).

(** The three switches call it with their own key. *)
Definition handlePermissionToggle (permission : PermissionKey) : Eff unit :=
  setCurrentPermissions (fun prev => set prev permission (negb (get prev permission))).

(** The platform path of [handleSaveChanges], up to its write: the user,
    the read, then the update or the insert.  [false]: there was no user,
    and nothing was attempted. *)
Definition platform_write (s : AccessModal.t) (hasAnyPermissions : bool) : Eff bool :=
  user <- auth_getUser;;
  match user with
  | Some user =>
      found <- select_consent (SupabaseAuthContext.id user) (id (provider s));;
      match snd found with
      | Some queryError => throw queryError
      | None =>
          clock <- Date_now;;
          let dbPermissions :=
            Consent.dbPermissions (currentPermissions s) hasAnyPermissions clock in
          (match fst found with
           | Some _ =>
               updateError <-
                 update_consent dbPermissions
                   (SupabaseAuthContext.id user) (id (provider s));;
               match updateError with
               | Some e => throw e
               | None => ret tt
               end
           | None =>
               insertError <-
                 insert_consent (SupabaseAuthContext.id user)
                   (id (provider s)) dbPermissions;;
               match insertError with
               | Some e => throw e
               | None => ret tt
               end
           end);;
          ret true
      end
  | None => ret false
  end.

Section Props.
Variable onUpdatePermissions : string -> Permissions -> Eff unit.
Variable onClose : Eff unit.

(** What follows the inner [try]: the parent's handler, then closing. *)
Definition fall_back (s : AccessModal.t) : Eff unit :=
  onUpdatePermissions (id (provider s)) (currentPermissions s);;
  onClose.

Definition report (err : Thrown) : Eff unit :=
  console_error "Error updating permissions:";;
  if AuthProvider.instanceof_Error err then setError (Some (message err))
  else setError (Some "Failed to update permissions. Please try again.").

(** [returned] stands for the [return] that ends the handler inside the
    inner [try], after the platform write and the parent's handler. *)
Definition handleSaveChanges : Eff unit :=
  finally
    (try_catch
       (setLoading true;;
        setError None;;
        s <- gets accessModal;;
        let hasAnyPermissions := some_Boolean (Object_values (currentPermissions s)) in
        returned <-
          try_catch
            (written <- platform_write s hasAnyPermissions;;
             if written : bool then
               onUpdatePermissions (id (provider s)) (currentPermissions s);;
               onClose;;
               ret true
             else ret false)
            (fun supErr =>
               console_error "Error updating in Supabase:";;
               ret false);;
        if returned : bool then ret tt
        else fall_back s)
       report)
    (setLoading false).
End Props.

Definition setConfirmingDelete (b : bool) : Eff unit :=
  modify (fun t =>
    let s := accessModal t in
    with_accessModal
      (mk (provider s) (loading s) (error s) (currentPermissions s) b) t).

(** The platform path of [handleDelete], up to its delete.  [false]: there
    was no user, and nothing was attempted. *)
Definition platform_delete (s : AccessModal.t) : Eff bool :=
  user <- auth_getUser;;
  match user with
  | Some user =>
      deleteError <- delete_consent (SupabaseAuthContext.id user) (id (provider s));;
      match deleteError with
      | Some e => throw e
      | None => ret true
      end
  | None => ret false
  end.

Section DeleteProps.
Variable onDeleteProvider : string -> Eff unit.
Variable onClose : Eff unit.

Definition report_delete (err : Thrown) : Eff unit :=
  console_error "Error removing provider access:";;
  if AuthProvider.instanceof_Error err then setError (Some (message err))
  else setError (Some "Failed to remove provider access. Please try again.").

Definition handleDelete : Eff unit :=
  s0 <- gets accessModal;;
  if negb (confirmingDelete s0) then setConfirmingDelete true
  else
    finally
      (try_catch
         (setLoading true;;
          setError None;;
          s <- gets accessModal;;
          returned <-
            try_catch
              (deleted <- platform_delete s;;
               if deleted : bool then
                 onDeleteProvider (id (provider s));;
                 onClose;;
                 ret true
               else ret false)
              (fun supErr =>
                 console_error "Error deleting in Supabase:";;
                 ret false);;
          if returned : bool then ret tt
          else
            onDeleteProvider (id (provider s));;
            onClose)
         report_delete)
      (setLoading false;;
       setConfirmingDelete false).

Definition handleCancel : Eff unit :=
  s <- gets accessModal;;
  if confirmingDelete s then setConfirmingDelete false
  else onClose.
End DeleteProps.

(** The modal as the consent screen mounts it. *)
Definition save : Eff unit :=
  handleSaveChanges Consent.handleUpdatePermissions (Consent.setIsModalOpen false).

Definition remove : Eff unit :=
  handleDelete Consent.handleDeleteProvider (Consent.setIsModalOpen false).

Definition cancel : Eff unit := handleCancel (Consent.setIsModalOpen false).

End ProviderAccessModal.

(** ** What a handler keeps, and whether it can throw *)

Module Logic.
Import Browser.

(** Every run of [m], however it settles, takes a tab to one related to it. *)
Definition preserved {A : Type} (R : Tab -> Tab -> Prop) (m : Eff A) : Prop :=
  forall t, R t (after m t).

Definition never_throws {A : Type} (m : Eff A) : Prop :=
  forall t e, outcome m t <> Throws e.

(** The part [part] of the tab is as it was. *)
Definition same {X : Type} (part : Tab -> X) (t t' : Tab) : Prop := part t' = part t.

(** Every consent row is as it was, or has [approved] equal to the
    disjunction of its three flags. *)
Definition rows_ok (t t' : Tab) : Prop :=
  forall k row,
    consents t' !! k = Some row ->
    consents t !! k = Some row \/ Db.approved_is_any (Db.columns row).

(** Who a row of the consent list is about. *)
Definition identity (p : Types.Provider) : string * string * string * string :=
  (Types.id p, Types.name p, Types.logo p, Types.dateAdded p).

(** The consent list is about the same providers, in the same order, and
    its status column agrees with the switches if it did. *)
Definition screen_ok (t t' : Tab) : Prop :=
  map identity (ConsentPage.providers (consentPage t'))
  = map identity (ConsentPage.providers (consentPage t))
  /\ (Forall Consent.status_agrees (ConsentPage.providers (consentPage t)) ->
      Forall Consent.status_agrees (ConsentPage.providers (consentPage t'))).

End Logic.

(** ** Concrete tabs, for the examples *)

Module Scenario.
Import JS Browser Types.

Definition p1 : Provider :=
  mkProvider "p1" "HealthMart Pharmacy" "/elroi-logo.svg" "05/20/2024" Disconnected
    (mkPermissions false false false).

Definition alice : SupabaseAuthContext.User :=
  SupabaseAuthContext.mkUser "u1" "alice@example.org".

Definition alice_session : SupabaseAuthContext.Session :=
  SupabaseAuthContext.mkSession "jwt-1" alice.

(** A tab where nothing has happened yet and nobody is signed in. *)
Definition blank : Tab :=
  mkTab 1700000000000 ∅ [] [] [] 0 [] "/" None true [] ∅ [] []
    (AuthContext.mk None false None)
    (SupabaseAuthContext.mk None None false None)
    (ConsentPage.mk [] None false false None)
    (AccessModal.mk p1 false None (permissions p1) false).

(** Alice signed in on the platform, with [p1] on her consent screen. *)
Definition signed_in : Tab :=
  with_consentPage (ConsentPage.mk [p1] (Some p1) true false None)
    (with_supabaseAuth (SupabaseAuthContext.mk (Some alice) (Some alice_session) false None)
       (with_client_session (Some alice_session) blank)).

(** Alice holding both sessions: the legacy token and user snapshot are
    stored as well. *)
Definition both_sessions : Tab :=
  with_auth (AuthContext.mk (Some (JObject [("id", JString "7")])) false None)
    (with_localStorage (<["token" := "legacy-token"]> (<["user" := "{}"]> ∅)) signed_in).

(** The platform answers the next [n] calls, 40 ms, 60 ms, 90 ms, ... apart. *)
Definition answers : list (N * Reply) :=
  [(40%N, Done); (60%N, Done); (90%N, Done); (50%N, Done); (70%N, Done); (70%N, Done)].

(** Alice's consent record for [p1], written some time ago. *)
Definition old_row : Db.Row :=
  Db.mkRow (Db.mkColumns false false false false 1699990000000) 1699990000000.

Definition with_record : Tab :=
  with_backend answers (with_consents {[ ("u1", "p1") := old_row ]} signed_in).

(** Her record as another device left it, lab results granted, while her
    screen still shows [p1] with every flag off. *)
Definition granted_row : Db.Row :=
  Db.mkRow (Db.mkColumns true false false true 1699990000000) 1699990000000.

Definition with_stale_screen : Tab :=
  with_backend answers (with_consents {[ ("u1", "p1") := granted_row ]} signed_in).

(** A record older than the [approved] column: the migration that added
    the column gave it the default [false], whatever the flags.  The screen
    shows the record's flags. *)
Definition migrated_row : Db.Row :=
  Db.mkRow (Db.mkColumns true false false false 1699990000000) 1699990000000.

Definition p1_labs : Provider :=
  mkProvider "p1" "HealthMart Pharmacy" "/elroi-logo.svg" "05/20/2024" Granted
    (mkPermissions true false false).

Definition with_migrated_record : Tab :=
  with_backend answers
    (with_consents {[ ("u1", "p1") := migrated_row ]}
       (with_consentPage (ConsentPage.mk [p1_labs] (Some p1_labs) true false None)
          signed_in)).

(** Alice has no record for [p1] yet. *)
Definition without_record : Tab := with_backend answers signed_in.

(** Alice has the modal open on [p1] and has switched lab results on. *)
Definition editing : Tab :=
  with_accessModal (AccessModal.mk p1 false None (mkPermissions true false false) false)
    signed_in.

Definition rejected : Reply := Failed "new row violates row-level security policy".

End Scenario.

(** * Properties *)

(** Reading a part of a tab that is given part by part. *)
Ltac read_tab :=
  cbn [Browser.now Browser.localStorage Browser.sent Browser.replies Browser.timers
       Browser.next_timer Browser.timed_out Browser.location Browser.client_session
       Browser.subscribed Browser.backend Browser.consents Browser.alerts
       Browser.console Browser.auth Browser.supabaseAuth Browser.consentPage
       Browser.accessModal] in *.

(** Proofs about a handler start by naming the parts of the tab. *)
Ltac open_tab t :=
  destruct t as [clock storage sent_ replies_ timers_ next_ fired_ path_ session_
                 listening_ backend_ rows_ alerts_ console_ auth_ sauth_ page_ modal_];
  read_tab.

(** ** The route guard *)

Section RouteGuardFacts.
Import RouteGuard.
Context {LegacyUser SupabaseUser : Type}.

Lemma ProtectedRoute_ignores_legacy_user
    (u u' : option LegacyUser) (ll : bool) (su : option SupabaseUser) (sl : bool) :
  ProtectedRoute u ll su sl = ProtectedRoute u' ll su sl.
Proof. reflexivity. Qed.

(** C3: while either facade is loading the guard shows the waiting state;
    once neither is, it admits exactly when a platform user is present and
    otherwise redirects to the login screen, whatever the legacy user. *)
Theorem ProtectedRoute_decision
    (legacyUser : option LegacyUser) (legacyLoading : bool)
    (supabaseUser : option SupabaseUser) (supabaseLoading : bool) :
  let rendered :=
    ProtectedRoute legacyUser legacyLoading supabaseUser supabaseLoading in
  (legacyLoading = true \/ supabaseLoading = true -> rendered = Spinner)
  /\ (legacyLoading = false -> supabaseLoading = false ->
      (admits rendered = true <-> is_Some supabaseUser)
      /\ (supabaseUser = None -> rendered = NavigateTo "/login"))
  /\ (forall other : option LegacyUser,
        ProtectedRoute other legacyLoading supabaseUser supabaseLoading = rendered).
Proof.
  unfold ProtectedRoute. cbn. split; [| split].
  - intros [-> | ->]; [reflexivity | now rewrite orb_true_r].
  - intros -> ->. cbn. destruct supabaseUser as [u |]; cbn.
    + split; [split; [eauto | reflexivity] | discriminate].
    + split; [split; [discriminate | intros [x Hx]; discriminate] | reflexivity].
  - reflexivity.
Qed.
End RouteGuardFacts.

(** The guard at work: a loading facade, a platform user, no platform user. *)
Lemma ProtectedRoute_decision_witness :
  RouteGuard.ProtectedRoute (Some tt) true (Some tt) false = RouteGuard.Spinner
  /\ RouteGuard.admits (RouteGuard.ProtectedRoute (@None unit) false (Some tt) false) = true
  /\ RouteGuard.ProtectedRoute (Some tt) false (@None unit) false
     = RouteGuard.NavigateTo "/login".
Proof.
  split; [| split].
  - destruct (ProtectedRoute_decision (Some tt) true (Some tt) false) as (H & _ & _).
    apply H. left. reflexivity.
  - destruct (ProtectedRoute_decision (@None unit) false (Some tt) false) as (_ & H & _).
    apply H; [reflexivity | reflexivity | exists tt; reflexivity].
  - destruct (ProtectedRoute_decision (Some tt) false (@None unit) false) as (_ & H & _).
    apply H; reflexivity.
Defined.

(** ** The REST client *)

Section ApiFacts.
Import JS Api.

(** Conversions to a string: an array joins its elements, [null] among
    them as the empty text; an object that hides [toString] has none, nor
    has an array that holds one. *)
Lemma ToString_cases :
  ToString (JArray [JNull; JNumber "1"; JArray [JString "a"; JBool true]; JObject []])
  = Some ",1,a,true,[object Object]"
  /\ ToString (JObject [("toString", JNumber "1")]) = None
  /\ ToString (JArray [JString "a"; JObject [("toString", JNull)]]) = None.
Proof. repeat split; reflexivity. Qed.

Lemma handleResponse_unparseable (st : Z) (why : string) :
  ok (mkResponse st (inl why)) = false ->
  handleResponse (mkResponse st (inl why))
  = inl (mkThrown (ApiError st)
           (if st =? 401 then "Invalid credentials" else "An error occurred")).
Proof.
  intros Hok. unfold handleResponse. rewrite Hok. cbn.
  destruct (st =? 401); reflexivity.
Qed.

Lemma handleResponse_object (st : Z) (fs : list (string * Json)) :
  ok (mkResponse st (inr (JObject fs))) = false ->
  handleResponse (mkResponse st (inr (JObject fs)))
  = inl (match field "message" fs with
         | Some j =>
             match ToString j with
             | Some text => mkThrown (ApiError st) text
             | None => not_primitive
             end
         | None => mkThrown (ApiError st) ""
         end).
Proof.
  intros Hok. unfold handleResponse. rewrite Hok. cbn.
  destruct (field "message" fs) as [j |]; cbn; [destruct (ToString j) |]; reflexivity.
Qed.

(** C9: a 500 response whose body is the JSON text [null] makes the
    request throw a [TypeError], not the typed [ApiError]; and a 401
    response whose body is [{}] carries the empty message, not "Invalid
    credentials". *)
Theorem handleResponse_null_body :
  handleResponse (mkResponse 500 (inr JNull))
  = inl (mkThrown TypeError "Cannot read properties of null (reading 'message')")
  /\ handleResponse (mkResponse 401 (inr (JObject [])))
     = inl (mkThrown (ApiError 401) "").
Proof. split; reflexivity. Qed.
End ApiFacts.

(** ** Numbers and their text *)

Section NumberFacts.
Import JS.

Lemma digit_cases (k : Z) :
  0 <= k < 10 ->
  k = 0 \/ k = 1 \/ k = 2 \/ k = 3 \/ k = 4 \/ k = 5 \/ k = 6 \/ k = 7 \/ k = 8 \/ k = 9.
Proof. lia. Qed.

(** Replace the digit characters of known digits by their literals. *)
Ltac norm_digits :=
  repeat match goal with
         | |- context [digit_char ?k] =>
             let c := eval vm_compute in (digit_char k) in
             change (digit_char k) with c in *
         | H : context [digit_char ?k] |- _ =>
             let c := eval vm_compute in (digit_char k) in
             change (digit_char k) with c in *
         end.

Ltac norm_whitespace :=
  repeat match goal with
         | |- context [is_whitespace ?c] =>
             let b := eval vm_compute in (is_whitespace c) in
             change (is_whitespace c) with b
         end.

Lemma digit_value_digit_char (k : Z) :
  0 <= k < 10 -> digit_value 10 (digit_char k) = Some k.
Proof.
  intros H. destruct (digit_cases k H) as [-> | [-> | [-> | [-> | [-> | [-> | [-> | [-> | [-> | ->]]]]]]]]];
    reflexivity.
Qed.

Lemma digits_from_S (fuel : nat) (n : Z) (acc : string) :
  digits_from (S fuel) n acc
  = if n / 10 =? 0 then String (digit_char (n mod 10)) acc
    else digits_from fuel (n / 10) (String (digit_char (n mod 10)) acc).
Proof. reflexivity. Qed.

Lemma parse_digits_from (fuel : nat) :
  forall (n : Z) (acc : string),
    0 <= n < 10 ^ Z.of_nat (S fuel) ->
    parse_digits 10 (digits_from (S fuel) n acc) None = parse_digits 10 acc (Some n).
Proof.
  induction fuel as [| fuel IH]; intros n acc Hn.
  - assert (Hlt : 0 <= n < 10) by (cbn in Hn; lia).
    assert (Hmod : n mod 10 = n) by (apply Z.mod_small; lia).
    rewrite digits_from_S. cbn [digits_from]. rewrite Hmod.
    destruct (n / 10 =? 0); cbn [parse_digits];
      rewrite (digit_value_digit_char n Hlt); reflexivity.
  - rewrite digits_from_S.
    assert (Hm : 0 <= n mod 10 < 10) by (apply Z.mod_pos_bound; lia).
    destruct (n / 10 =? 0) eqn:Hq.
    + apply Z.eqb_eq in Hq.
      assert (Hsmall : n mod 10 = n).
      { rewrite (Z.div_mod n 10) at 2 by lia. lia. }
      cbn [parse_digits]. rewrite (digit_value_digit_char _ Hm), Hsmall. reflexivity.
    + rewrite IH.
      * cbn [parse_digits]. rewrite (digit_value_digit_char _ Hm).
        f_equal. f_equal. rewrite (Z.div_mod n 10) at 3 by lia. lia.
      * split; [apply Z.div_pos; lia |].
        apply Z.div_lt_upper_bound; [lia |].
        rewrite Nat2Z.inj_succ, Z.pow_succ_r in Hn by lia. lia.
Qed.

(** The text of a number starts with a digit, and what follows is nothing
    or starts with a digit too. *)
Lemma digits_from_head (fuel : nat) :
  forall (n : Z) (acc : string),
    0 <= n ->
    exists k rest,
      digits_from (S fuel) n acc = String (digit_char k) rest
      /\ 0 <= k < 10
      /\ (rest = acc \/ exists k' rest', rest = String (digit_char k') rest' /\ 0 <= k' < 10).
Proof.
  induction fuel as [| fuel IH]; intros n acc Hn.
  - exists (n mod 10), acc. rewrite digits_from_S. cbn [digits_from].
    destruct (n / 10 =? 0); (split; [reflexivity | split; [apply Z.mod_pos_bound; lia | now left]]).
  - rewrite digits_from_S.
    assert (Hm : 0 <= n mod 10 < 10) by (apply Z.mod_pos_bound; lia).
    destruct (n / 10 =? 0).
    + exists (n mod 10), acc. split; [reflexivity | split; [assumption | now left]].
    + destruct (IH (n / 10) (String (digit_char (n mod 10)) acc)) as (k & rest & E & Hk & Hrest);
        [apply Z.div_pos; lia |].
      exists k, rest. split; [exact E | split; [exact Hk |]].
      right. destruct Hrest as [-> | Hex]; [| exact Hex].
      exists (n mod 10), acc. split; [reflexivity | assumption].
Qed.

Lemma log2_fuel (n : Z) : 0 <= n -> n < 10 ^ Z.of_nat (S (Z.to_nat (Z.log2 n))).
Proof.
  intros Hn. destruct (Z.eq_dec n 0) as [-> | Hne]; [cbn; lia |].
  assert (Hpos : 0 < n) by lia.
  pose proof (Z.log2_spec n Hpos) as [_ Hup].
  pose proof (Z.log2_nonneg n) as Hl.
  rewrite Nat2Z.inj_succ, Z2Nat.id by lia.
  eapply Z.lt_le_trans; [exact Hup |].
  apply Z.pow_le_mono_l. lia.
Qed.

Lemma parseInt_digits (n : Z) : 0 <= n -> parseInt (digits n) = Some n /\ truthy (digits n) = true.
Proof.
  intros Hn. unfold digits.
  pose proof (parse_digits_from (Z.to_nat (Z.log2 n)) n "" (conj Hn (log2_fuel n Hn))) as Hp.
  destruct (digits_from_head (Z.to_nat (Z.log2 n)) n "" Hn) as (k & rest & E & Hk & Hrest).
  rewrite E in *. split; [| reflexivity].
  change (parse_digits 10 "" (Some n)) with (Some n) in Hp.
  unfold parseInt.
  destruct (digit_cases k Hk) as [-> | [-> | [-> | [-> | [-> | [-> | [-> | [-> | [-> | ->]]]]]]]]];
    norm_digits; cbn [trimStart]; norm_whitespace;
    try (cbn -[parse_digits Z.mul]; rewrite Hp; f_equal; lia).
  destruct Hrest as [-> | (k' & rest' & -> & Hk')].
  - cbn -[parse_digits Z.mul]. rewrite Hp. f_equal. lia.
  - destruct (digit_cases k' Hk') as [-> | [-> | [-> | [-> | [-> | [-> | [-> | [-> | [-> | ->]]]]]]]]];
      norm_digits; cbn -[parse_digits Z.mul]; rewrite Hp; f_equal; lia.
Qed.

Lemma parseInt_minus (k : Z) (rest : string) :
  0 <= k < 10 ->
  parseInt (String "-" (String (digit_char k) rest))
  = option_map Z.opp (parseInt (String (digit_char k) rest)).
Proof.
  intros Hk. unfold parseInt.
  destruct (digit_cases k Hk) as [-> | [-> | [-> | [-> | [-> | [-> | [-> | [-> | [-> | ->]]]]]]]]];
    norm_digits; cbn [trimStart]; norm_whitespace; cbn iota;
    try match goal with
        | |- context [let '(radix, s3) := ?m in _] => destruct m as [radix s3]
        end;
    match goal with
    | |- context [parse_digits ?r ?s None] => destruct (parse_digits r s None)
    end;
    cbn [option_map]; try reflexivity; f_equal; lia.
Qed.

Lemma parseInt_Number_toString (n : Z) : parseInt (Number_toString n) = Some n.
Proof.
  unfold Number_toString. destruct (n <? 0) eqn:Hneg.
  - apply Z.ltb_lt in Hneg.
    destruct (parseInt_digits (- n)) as [Hp _]; [lia |].
    unfold digits in *.
    destruct (digits_from_head (Z.to_nat (Z.log2 (- n))) (- n) "") as (k & rest & E & Hk & _);
      [lia |].
    rewrite E in *. rewrite parseInt_minus, Hp by exact Hk.
    cbn [option_map]. f_equal. lia.
  - apply Z.ltb_ge in Hneg. apply parseInt_digits. exact Hneg.
Qed.

Lemma truthy_Number_toString (n : Z) : truthy (Number_toString n) = true.
Proof.
  unfold Number_toString. destruct (n <? 0) eqn:Hneg; [reflexivity |].
  apply Z.ltb_ge in Hneg. apply parseInt_digits. exact Hneg.
Qed.

End NumberFacts.

(** ** The verification e-mail and its cooldown *)

Section ResendVerificationFacts.
Import JS Browser Runtime AuthService.

Lemma resendVerification_limited (email : string) (t : Tab) (at_ : Z) :
  localStorage t !! verification_key email = Some (Number_toString at_) ->
  now t - at_ < cooldownPeriod ->
  resendVerification email t = (Throws (mkThrown PlainError rate_limit_message), t).
Proof.
  intros Hst Hlt. open_tab t. unfold resendVerification, bind, getItem, gets, Date_now.
  cbn -[Z.ltb Z.sub]. rewrite Hst, truthy_Number_toString, parseInt_Number_toString.
  read_tab.
  apply Z.ltb_lt in Hlt. rewrite Hlt. reflexivity.
Qed.

Lemma resendVerification_cooled (email : string) (t : Tab) :
  cooled email t ->
  resendVerification email t
  = (api_post "send-Verify-email" (JObject [("email", JString email)]);;
     clock <- Date_now;;
     setItem (verification_key email) (Number_toString clock))%eff t.
Proof.
  intros Hc. unfold cooled in Hc. open_tab t.
  destruct Hc as [Hnone | (at_ & Hst & Hge)];
    unfold resendVerification, bind at 1, getItem, gets, Date_now; cbn -[Z.ltb Z.sub].
  - rewrite Hnone. reflexivity.
  - rewrite Hst, truthy_Number_toString. unfold bind at 1 2. cbn -[Z.ltb Z.sub].
    rewrite parseInt_Number_toString. read_tab.
    apply Z.ltb_ge in Hge. rewrite Hge. reflexivity.
Qed.

Lemma resendVerification_sent (email : string) (t : Tab)
    (d : N) (r : Api.Response) (v : Json) (rest : list (N * Api.Fetched)) :
  cooled email t ->
  replies t = (d, Api.Responds r) :: rest ->
  Api.handleResponse r = inr v ->
  let t' := after (resendVerification email) t in
  outcome (resendVerification email) t = Returns tt
  /\ (exists b, sent t' = (sent t ++ [Api.mkRequest "POST" "send-Verify-email" b
                                       (Some (JObject [("email", JString email)]))])%list)
  /\ localStorage t'
     = <[verification_key email := Number_toString (now t + Z.of_N d)]> (localStorage t).
Proof.
  intros Hc Hr Hv. unfold after, outcome. rewrite (resendVerification_cooled _ _ Hc).
  clear Hc. open_tab t. subst replies_.
  unfold api_post, request, send, getHeaders, await_fetch, settle, bind, getItem, gets,
    modify, Date_now, setItem, ret. cbn. rewrite Hv. cbn.
  split; [reflexivity | split; [eexists; reflexivity | reflexivity]].
Qed.

Lemma resendVerification_not_sent (email : string) (t : Tab)
    (d : N) (f : Api.Fetched) (e : Thrown) (rest : list (N * Api.Fetched)) :
  cooled email t ->
  replies t = (d, f) :: rest ->
  (forall t0, settle f t0 = (Throws e, t0)) ->
  let t' := after (resendVerification email) t in
  outcome (resendVerification email) t = Throws e
  /\ (exists b, sent t' = (sent t ++ [Api.mkRequest "POST" "send-Verify-email" b
                                       (Some (JObject [("email", JString email)]))])%list)
  /\ localStorage t' = localStorage t.
Proof.
  intros Hc Hr Hf. unfold after, outcome. rewrite (resendVerification_cooled _ _ Hc).
  clear Hc. open_tab t. subst replies_.
  unfold api_post, request, send, getHeaders, await_fetch, bind, getItem, gets,
    modify, Date_now, setItem, ret. cbn. rewrite Hf. cbn.
  split; [reflexivity | split; [eexists; reflexivity | reflexivity]].
Qed.

(** C10, as the code has it: within the cooldown of a recorded attempt the
    call throws the rate-limit error and leaves the tab as it was (no
    request, same timestamp); past the cooldown, or with nothing on record,
    it sends the request, and records the time at which the answer arrived
    when the request succeeded, nothing when it failed. *)
Theorem resendVerification_cooldown (email : string) (t : Tab) :
  (forall at_,
      localStorage t !! verification_key email = Some (Number_toString at_) ->
      now t - at_ < cooldownPeriod ->
      resendVerification email t = (Throws (mkThrown PlainError rate_limit_message), t))
  /\ (forall d f rest,
        cooled email t ->
        replies t = (d, f) :: rest ->
        let t' := after (resendVerification email) t in
        (exists b, sent t' = (sent t ++ [Api.mkRequest "POST" "send-Verify-email" b
                                          (Some (JObject [("email", JString email)]))])%list)
        /\ (forall r v, f = Api.Responds r -> Api.handleResponse r = inr v ->
              outcome (resendVerification email) t = Returns tt
              /\ localStorage t'
                 = <[verification_key email := Number_toString (now t + Z.of_N d)]>
                     (localStorage t))
        /\ (forall e, (forall t0, settle f t0 = (Throws e, t0)) ->
              outcome (resendVerification email) t = Throws e
              /\ localStorage t' = localStorage t)).
Proof.
  split.
  - intros at_. apply resendVerification_limited.
  - intros d f rest Hc Hr t'. split; [| split].
    + destruct f as [r | why].
      * destruct (Api.handleResponse r) as [e | v] eqn:Hh.
        -- apply (resendVerification_not_sent email t d (Api.Responds r) e rest Hc Hr).
           intros t0. cbn. rewrite Hh. reflexivity.
        -- apply (resendVerification_sent email t d r v rest Hc Hr Hh).
      * apply (resendVerification_not_sent email t d (Api.Rejects why)
                 (mkThrown TypeError why) rest Hc Hr).
        reflexivity.
    + intros r v -> Hh.
      destruct (resendVerification_sent email t d r v rest Hc Hr Hh) as (Ho & _ & Hs).
      split; assumption.
    + intros e He.
      destruct (resendVerification_not_sent email t d f e rest Hc Hr He) as (Ho & _ & Hs).
      split; assumption.
Qed.
End ResendVerificationFacts.

(** A second request 30 s after a recorded one is refused and changes
    nothing; one sent with nothing on record is recorded when it is
    answered, 120 ms later. *)
Lemma resendVerification_cooldown_witness :
  (let t :=
     Browser.with_localStorage
       {[ AuthService.verification_key "a@b.co" := JS.Number_toString 1699999970000 ]}
       Scenario.blank in
   AuthService.resendVerification "a@b.co" t
   = (Browser.Throws (JS.mkThrown JS.PlainError AuthService.rate_limit_message), t))
  /\ (let t :=
        Browser.with_replies
          [(120%N, Api.Responds (Api.mkResponse 200 (inr (JS.JObject []))))]
          Scenario.blank in
      Browser.localStorage (Browser.after (AuthService.resendVerification "a@b.co") t)
      = <[ AuthService.verification_key "a@b.co" := JS.Number_toString 1700000000120 ]> ∅).
Proof.
  split.
  - cbv zeta.
    apply (proj1 (resendVerification_cooldown "a@b.co" _) 1699999970000).
    + vm_compute. reflexivity.
    + vm_compute. reflexivity.
  - cbv zeta.
    set (t := Browser.with_replies
                [(120%N, Api.Responds (Api.mkResponse 200 (inr (JS.JObject []))))]
                Scenario.blank).
    destruct (resendVerification_cooldown "a@b.co" t) as [_ H].
    destruct (H 120%N (Api.Responds (Api.mkResponse 200 (inr (JS.JObject [])))) [])
      as (_ & Hok & _).
    + left. vm_compute. reflexivity.
    + reflexivity.
    + destruct (Hok _ (JS.JObject []) eq_refl eq_refl) as [_ Hs]. exact Hs.
Defined.

(** C10 as stated fails: with nothing on record the request goes out, the
    server answers 500, and no timestamp is recorded. *)
Lemma resendVerification_failed_request_unrecorded :
  let t :=
    Browser.with_replies
      [(120%N, Api.Responds (Api.mkResponse 500 (inl "Unexpected end of JSON input")))]
      Scenario.blank in
  let t' := Browser.after (AuthService.resendVerification "a@b.co") t in
  Browser.localStorage t !! AuthService.verification_key "a@b.co" = None
  /\ Browser.sent t'
     = [Api.mkRequest "POST" "send-Verify-email" None
          (Some (JS.JObject [("email", JS.JString "a@b.co")]))]
  /\ Browser.outcome (AuthService.resendVerification "a@b.co") t
     = Browser.Throws (JS.mkThrown (JS.ApiError 500) "An error occurred")
  /\ Browser.localStorage t' !! AuthService.verification_key "a@b.co" = None.
Proof. vm_compute. repeat split; reflexivity. Qed.

(** ** The legacy facade: validation before registering *)

Section RegisterFacts.
Import JS Browser Runtime AuthProvider.

Lemma truthy_false (s : string) : truthy s = false <-> s = "".
Proof. destruct s; cbn; split; congruence. Qed.

(** The request [register] hands to the network. *)
Lemma register_sends (c : RegisterCredentials) (t : Tab) :
  matches email_pattern (email c) = true ->
  (8 <= String.length (password c))%nat ->
  trim (name c) <> "" ->
  exists b,
    sent (after (register c) t)
    = (sent t ++ [Api.mkRequest "POST" "register" b (Some (register_body c))])%list.
Proof.
  intros He Hp Hn. open_tab t. unfold after, register.
  assert (Hp' : (String.length (password c) <? 8)%nat = false) by (apply Nat.ltb_ge; exact Hp).
  assert (Hn' : truthy (trim (name c)) = true).
  { destruct (truthy (trim (name c))) eqn:E; [reflexivity |].
    apply truthy_false in E. contradiction. }
  unfold bind at 1 2. unfold setLoading at 1, setError at 1, modify.
  rewrite He, Hp', Hn'. cbn -[Nat.ltb].
  unfold try_catch, api_post, request, send, getHeaders, await_fetch, settle, bind, getItem,
    gets, modify, ret, setTimeout, clearTimeout, setLoading, setError. cbn.
  eexists.
  destruct replies_ as [| [d [r | why]] rest]; cbn; [reflexivity | | reflexivity].
  destruct (Api.handleResponse r) as [e | v]; cbn; [| reflexivity].
  destruct (instanceof_Error e); reflexivity.
Qed.

(** C8: a malformed address, a password of fewer than eight characters or a
    blank name makes [register] show the matching validation message and
    clear the loading flag with no request sent, no timer armed and no
    reply consumed; a request is sent exactly when all three checks pass. *)
Theorem register_validates_first (c : RegisterCredentials) (t : Tab) :
  let t' := after (register c) t in
  let rejected (msg : string) : Prop :=
    outcome (register c) t = Returns tt
    /\ auth t' = AuthContext.mk (AuthContext.user (auth t)) false (Some msg)
    /\ sent t' = sent t /\ replies t' = replies t /\ timers t' = timers t in
  (matches email_pattern (email c) = false ->
   rejected "Please enter a valid email address")
  /\ (matches email_pattern (email c) = true ->
      (String.length (password c) < 8)%nat ->
      rejected "Password must be at least 8 characters long")
  /\ (matches email_pattern (email c) = true ->
      (8 <= String.length (password c))%nat ->
      trim (name c) = "" ->
      rejected "Name is required")
  /\ (sent t' <> sent t <->
      matches email_pattern (email c) = true
      /\ (8 <= String.length (password c))%nat
      /\ trim (name c) <> "").
Proof.
  cbv zeta. open_tab t.
  set (t := mkTab clock storage sent_ replies_ timers_ next_ fired_ path_ session_
              listening_ backend_ rows_ alerts_ console_ auth_ sauth_ page_ modal_).
  assert (R1 : matches email_pattern (email c) = false ->
               register c t
               = (Returns tt,
                  with_auth (AuthContext.mk (AuthContext.user (auth t)) false
                               (Some "Please enter a valid email address")) t)).
  { intros He. unfold register, bind at 1 2. unfold setLoading at 1, setError at 1, modify.
    rewrite He. reflexivity. }
  assert (R2 : matches email_pattern (email c) = true ->
               (String.length (password c) < 8)%nat ->
               register c t
               = (Returns tt,
                  with_auth (AuthContext.mk (AuthContext.user (auth t)) false
                               (Some "Password must be at least 8 characters long")) t)).
  { intros He Hp. apply Nat.ltb_lt in Hp.
    unfold register, bind at 1 2. unfold setLoading at 1, setError at 1, modify.
    rewrite He, Hp. reflexivity. }
  assert (R3 : matches email_pattern (email c) = true ->
               (8 <= String.length (password c))%nat ->
               trim (name c) = "" ->
               register c t
               = (Returns tt,
                  with_auth (AuthContext.mk (AuthContext.user (auth t)) false
                               (Some "Name is required")) t)).
  { intros He Hp Hn. apply Nat.ltb_ge in Hp.
    unfold register, bind at 1 2. unfold setLoading at 1, setError at 1, modify.
    rewrite He, Hp, Hn. reflexivity. }
  unfold after, outcome.
  split; [| split; [| split]].
  - intros He. rewrite (R1 He). cbn. repeat split; reflexivity.
  - intros He Hp. rewrite (R2 He Hp). cbn. repeat split; reflexivity.
  - intros He Hp Hn. rewrite (R3 He Hp Hn). cbn. repeat split; reflexivity.
  - split.
    + intros Hsent.
      destruct (matches email_pattern (email c)) eqn:He.
      * destruct (le_lt_dec 8 (String.length (password c))) as [Hp | Hp].
        -- destruct (string_dec (trim (name c)) "") as [Hn | Hn].
           ++ exfalso. apply Hsent. rewrite (R3 eq_refl Hp Hn). reflexivity.
           ++ auto.
        -- exfalso. apply Hsent. rewrite (R2 eq_refl Hp). reflexivity.
      * exfalso. apply Hsent. rewrite (R1 eq_refl). reflexivity.
    + intros (He & Hp & Hn) Heq.
      destruct (register_sends c t He Hp Hn) as [b Hb]. unfold after in Hb.
      rewrite Hb in Heq.
      apply (f_equal (@List.length _)) in Heq. rewrite length_app in Heq. cbn in Heq. lia.
Qed.
End RegisterFacts.

(** [register] at work: a password of seven characters is refused before
    anything is sent. *)
Lemma register_validates_first_witness :
  let c := AuthProvider.mkRegisterCredentials "a@b.co" "1234567" "Ann" None in
  Browser.auth (Browser.after (AuthProvider.register c) Scenario.blank)
  = AuthContext.mk None false (Some "Password must be at least 8 characters long")
  /\ Browser.sent (Browser.after (AuthProvider.register c) Scenario.blank) = [].
Proof.
  cbv zeta.
  destruct (register_validates_first
              (AuthProvider.mkRegisterCredentials "a@b.co" "1234567" "Ann" None)
              Scenario.blank) as (_ & H & _).
  destruct H as (_ & Ha & Hs & _).
  - vm_compute. reflexivity.
  - vm_compute. lia.
  - split; [exact Ha | exact Hs].
Defined.

(** ** The legacy facade: the client-side timeout *)

Section TimeoutFacts.
Import JS Browser Runtime AuthProvider.

Lemma fold_fire_user (tms : list Timer) (st : AuthContext.t * list (Z * AuthContext.t)) :
  AuthContext.user (fst (fold_left fire tms st)) = AuthContext.user (fst st).
Proof.
  revert st. induction tms as [| tm tms IH]; intros st; [reflexivity |].
  cbn [fold_left]. rewrite IH. reflexivity.
Qed.

Lemma fold_fire_last (tms : list Timer) (tm : Timer)
    (st : AuthContext.t * list (Z * AuthContext.t)) :
  let st' := fold_left fire (tms ++ [tm]) st in
  fst st' = AuthContext.mk (AuthContext.user (fst st)) false (Some (timeout_message tm))
  /\ In (deadline tm, fst st') (snd st').
Proof.
  cbv zeta. rewrite fold_left_app. cbn. rewrite fold_fire_user.
  split; [reflexivity |]. apply in_or_app. right. left. reflexivity.
Qed.

(** When the call never settles, the newest timer runs last. *)
Lemma forever_fires (t : Tab) (older : list Timer) (tm : Timer) :
  timers t = (older ++ [tm])%list ->
  auth (forever t)
  = AuthContext.mk (AuthContext.user (auth t)) false (Some (timeout_message tm))
  /\ In (deadline tm, auth (forever t)) (timed_out (forever t)).
Proof.
  intros Ht. open_tab t. subst timers_. unfold forever, fire_all. cbn.
  apply (fold_fire_last older tm (auth_, fired_)).
Qed.

(** When it settles at or after the newest timer's deadline, that timer has
    run, and last. *)
Lemma elapse_fires (t : Tab) (older : list Timer) (tm : Timer) (d : N) :
  timers t = (older ++ [tm])%list ->
  deadline tm <= now t + Z.of_N d ->
  auth (elapse d t)
  = AuthContext.mk (AuthContext.user (auth t)) false (Some (timeout_message tm))
  /\ In (deadline tm, auth (elapse d t)) (timed_out (elapse d t)).
Proof.
  intros Ht Hd. open_tab t. subst timers_.
  assert (Hdue : due (clock + Z.of_N d) tm = true) by (apply Z.leb_le; exact Hd).
  unfold elapse, run_timers, fire_all. cbn -[Z.add Z.leb due].
  rewrite List.filter_app. cbn [List.filter]. rewrite Hdue.
  apply (fold_fire_last _ tm (auth_, fired_)).
Qed.

Ltac run_operation :=
  unfold try_catch, finally, api_post, api_get, request, send, getHeaders, await_fetch,
    settle, prop, bind, getItem, setItem_value, setItem, navigate, gets, modify, ret, throw,
    setTimeout, clearTimeout, setLoading, setError, setUser.

Ltac split_cases :=
  repeat first
    [ progress cbn -[elapse forever Z.add]
    | match goal with
      | f : Api.Fetched |- _ => destruct f
      | |- context [Api.handleResponse ?r] => destruct (Api.handleResponse r)
      | |- context [getProp ?o ?k] => destruct (getProp o k)
      | |- context [value_text ?v] => destruct (value_text v)
      | |- context [instanceof_Error ?e] => destruct (instanceof_Error e)
      end ].

(** The legacy facade: every operation of it that awaits the
    network arms a timer of [TIMEOUT_DURATION] = 15000 ms; when the awaited
    call is still pending at that deadline (it settles later, or never), the
    timer's callback has run, leaving the loading flag cleared and the
    operation's timeout message as the error, and the flag is still cleared
    when the operation is over; a call that never settles leaves the
    operation suspended with that message showing. *)
Lemma legacy_timeout (JSON_stringify : Value -> string) (op : Operation) (t : Tab) :
  validated op = true ->
  outlasts_timeout t ->
  let t' := after (perform JSON_stringify op) t in
  (exists a, In (now t + TIMEOUT_DURATION, a) (timed_out t')
             /\ AuthContext.loading a = false
             /\ AuthContext.error a = Some (timeout_of op))
  /\ AuthContext.loading (auth t') = false
  /\ (replies t = [] ->
      outcome (perform JSON_stringify op) t = Hangs
      /\ AuthContext.error (auth t') = Some (timeout_of op)).
Proof.
  intros Hv Hout. cbv zeta. unfold outlasts_timeout in Hout. open_tab t.
  unfold after, outcome.
  destruct op; cbn [perform timeout_of validated] in *;
    unfold register, login, resendVerification, forgotPassword, verifyForgotPassword,
      resetPassword, verifyTwoFactor, sendTwoFactorCode, updateProfile, updatePassword,
      getNotificationSettings, updateNotificationSettings, guarded_post.
  all: try (apply andb_prop in Hv; destruct Hv as [Hv1 Hv2]).
  all: try (apply andb_prop in Hv1; destruct Hv1 as [Hv0 Hv1]).
  all: try (apply negb_true_iff in Hv1).
  all: try rewrite Hv0.
  all: try rewrite Hv1.
  all: try rewrite Hv2.
  all: cbn [negb orb].
  all: destruct Hout as [Hr | (d & f & rest & Hr & Hd)]; subst replies_.
  all: run_operation.
  all: split_cases.
  all: match goal with
       | |- context [forever ?T] =>
           destruct (forever_fires T timers_ _ eq_refl) as [Ha Hin];
           split; [eexists; split; [exact Hin | rewrite Ha; split; reflexivity] |];
           rewrite Ha; split; [reflexivity | intros _; split; reflexivity]
       | |- context [elapse ?d ?T] =>
           destruct (elapse_fires T timers_ _ d eq_refl) as [Ha Hin];
           [apply Z.add_le_mono_l; exact Hd |];
           split; [eexists; split; [exact Hin | rewrite Ha; split; reflexivity] |];
           split; [reflexivity | intros; discriminate]
       end.
Qed.
End TimeoutFacts.

(** ** The platform facade has no timer *)

Section PlatformFacts.
Import JS Browser Runtime SupabaseAuthProvider.

Ltac run_platform :=
  unfold signIn, signUp, signOut, try_catch, finally, auth_signInWithPassword, auth_signUp,
    auth_signOut, await_backend, set_session, notify, bind, getItem, setItem, removeItem,
    navigate, gets, modify, ret, throw, setLoading, setError, setUser, setSession.

(** No operation of the platform facade arms a timer, however its call
    settles; and while the call is pending the handler stays suspended with
    the loading flag set and the error as the operation left it before
    awaiting: none for [signUp] and [signIn], the one that was showing for
    [signOut]. *)
Lemma platform_arms_no_timer (op : Operation) (t : Tab) :
  let t' := after (perform op) t in
  next_timer t' = next_timer t
  /\ (backend t = [] ->
      outcome (perform op) t = Hangs
      /\ SupabaseAuthContext.loading (supabaseAuth t') = true
      /\ SupabaseAuthContext.error (supabaseAuth t')
         = (if clears_error op then None else SupabaseAuthContext.error (supabaseAuth t))
      /\ (timers t = [] -> timers t' = [] /\ timed_out t' = timed_out t)).
Proof.
  cbv zeta. open_tab t. unfold after, outcome. split.
  - destruct op; cbn [perform]; run_platform; cbn.
    all: destruct backend_ as [| [d r] rest]; cbn; [reflexivity |].
    all: destruct r; cbn; try reflexivity.
    all: destruct listening_; reflexivity.
  - intros Hb. subst backend_.
    destruct op; cbn [perform clears_error]; run_platform; cbn.
    all: split; [reflexivity | split; [reflexivity | split; [reflexivity |]]].
    all: intros ->; split; reflexivity.
Qed.

(** While the platform call is pending nothing unblocks the facade: the
    handler stays suspended with the loading flag set and no error. *)
Lemma signIn_pending (email password : string) (t : Tab) :
  backend t = [] ->
  let t' := after (signIn email password) t in
  outcome (signIn email password) t = Hangs
  /\ SupabaseAuthContext.loading (supabaseAuth t') = true
  /\ SupabaseAuthContext.error (supabaseAuth t') = None
  /\ (timers t = [] -> timers t' = [] /\ timed_out t' = timed_out t).
Proof.
  intros Hb. cbv zeta. open_tab t. subst backend_. unfold after, outcome.
  run_platform. cbn.
  split; [reflexivity | split; [reflexivity | split; [reflexivity |]]].
  intros ->. split; reflexivity.
Qed.
End PlatformFacts.

(** C6, facade by facade.  Every operation of the legacy facade that awaits
    the network arms a timer of [TIMEOUT_DURATION] = 15000 ms once its input
    is valid; when the awaited call is still pending at that deadline (it
    settles later, or never), the timer's callback has run, leaving the
    loading flag cleared and the operation's timeout message as the error,
    and the flag is still cleared when the operation is over; a call that
    never settles leaves the operation suspended with that message showing.
    The platform facade's [signUp], [signIn] and [signOut] arm no timer,
    however the platform answers; while the platform call is pending they
    stay suspended with the loading flag set and the error as they left it
    before awaiting (none for [signUp] and [signIn], unchanged for
    [signOut]), and with no other timer pending no timeout callback runs. *)
Theorem timeout_only_in_legacy_facade :
  (forall (JSON_stringify : JS.Value -> string) (op : AuthProvider.Operation)
          (t : Browser.Tab),
     AuthProvider.validated op = true ->
     AuthProvider.outlasts_timeout t ->
     let t' := Browser.after (AuthProvider.perform JSON_stringify op) t in
     (exists a, In (Browser.now t + AuthProvider.TIMEOUT_DURATION, a) (Browser.timed_out t')
                /\ AuthContext.loading a = false
                /\ AuthContext.error a = Some (AuthProvider.timeout_of op))
     /\ AuthContext.loading (Browser.auth t') = false
     /\ (Browser.replies t = [] ->
         Browser.outcome (AuthProvider.perform JSON_stringify op) t = Browser.Hangs
         /\ AuthContext.error (Browser.auth t') = Some (AuthProvider.timeout_of op)))
  /\ (forall (op : SupabaseAuthProvider.Operation) (t : Browser.Tab),
        let t' := Browser.after (SupabaseAuthProvider.perform op) t in
        Browser.next_timer t' = Browser.next_timer t
        /\ (Browser.backend t = [] ->
            Browser.outcome (SupabaseAuthProvider.perform op) t = Browser.Hangs
            /\ SupabaseAuthContext.loading (Browser.supabaseAuth t') = true
            /\ SupabaseAuthContext.error (Browser.supabaseAuth t')
               = (if SupabaseAuthProvider.clears_error op then None
                  else SupabaseAuthContext.error (Browser.supabaseAuth t))
            /\ (Browser.timers t = [] ->
                Browser.timers t' = [] /\ Browser.timed_out t' = Browser.timed_out t))).
Proof. split; [exact legacy_timeout | exact platform_arms_no_timer]. Qed.

(** The timer at work: a login whose request is never answered.  And its
    absence: a sign-out the platform never answers, over an error that was
    showing. *)
Lemma timeout_only_in_legacy_facade_witness :
  let login :=
    AuthProvider.perform (fun _ => "")
      (AuthProvider.Login (AuthProvider.mkLoginCredentials "a@b.co" "secret12" None)) in
  let failed :=
    Browser.with_supabaseAuth
      (SupabaseAuthContext.mk None None false (Some "Invalid login credentials"))
      Scenario.blank in
  (Browser.outcome login Scenario.blank = Browser.Hangs
   /\ Browser.auth (Browser.after login Scenario.blank)
      = AuthContext.mk None false (Some "Login request timed out. Please try again."))
  /\ (Browser.outcome SupabaseAuthProvider.signOut failed = Browser.Hangs
      /\ Browser.supabaseAuth (Browser.after SupabaseAuthProvider.signOut failed)
         = SupabaseAuthContext.mk None None true (Some "Invalid login credentials")).
Proof.
  cbv zeta. split.
  - destruct (proj1 timeout_only_in_legacy_facade (fun _ => "")
                (AuthProvider.Login (AuthProvider.mkLoginCredentials "a@b.co" "secret12" None))
                Scenario.blank) as (_ & _ & H).
    + vm_compute. reflexivity.
    + left. reflexivity.
    + destruct (H eq_refl) as [Ho _]. split; [exact Ho | vm_compute; reflexivity].
  - destruct (proj2 timeout_only_in_legacy_facade SupabaseAuthProvider.SignOut
                (Browser.with_supabaseAuth
                   (SupabaseAuthContext.mk None None false (Some "Invalid login credentials"))
                   Scenario.blank)) as [_ H].
    destruct (H eq_refl) as (Ho & _). split; [exact Ho | vm_compute; reflexivity].
Defined.

(** C6 as stated fails for the platform facade: a sign-in whose request is
    never answered arms no timer, so no timeout error is ever set and the
    loading flag stays set. *)
Lemma signIn_never_times_out :
  let t := Scenario.blank in
  let t' := Browser.after (SupabaseAuthProvider.signIn "alice@example.org" "secret12") t in
  Browser.outcome (SupabaseAuthProvider.signIn "alice@example.org" "secret12") t
  = Browser.Hangs
  /\ Browser.timers t' = []
  /\ Browser.timed_out t' = []
  /\ SupabaseAuthContext.loading (Browser.supabaseAuth t') = true
  /\ SupabaseAuthContext.error (Browser.supabaseAuth t') = None.
Proof. vm_compute. repeat split; reflexivity. Qed.

(** ** Logging out *)

Section LogoutFacts.
Import JS Browser Runtime.

Ltac run_logout :=
  unfold Sidebar.handleLogout, AuthProvider.logout, SupabaseAuthProvider.signOut, try_catch,
    finally, auth_signOut, await_backend, set_session, notify, send, getHeaders, bind, getItem,
    setItem, removeItem, navigate, console_error, gets, modify, ret, throw,
    SupabaseAuthProvider.setLoading, SupabaseAuthProvider.setError,
    AuthProvider.setLoading, AuthProvider.setError, AuthProvider.setUser.

Ltac check_signed_out :=
  unfold Router.signed_out, Router.ProtectedRoute, RouteGuard.ProtectedRoute; cbn;
  rewrite ?lookup_delete_eq, ?lookup_delete_ne by discriminate;
  rewrite ?lookup_delete_eq;
  repeat split; try reflexivity;
  [ match goal with
    | |- context [AuthContext.loading ?a] => destruct (AuthContext.loading a); reflexivity
    end
  | intros ->; reflexivity ].

Lemma signOut_signs_out (t : Tab) (d : N) (r : Reply) (rest : list (N * Reply)) :
  subscribed t = true ->
  backend t = (d, r) :: rest ->
  accepted r = true ->
  Router.signed_out (after SupabaseAuthProvider.signOut t).
Proof.
  intros Hs Hb Hr. open_tab t. subst listening_ backend_. unfold after.
  run_logout. destruct r; try discriminate; check_signed_out.
Qed.

Lemma handleLogout_signs_out (t : Tab) (d : N) (r : Reply) (rest : list (N * Reply)) :
  subscribed t = true ->
  backend t = (d, r) :: rest ->
  accepted r = true ->
  Router.signed_out (after Sidebar.handleLogout t).
Proof.
  intros Hs Hb Hr. open_tab t. subst listening_ backend_. unfold after.
  run_logout. destruct r; try discriminate; check_signed_out.
Qed.

(** The legacy logout on its own: both keys and the legacy user go, a
    logout request is sent, and the platform side is left as it was. *)
Lemma legacy_logout_keeps_platform (t : Tab) :
  let t' := after AuthProvider.logout t in
  outcome AuthProvider.logout t = Returns tt
  /\ localStorage t' !! "token" = None
  /\ localStorage t' !! "user" = None
  /\ AuthContext.user (auth t') = None
  /\ AuthContext.loading (auth t') = false
  /\ client_session t' = client_session t
  /\ supabaseAuth t' = supabaseAuth t.
Proof.
  cbv zeta. open_tab t. unfold after, outcome. run_logout. cbn.
  rewrite lookup_delete_ne, !lookup_delete_eq by discriminate.
  repeat split; reflexivity.
Qed.

(** C7, as the code has it: the platform facade's [signOut], and the
    sidebar's logout (the legacy [logout], then [signOut]), once the
    platform's sign-out call goes through, leave neither the [token] nor the
    [user] key, no platform session and no platform user, and the guard then
    admits nobody (it redirects to the login screen as soon as the legacy
    facade is not loading).  The legacy [logout] alone removes the two keys
    and the legacy user and leaves the platform session and user untouched. *)
Theorem logout_clears_sessions (t : Tab) :
  (forall d r rest,
      subscribed t = true -> backend t = (d, r) :: rest -> accepted r = true ->
      Router.signed_out (after SupabaseAuthProvider.signOut t)
      /\ Router.signed_out (after Sidebar.handleLogout t))
  /\ (let t' := after AuthProvider.logout t in
      localStorage t' !! "token" = None
      /\ localStorage t' !! "user" = None
      /\ AuthContext.user (auth t') = None
      /\ client_session t' = client_session t
      /\ supabaseAuth t' = supabaseAuth t).
Proof.
  split.
  - intros d r rest Hs Hb Hr. split.
    + exact (signOut_signs_out t d r rest Hs Hb Hr).
    + exact (handleLogout_signs_out t d r rest Hs Hb Hr).
  - destruct (legacy_logout_keeps_platform t) as (_ & H1 & H2 & H3 & _ & H4 & H5).
    cbv zeta. auto.
Qed.
End LogoutFacts.

(** The sidebar's logout, answered by the platform after 80 ms. *)
Lemma logout_clears_sessions_witness :
  Router.signed_out
    (Browser.after Sidebar.handleLogout
       (Browser.with_backend [(80%N, Browser.Done)] Scenario.both_sessions)).
Proof.
  destruct (logout_clears_sessions
              (Browser.with_backend [(80%N, Browser.Done)] Scenario.both_sessions))
    as [H _].
  destruct (H 80%N Browser.Done [] eq_refl eq_refl eq_refl) as [_ Hs].
  exact Hs.
Defined.

(** C7 as stated fails for the legacy facade's logout: both keys are
    removed, but the platform session stays and the guard still admits. *)
Lemma legacy_logout_leaves_guard_open :
  let t' := Browser.after AuthProvider.logout Scenario.both_sessions in
  Browser.localStorage t' !! "token" = None
  /\ Browser.localStorage t' !! "user" = None
  /\ Browser.client_session t' = Some Scenario.alice_session
  /\ Router.ProtectedRoute t' = RouteGuard.Outlet.
Proof. vm_compute. repeat split; reflexivity. Qed.

(** ** Rules for what a handler keeps *)

Section PreservedRules.
Import Browser Logic.
Context (R : Tab -> Tab -> Prop) `{!Reflexive R} `{!Transitive R}.

Lemma preserved_ret {A : Type} (a : A) : preserved R (ret a).
Proof. intros t. apply reflexivity. Qed.

Lemma preserved_throw {A : Type} (e : JS.Thrown) : preserved R (@throw A e).
Proof. intros t. apply reflexivity. Qed.

Lemma preserved_gets {A : Type} (f : Tab -> A) : preserved R (gets f).
Proof. intros t. apply reflexivity. Qed.

Lemma preserved_modify (f : Tab -> Tab) : (forall t, R t (f t)) -> preserved R (modify f).
Proof. intros Hf t. apply Hf. Qed.

Lemma preserved_bind {A B : Type} (m : Eff A) (k : A -> Eff B) :
  preserved R m -> (forall a, preserved R (k a)) -> preserved R (bind m k).
Proof.
  intros Hm Hk t. specialize (Hm t). unfold after, bind in *.
  destruct (m t) as [[a | e |] t1]; cbn in *; try exact Hm.
  transitivity t1; [exact Hm | apply Hk].
Qed.

Lemma preserved_try_catch {A : Type} (m : Eff A) (handler : JS.Thrown -> Eff A) :
  preserved R m -> (forall e, preserved R (handler e)) -> preserved R (try_catch m handler).
Proof.
  intros Hm Hh t. specialize (Hm t). unfold after, try_catch in *.
  destruct (m t) as [[a | e |] t1]; cbn in *; try exact Hm.
  transitivity t1; [exact Hm | apply Hh].
Qed.

Lemma preserved_finally {A : Type} (m : Eff A) (f : Eff unit) :
  preserved R m -> preserved R f -> preserved R (finally m f).
Proof.
  intros Hm Hf t. specialize (Hm t). specialize (Hf (snd (m t))).
  unfold after, finally in *.
  destruct (m t) as [[a | e |] t1]; cbn in *; try exact Hm;
    (transitivity t1; [exact Hm |]); destruct (f t1) as [[[] | e' |] t2]; exact Hf.
Qed.
End PreservedRules.

Section NeverThrowsRules.
Import Browser Logic.

Lemma never_throws_ret {A : Type} (a : A) : never_throws (ret a).
Proof. intros t e. discriminate. Qed.

Lemma never_throws_gets {A : Type} (f : Tab -> A) : never_throws (gets f).
Proof. intros t e. discriminate. Qed.

Lemma never_throws_modify (f : Tab -> Tab) : never_throws (modify f).
Proof. intros t e. discriminate. Qed.

Lemma never_throws_bind {A B : Type} (m : Eff A) (k : A -> Eff B) :
  never_throws m -> (forall a, never_throws (k a)) -> never_throws (bind m k).
Proof.
  intros Hm Hk t e. specialize (Hm t). unfold outcome, bind in *.
  destruct (m t) as [[a | e' |] t1]; cbn in *.
  - apply Hk.
  - exfalso. apply (Hm e'). reflexivity.
  - discriminate.
Qed.

Lemma never_throws_try_catch {A : Type} (m : Eff A) (handler : JS.Thrown -> Eff A) :
  (forall e, never_throws (handler e)) -> never_throws (try_catch m handler).
Proof.
  intros Hh t e. unfold outcome, try_catch.
  destruct (m t) as [[a | e' |] t1]; cbn; try discriminate. apply Hh.
Qed.

Lemma never_throws_finally {A : Type} (m : Eff A) (f : Eff unit) :
  never_throws m -> never_throws f -> never_throws (finally m f).
Proof.
  intros Hm Hf t e. specialize (Hm t). unfold outcome, finally in *.
  destruct (m t) as [[a | e' |] t1]; cbn in *.
  - specialize (Hf t1). unfold outcome in Hf.
    destruct (f t1) as [[[] | e'' |] t2]; cbn in *;
      [discriminate | intros _; apply (Hf e''); reflexivity | discriminate].
  - exfalso. apply (Hm e'). reflexivity.
  - discriminate.
Qed.
End NeverThrowsRules.

(** ** Consent writes keep [approved] in step with the flags *)

Section ConsentInvariant.
Import JS Browser Runtime Logic Types.

#[local] Instance rows_ok_refl : Reflexive rows_ok.
Proof. intros t k row H. left. exact H. Qed.

#[local] Instance rows_ok_trans : Transitive rows_ok.
Proof.
  intros t1 t2 t3 H12 H23 k row H.
  destruct (H23 k row H) as [H2 | Hinv]; [apply (H12 k row H2) | right; exact Hinv].
Qed.

Lemma rows_ok_same (t t' : Tab) : consents t' = consents t -> rows_ok t t'.
Proof. intros E k row H. left. rewrite <- E. exact H. Qed.

Lemma dbPermissions_approved (p : Permissions) (clock : Z) :
  Db.approved_is_any (Consent.dbPermissions p (some_Boolean (Object_values p)) clock).
Proof.
  unfold Db.approved_is_any, Consent.dbPermissions, some_Boolean, Object_values. cbn.
  destruct (labResults p), (medications p), (fitnessData p); reflexivity.
Qed.

Lemma await_backend_rows : preserved rows_ok await_backend.
Proof.
  intros t. apply rows_ok_same. open_tab t. unfold after, await_backend. cbn.
  destruct backend_ as [| [d []] rest]; reflexivity.
Qed.

Ltac keep_rows :=
  repeat first
    [ apply preserved_bind; [exact _ | | intros ?]
    | apply preserved_try_catch; [exact _ | | intros ?]
    | apply preserved_finally; [exact _ | | ]
    | apply preserved_ret; exact _
    | apply preserved_throw; exact _
    | apply preserved_gets; exact _
    | exact await_backend_rows
    | match goal with
      | |- preserved _ (match ?x with _ => _ end) => destruct x
      | |- preserved _ (if ?x then _ else _) => destruct x
      end ].

Lemma rows_ok_modify (f : Tab -> Tab) :
  (forall t, consents (f t) = consents t) -> preserved rows_ok (modify f).
Proof. intros Hf. apply preserved_modify. intros t. apply rows_ok_same, Hf. Qed.

(** A handler's own state changes leave the table alone. *)
Ltac keep_table := apply rows_ok_modify; intros t; open_tab t; reflexivity.

Lemma auth_getUser_rows : preserved rows_ok auth_getUser.
Proof. unfold auth_getUser. keep_rows. Qed.

Lemma select_consent_rows (u p : string) : preserved rows_ok (select_consent u p).
Proof. unfold select_consent. keep_rows. Qed.

Lemma update_consent_rows (c : Db.Columns) (u p : string) :
  Db.approved_is_any c -> preserved rows_ok (update_consent c u p).
Proof.
  intros Hc. unfold update_consent. keep_rows.
  all: apply preserved_modify; intros t; open_tab t; cbn.
  all: destruct (owns u _); [| reflexivity].
  all: intros k row; cbn; rewrite lookup_alter.
  all: destruct (decide ((u, p) = k)) as [<- | Hne]; [| left; assumption].
  all: destruct (rows_ !! (u, p)) as [old |]; cbn; [| discriminate].
  all: intros [= <-]; right; exact Hc.
Qed.

Lemma insert_consent_rows (u p : string) (c : Db.Columns) :
  Db.approved_is_any c -> preserved rows_ok (insert_consent u p c).
Proof.
  intros Hc. unfold insert_consent. keep_rows.
  all: intros t; open_tab t; unfold after; cbn.
  all: destruct (owns u _); cbn; [| reflexivity].
  all: destruct (rows_ !! (u, p)) as [old |] eqn:E; cbn; [reflexivity |].
  all: intros k row; cbn; rewrite lookup_insert.
  all: destruct (decide ((u, p) = k)) as [<- | Hne]; [| left; assumption].
  all: intros [= <-]; right; exact Hc.
Qed.

Ltac keep_rows_handler :=
  unfold Consent.handlePermissionToggle, Consent.handleUpdatePermissions,
    Consent.write_consent, ProviderAccessModal.save, ProviderAccessModal.handleSaveChanges,
    ProviderAccessModal.platform_write, ProviderAccessModal.fall_back,
    ProviderAccessModal.report, Consent.setLoading, Consent.setProviders,
    Consent.setIsModalOpen, ProviderAccessModal.setLoading, ProviderAccessModal.setError,
    console_error, alert, Date_now;
  cbv zeta;
  repeat first
    [ exact auth_getUser_rows
    | apply select_consent_rows
    | apply update_consent_rows; apply dbPermissions_approved
    | apply insert_consent_rows; apply dbPermissions_approved
    | keep_table
    | apply preserved_bind; [exact _ | | intros ?]
    | apply preserved_try_catch; [exact _ | | intros ?]
    | apply preserved_finally; [exact _ | | ]
    | apply preserved_ret; exact _
    | apply preserved_throw; exact _
    | apply preserved_gets; exact _
    | match goal with
      | |- preserved _ (match ?x with _ => _ end) => destruct x
      | |- preserved _ (if ?x then _ else _) => destruct x
      end ].

Lemma handlePermissionToggle_rows (providerId : string) (permission : PermissionKey) :
  preserved rows_ok (Consent.handlePermissionToggle providerId permission).
Proof. keep_rows_handler. Qed.

Lemma handleUpdatePermissions_rows (providerId : string) (newPermissions : Permissions) :
  preserved rows_ok (Consent.handleUpdatePermissions providerId newPermissions).
Proof. keep_rows_handler. Qed.

Lemma save_rows : preserved rows_ok ProviderAccessModal.save.
Proof. keep_rows_handler. Qed.

(** C1: whatever the single-flag toggle, the bulk update and the modal's
    save do to the consent table, by update or by insert, every row they
    leave changed or new has [approved] equal to the disjunction of
    [lab_results], [medications] and [fitness_data]. *)
Theorem consent_writes_derive_approved (t : Tab) (k : string * string) (row : Db.Row) :
  (forall providerId permission,
      consents (after (Consent.handlePermissionToggle providerId permission) t) !! k
      = Some row ->
      consents t !! k = Some row
      \/ Db.approved (Db.columns row)
         = Db.lab_results (Db.columns row) || Db.medications (Db.columns row)
           || Db.fitness_data (Db.columns row))
  /\ (forall providerId newPermissions,
        consents (after (Consent.handleUpdatePermissions providerId newPermissions) t) !! k
        = Some row ->
        consents t !! k = Some row
        \/ Db.approved (Db.columns row)
           = Db.lab_results (Db.columns row) || Db.medications (Db.columns row)
             || Db.fitness_data (Db.columns row))
  /\ (consents (after ProviderAccessModal.save t) !! k = Some row ->
      consents t !! k = Some row
      \/ Db.approved (Db.columns row)
         = Db.lab_results (Db.columns row) || Db.medications (Db.columns row)
           || Db.fitness_data (Db.columns row)).
Proof.
  split; [| split].
  - intros providerId permission. apply (handlePermissionToggle_rows providerId permission t).
  - intros providerId newPermissions.
    apply (handleUpdatePermissions_rows providerId newPermissions t).
  - apply (save_rows t).
Qed.
End ConsentInvariant.

(** ** The single-flag toggle, run to the end *)

Section ToggleFacts.
Import JS Browser Runtime Types.

Lemma find_with_permissions (pid : string) (p : Permissions) (any : bool)
    (ps : list Provider) :
  Consent.find_provider pid (Consent.with_permissions pid p any ps)
  = option_map
      (fun provider =>
         mkProvider (id provider) (name provider) (logo provider) (dateAdded provider)
           (Consent.status_of any) p)
      (Consent.find_provider pid ps).
Proof.
  unfold Consent.find_provider, Consent.with_permissions.
  induction ps as [| q ps IH]; [reflexivity |].
  cbn. destruct (String.eqb (id q) pid) eqn:E; cbn; rewrite E; [reflexivity | exact IH].
Qed.

Lemma accepted_cases (r : Reply) :
  accepted r = true -> r = Done \/ exists s, r = Browser.Granted s.
Proof. destruct r; cbn; intros H; try discriminate; eauto. Qed.

(** The platform calls, when they go through. *)
Lemma await_backend_accepted (t : Tab) (d : N) (r : Reply) (rest : list (N * Reply)) :
  backend t = (d, r) :: rest -> accepted r = true ->
  await_backend t = (Returns r, elapse d (with_backend rest t)).
Proof.
  intros Hb Hr. unfold await_backend. rewrite Hb.
  destruct r; try discriminate; reflexivity.
Qed.

Lemma auth_getUser_accepted (t : Tab) (d : N) (r : Reply) (rest : list (N * Reply)) :
  backend t = (d, r) :: rest -> accepted r = true ->
  auth_getUser t
  = (Returns (option_map SupabaseAuthContext.session_user (client_session t)),
     elapse d (with_backend rest t)).
Proof.
  intros Hb Hr. unfold auth_getUser, bind. rewrite (await_backend_accepted t d r rest Hb Hr).
  open_tab t. destruct r; try discriminate; reflexivity.
Qed.

Lemma select_consent_accepted (u p : string) (t : Tab)
    (d : N) (r : Reply) (rest : list (N * Reply)) :
  backend t = (d, r) :: rest -> accepted r = true ->
  select_consent u p t
  = (Returns (if owns u t then consents t !! (u, p) else None, None),
     elapse d (with_backend rest t)).
Proof.
  intros Hb Hr. unfold select_consent, bind. rewrite (await_backend_accepted t d r rest Hb Hr).
  open_tab t. destruct r; try discriminate; reflexivity.
Qed.

Lemma update_consent_accepted (c : Db.Columns) (u p : string) (t : Tab)
    (d : N) (r : Reply) (rest : list (N * Reply)) :
  backend t = (d, r) :: rest -> accepted r = true -> owns u t = true ->
  update_consent c u p t
  = (Returns None,
     with_consents
       (alter
          (fun row =>
             Db.mkRow
               (Db.mkColumns (Db.lab_results c) (Db.medications c) (Db.fitness_data c)
                  (Db.approved c) (now t + Z.of_N d))
               (Db.created_at row))
          (u, p) (consents t))
       (elapse d (with_backend rest t))).
Proof.
  intros Hb Hr Ho. unfold update_consent, bind.
  rewrite (await_backend_accepted t d r rest Hb Hr).
  open_tab t. unfold owns, uid in *. cbn -[Z.add] in *.
  destruct r; try discriminate; cbn -[Z.add]; unfold owns, uid; cbn -[Z.add];
    rewrite Ho; reflexivity.
Qed.

Lemma insert_consent_accepted (u p : string) (c : Db.Columns) (t : Tab)
    (d : N) (r : Reply) (rest : list (N * Reply)) :
  backend t = (d, r) :: rest -> accepted r = true -> owns u t = true ->
  consents t !! (u, p) = None ->
  insert_consent u p c t
  = (Returns None,
     with_consents (<[(u, p) := Db.mkRow c (now t + Z.of_N d)]> (consents t))
       (elapse d (with_backend rest t))).
Proof.
  intros Hb Hr Ho Hn. unfold insert_consent, bind.
  rewrite (await_backend_accepted t d r rest Hb Hr).
  open_tab t. unfold owns, uid in *. cbn -[Z.add] in *.
  destruct r; try discriminate; cbn -[Z.add]; unfold owns, uid; cbn -[Z.add];
    rewrite Ho, Hn; reflexivity.
Qed.

Lemma owns_session (s : SupabaseAuthContext.Session) (t : Tab) :
  client_session t = Some s ->
  owns (SupabaseAuthContext.id (SupabaseAuthContext.session_user s)) t = true.
Proof. intros Hs. unfold owns, uid. rewrite Hs. cbn. apply String.eqb_refl. Qed.

(** The toggle when the platform answers its three calls. *)
Lemma toggle_succeeds (pid : string) (key : PermissionKey) (t : Tab)
    (provider : Provider) (s : SupabaseAuthContext.Session)
    (d1 d2 d3 : N) (r1 r2 r3 : Reply) (rest : list (N * Reply)) :
  Consent.find_provider pid (ConsentPage.providers (consentPage t)) = Some provider ->
  client_session t = Some s ->
  backend t = (d1, r1) :: (d2, r2) :: (d3, r3) :: rest ->
  accepted r1 = true -> accepted r2 = true -> accepted r3 = true ->
  let uid := SupabaseAuthContext.id (SupabaseAuthContext.session_user s) in
  let p' := set (permissions provider) key (negb (get (permissions provider) key)) in
  let any := some_Boolean (Object_values p') in
  let t' := after (Consent.handlePermissionToggle pid key) t in
  outcome (Consent.handlePermissionToggle pid key) t = Returns tt
  /\ consents t' !! (uid, pid)
     = Some (match consents t !! (uid, pid) with
             | Some old =>
                 Db.mkRow
                   (Db.mkColumns (labResults p') (medications p') (fitnessData p') any
                      (now t + Z.of_N d1 + Z.of_N d2 + Z.of_N d3))
                   (Db.created_at old)
             | None =>
                 Db.mkRow
                   (Db.mkColumns (labResults p') (medications p') (fitnessData p') any
                      (now t + Z.of_N d1))
                   (now t + Z.of_N d1 + Z.of_N d2 + Z.of_N d3)
             end)
  /\ ConsentPage.providers (consentPage t')
     = Consent.with_permissions pid p' any (ConsentPage.providers (consentPage t))
  /\ client_session t' = Some s
  /\ backend t' = rest
  /\ now t' = now t + Z.of_N d1 + Z.of_N d2 + Z.of_N d3
  /\ alerts t' = alerts t
  /\ sent t' = sent t.
Proof.
  intros Hf Hs Hb H1 H2 H3. cbv zeta. open_tab t. subst session_ backend_.
  destruct page_ as [ps sel open ld err]. cbn in Hf.
  unfold after, outcome, Consent.handlePermissionToggle, Consent.write_consent,
    Date_now, Consent.setLoading, Consent.setProviders, console_error, alert,
    finally, try_catch, bind, gets, modify, ret, throw.
  cbn -[Z.add auth_getUser select_consent update_consent insert_consent]. rewrite Hf.
  erewrite auth_getUser_accepted by (first [reflexivity | eassumption]).
  cbn -[Z.add auth_getUser select_consent update_consent insert_consent].
  erewrite select_consent_accepted by (first [reflexivity | eassumption]).
  rewrite (owns_session s) by reflexivity.
  cbn -[Z.add auth_getUser select_consent update_consent insert_consent].
  destruct (rows_ !! (SupabaseAuthContext.id (SupabaseAuthContext.session_user s), pid))
    as [old |] eqn:Hrow.
  - erewrite update_consent_accepted
      by (first [reflexivity | eassumption | apply owns_session; reflexivity]).
    cbn -[Z.add]. rewrite lookup_alter_eq, Hrow. cbn -[Z.add].
    unfold Consent.with_permissions, some_Boolean, Object_values. cbn -[Z.add].
    repeat split; try reflexivity.
  - erewrite insert_consent_accepted
      by (first [reflexivity | eassumption | apply owns_session; reflexivity]).
    cbn -[Z.add]. rewrite lookup_insert_eq. cbn -[Z.add].
    unfold Consent.with_permissions, some_Boolean, Object_values. cbn -[Z.add].
    repeat split; try reflexivity.
Qed.

(** C5: toggling [labResults] for a provider shown with all three flags off,
    the platform answering, leaves the record with [lab_results] on, the
    other two flags off and [approved] on, and the screen shows the same
    flags. *)
Theorem toggle_labResults_on (pid : string) (t : Tab)
    (provider : Provider) (s : SupabaseAuthContext.Session)
    (d1 d2 d3 : N) (r1 r2 r3 : Reply) (rest : list (N * Reply)) :
  Consent.find_provider pid (ConsentPage.providers (consentPage t)) = Some provider ->
  permissions provider = mkPermissions false false false ->
  client_session t = Some s ->
  backend t = (d1, r1) :: (d2, r2) :: (d3, r3) :: rest ->
  accepted r1 = true -> accepted r2 = true -> accepted r3 = true ->
  let t' := after (Consent.handlePermissionToggle pid LabResults) t in
  (exists row,
      consents t' !! (SupabaseAuthContext.id (SupabaseAuthContext.session_user s), pid)
      = Some row
      /\ Db.lab_results (Db.columns row) = true
      /\ Db.medications (Db.columns row) = false
      /\ Db.fitness_data (Db.columns row) = false
      /\ Db.approved (Db.columns row) = true)
  /\ option_map permissions
       (Consent.find_provider pid (ConsentPage.providers (consentPage t')))
     = Some (mkPermissions true false false).
Proof.
  intros Hf Hp Hs Hb H1 H2 H3. cbv zeta.
  destruct (toggle_succeeds pid LabResults t provider s d1 d2 d3 r1 r2 r3 rest
              Hf Hs Hb H1 H2 H3) as (_ & Hrow & Hps & _).
  rewrite Hp in Hrow, Hps. cbn in Hrow, Hps. split.
  - eexists. split; [exact Hrow |].
    destruct (consents t !! _); cbn; repeat split; reflexivity.
  - rewrite Hps, find_with_permissions, Hf. reflexivity.
Qed.

Lemma toggle_back (p : Permissions) (key : PermissionKey) :
  let p' := set p key (negb (get p key)) in
  set p' key (negb (get p' key)) = p.
Proof. destruct p as [a b c], key; cbn; rewrite negb_involutive; reflexivity. Qed.

(** C4, as the code has it: two toggles of the same flag in a row, each
    answered by the platform, leave the record with the three flags the
    screen showed at the start, with its [created_at] and with [updated_at]
    at the time of the second write; [approved] is the disjunction of the
    flags after each toggle; so a record that the screen mirrored has its
    flags back, and its [approved] too when that was derived from them. *)
Theorem toggle_twice (pid : string) (key : PermissionKey) (t : Tab)
    (provider : Provider) (s : SupabaseAuthContext.Session) (row0 : Db.Row)
    (d1 d2 d3 d4 d5 d6 : N) (r1 r2 r3 r4 r5 r6 : Reply) (rest : list (N * Reply)) :
  let k := (SupabaseAuthContext.id (SupabaseAuthContext.session_user s), pid) in
  Consent.find_provider pid (ConsentPage.providers (consentPage t)) = Some provider ->
  client_session t = Some s ->
  consents t !! k = Some row0 ->
  backend t = (d1, r1) :: (d2, r2) :: (d3, r3) :: (d4, r4) :: (d5, r5) :: (d6, r6) :: rest ->
  accepted r1 = true -> accepted r2 = true -> accepted r3 = true ->
  accepted r4 = true -> accepted r5 = true -> accepted r6 = true ->
  let t1 := after (Consent.handlePermissionToggle pid key) t in
  let t2 := after (Consent.handlePermissionToggle pid key) t1 in
  (exists row1,
      consents t1 !! k = Some row1
      /\ Db.approved_is_any (Db.columns row1)
      /\ get (mkPermissions (Db.lab_results (Db.columns row1))
                (Db.medications (Db.columns row1)) (Db.fitness_data (Db.columns row1))) key
         = negb (get (permissions provider) key))
  /\ (exists row2,
        consents t2 !! k = Some row2
        /\ Db.approved_is_any (Db.columns row2)
        /\ mkPermissions (Db.lab_results (Db.columns row2))
             (Db.medications (Db.columns row2)) (Db.fitness_data (Db.columns row2))
           = permissions provider
        /\ Db.created_at row2 = Db.created_at row0
        /\ Db.updated_at (Db.columns row2)
           = now t + Z.of_N d1 + Z.of_N d2 + Z.of_N d3 + Z.of_N d4 + Z.of_N d5 + Z.of_N d6
        /\ (mkPermissions (Db.lab_results (Db.columns row0))
              (Db.medications (Db.columns row0)) (Db.fitness_data (Db.columns row0))
            = permissions provider ->
            Db.approved_is_any (Db.columns row0) ->
            Db.approved (Db.columns row2) = Db.approved (Db.columns row0)))
  /\ option_map permissions
       (Consent.find_provider pid (ConsentPage.providers (consentPage t2)))
     = Some (permissions provider).
Proof.
  intros k Hf Hs Hrow0 Hb H1 H2 H3 H4 H5 H6 t1 t2.
  destruct (toggle_succeeds pid key t provider s d1 d2 d3 r1 r2 r3 _ Hf Hs Hb H1 H2 H3)
    as (_ & Hrow1 & Hps1 & Hs1 & Hb1 & Hn1 & _).
  fold t1 in Hrow1, Hps1, Hs1, Hb1, Hn1. fold k in Hrow1. rewrite Hrow0 in Hrow1.
  set (p1 := set (permissions provider) key (negb (get (permissions provider) key))) in *.
  assert (Hf1 : Consent.find_provider pid (ConsentPage.providers (consentPage t1))
                = Some (mkProvider (id provider) (name provider) (logo provider)
                          (dateAdded provider)
                          (Consent.status_of (some_Boolean (Object_values p1))) p1)).
  { rewrite Hps1, find_with_permissions, Hf. reflexivity. }
  destruct (toggle_succeeds pid key t1 _ s d4 d5 d6 r4 r5 r6 rest Hf1 Hs1 Hb1 H4 H5 H6)
    as (_ & Hrow2 & Hps2 & _).
  fold t2 in Hrow2, Hps2. fold k in Hrow2. rewrite Hrow1 in Hrow2.
  cbn [permissions] in Hrow2, Hps2.
  assert (Hback : set p1 key (negb (get p1 key)) = permissions provider)
    by apply toggle_back.
  rewrite Hback in Hrow2, Hps2. cbn [Db.created_at] in Hrow2.
  split; [| split].
  - eexists. split; [exact Hrow1 |]. cbn. split.
    + unfold Db.approved_is_any, some_Boolean, Object_values. cbn.
      rewrite orb_false_r, orb_assoc. reflexivity.
    + subst p1. destruct (permissions provider) as [a b c], key; reflexivity.
  - eexists. split; [exact Hrow2 |]. cbn.
    assert (Hany : some_Boolean (Object_values (permissions provider))
                   = labResults (permissions provider) || medications (permissions provider)
                     || fitnessData (permissions provider)).
    { unfold some_Boolean, Object_values. cbn. rewrite orb_false_r, orb_assoc. reflexivity. }
    split; [exact Hany |].
    split; [destruct (permissions provider); reflexivity |].
    split; [reflexivity |].
    split; [rewrite Hn1; reflexivity |].
    intros Hmirror Hinv. unfold Db.approved_is_any in Hinv.
    rewrite Hinv, <- Hmirror. cbn. rewrite orb_false_r, orb_assoc. reflexivity.
  - rewrite Hps2, find_with_permissions, Hf1. reflexivity.
Qed.
End ToggleFacts.

(** The first of Alice's toggles inserts her record for [p1], and it has
    [approved] on with [lab_results]. *)
Lemma consent_writes_derive_approved_witness :
  let t := Browser.with_backend Scenario.answers Scenario.signed_in in
  let row := Db.mkRow (Db.mkColumns true false false true 1700000000040) 1700000000190 in
  Browser.consents (Browser.after (Consent.handlePermissionToggle "p1" Types.LabResults) t)
    !! ("u1", "p1") = Some row
  /\ Db.approved (Db.columns row)
     = Db.lab_results (Db.columns row) || Db.medications (Db.columns row)
       || Db.fitness_data (Db.columns row).
Proof.
  cbv zeta.
  assert (Hrow : Browser.consents
                   (Browser.after (Consent.handlePermissionToggle "p1" Types.LabResults)
                      (Browser.with_backend Scenario.answers Scenario.signed_in))
                   !! ("u1", "p1")
                 = Some (Db.mkRow (Db.mkColumns true false false true 1700000000040)
                           1700000000190))
    by (vm_compute; reflexivity).
  split; [exact Hrow |].
  destruct (consent_writes_derive_approved
              (Browser.with_backend Scenario.answers Scenario.signed_in) ("u1", "p1")
              (Db.mkRow (Db.mkColumns true false false true 1700000000040) 1700000000190))
    as [H _].
  destruct (H "p1" Types.LabResults Hrow) as [Hold | Hinv].
  - vm_compute in Hold. discriminate Hold.
  - exact Hinv.
Defined.

(** The example of the specification, on Alice's screen. *)
Lemma toggle_labResults_on_witness :
  let t := Browser.with_backend Scenario.answers Scenario.signed_in in
  let t' := Browser.after (Consent.handlePermissionToggle "p1" Types.LabResults) t in
  (exists row,
      Browser.consents t' !! ("u1", "p1") = Some row
      /\ Db.lab_results (Db.columns row) = true
      /\ Db.medications (Db.columns row) = false
      /\ Db.fitness_data (Db.columns row) = false
      /\ Db.approved (Db.columns row) = true)
  /\ option_map Types.permissions
       (Consent.find_provider "p1" (ConsentPage.providers (Browser.consentPage t')))
     = Some (Types.mkPermissions true false false).
Proof.
  cbv zeta.
  apply (toggle_labResults_on "p1"
           (Browser.with_backend Scenario.answers Scenario.signed_in)
           Scenario.p1 Scenario.alice_session 40 60 90 Browser.Done Browser.Done Browser.Done
           [(50%N, Browser.Done); (70%N, Browser.Done); (70%N, Browser.Done)]);
    reflexivity.
Defined.

(** Two toggles of [medications] on Alice's existing record. *)
Lemma toggle_twice_witness :
  let t2 :=
    Browser.after (Consent.handlePermissionToggle "p1" Types.Medications)
      (Browser.after (Consent.handlePermissionToggle "p1" Types.Medications)
         Scenario.with_record) in
  option_map Types.permissions
    (Consent.find_provider "p1" (ConsentPage.providers (Browser.consentPage t2)))
  = Some (Types.mkPermissions false false false).
Proof.
  cbv zeta.
  apply (toggle_twice "p1" Types.Medications Scenario.with_record Scenario.p1
           Scenario.alice_session Scenario.old_row 40 60 90 50 70 70
           Browser.Done Browser.Done Browser.Done Browser.Done Browser.Done Browser.Done []);
    reflexivity.
Defined.

(** C4 as stated fails, in each way the amended statement rules out.
    Two toggles of [medications], every write accepted:
    on Alice's old record the flags and [approved] are back but
    [updated_at] has moved to the time of the second write;
    on a record whose granted lab results the screen does not show, the
    record ends with the screen's flags and the grant is gone;
    on a record whose [approved] was not the disjunction of its flags,
    [approved] ends as the disjunction;
    and where there was no record, there is one afterwards. *)
Lemma toggle_twice_not_restored :
  let twice t :=
    Browser.after (Consent.handlePermissionToggle "p1" Types.Medications)
      (Browser.after (Consent.handlePermissionToggle "p1" Types.Medications) t) in
  let record t := Browser.consents t !! ("u1", "p1") in
  (record Scenario.with_record
   = Some (Db.mkRow (Db.mkColumns false false false false 1699990000000) 1699990000000)
   /\ record (twice Scenario.with_record)
      = Some (Db.mkRow (Db.mkColumns false false false false 1700000000380) 1699990000000))
  /\ (record Scenario.with_stale_screen
      = Some (Db.mkRow (Db.mkColumns true false false true 1699990000000) 1699990000000)
      /\ record (twice Scenario.with_stale_screen)
         = Some (Db.mkRow (Db.mkColumns false false false false 1700000000380)
                   1699990000000))
  /\ (record Scenario.with_migrated_record
      = Some (Db.mkRow (Db.mkColumns true false false false 1699990000000) 1699990000000)
      /\ option_map Types.permissions
           (Consent.find_provider "p1"
              (ConsentPage.providers (Browser.consentPage Scenario.with_migrated_record)))
         = Some (Types.mkPermissions true false false)
      /\ record (twice Scenario.with_migrated_record)
         = Some (Db.mkRow (Db.mkColumns true false false true 1700000000380)
                   1699990000000))
  /\ (record Scenario.without_record = None
      /\ record (twice Scenario.without_record)
         = Some (Db.mkRow (Db.mkColumns false false false false 1700000000380)
                   1700000000190)).
Proof. cbv zeta. repeat split; vm_compute; reflexivity. Qed.

(** ** Saving from the modal *)

Section SaveFacts.
Import JS Browser Runtime Logic Types.

#[local] Instance same_refl {X : Type} (part : Tab -> X) : Reflexive (same part).
Proof. intros t. reflexivity. Qed.

#[local] Instance same_trans {X : Type} (part : Tab -> X) : Transitive (same part).
Proof. intros t1 t2 t3 H12 H23. unfold same in *. congruence. Qed.

(** A step that is no composition: run it on a tab given part by part. *)
Ltac keep_leaf :=
  intros t; open_tab t; unfold same, after, await_backend; cbn;
  repeat match goal with
         | |- context [match ?x with _ => _ end] => destruct x; cbn
         end;
  reflexivity.

Ltac keep_same :=
  unfold ProviderAccessModal.save, ProviderAccessModal.handleSaveChanges,
    ProviderAccessModal.platform_write, ProviderAccessModal.fall_back,
    ProviderAccessModal.report, Consent.handleUpdatePermissions, Consent.write_consent,
    select_consent, update_consent, insert_consent, auth_getUser,
    Consent.setLoading, Consent.setProviders, Consent.setIsModalOpen,
    ProviderAccessModal.setLoading, ProviderAccessModal.setError,
    console_error, alert, Date_now;
  cbv zeta;
  repeat first
    [ apply preserved_bind; [exact _ | | intros ?]
    | apply preserved_try_catch; [exact _ | | intros ?]
    | apply preserved_finally; [exact _ | | ]
    | apply preserved_ret; exact _
    | apply preserved_throw; exact _
    | apply preserved_gets; exact _
    | match goal with
      | |- preserved _ (match ?x with _ => _ end) => destruct x
      | |- preserved _ (if ?x then _ else _) => destruct x
      end
    | apply preserved_modify; keep_leaf
    | keep_leaf ].

Lemma save_keeps_sent : preserved (same sent) ProviderAccessModal.save.
Proof. keep_same. Qed.

Lemma save_keeps_switches :
  preserved (same (fun t => AccessModal.currentPermissions (accessModal t)))
    ProviderAccessModal.save.
Proof. keep_same. Qed.

(** *** The parent's handler *)

Ltac no_throw :=
  repeat first
    [ apply never_throws_ret
    | apply never_throws_gets
    | apply never_throws_modify
    | apply never_throws_try_catch; intros ?
    | apply never_throws_finally
    | apply never_throws_bind; [| intros ?]
    | match goal with
      | |- never_throws (if ?x then _ else _) => destruct x
      end ].

Lemma handleUpdatePermissions_never_throws (pid : string) (p : Permissions) :
  never_throws (Consent.handleUpdatePermissions pid p).
Proof.
  unfold Consent.handleUpdatePermissions, Consent.setLoading, console_error, alert.
  no_throw.
Qed.

Lemma auth_getUser_keeps_shown : preserved (same Consent.shown) auth_getUser.
Proof. unfold Consent.shown. keep_same. Qed.

Lemma write_consent_keeps_shown (u pid : string) (c : Db.Columns) :
  preserved (same Consent.shown) (Consent.write_consent u pid c).
Proof. unfold Consent.shown. keep_same. Qed.

Lemma platform_write_keeps_shown (s : AccessModal.t) (any : bool) :
  preserved (same Consent.shown) (ProviderAccessModal.platform_write s any).
Proof. unfold Consent.shown. keep_same. Qed.

(** Follow a call whose effect on the screen is known, whatever its outcome. *)
Ltac follow f keeps :=
  match goal with
  | |- context [f ?T] =>
      let K := fresh "K" in
      let T' := fresh "T" in
      pose proof (keeps T) as K; unfold same, after, Consent.shown in K;
      destruct (f T) as [[? | ? |] T'];
      destruct T' as [? ? ? ? ? ? ? ? ? ? ? ? ? ? ? ? [? ? ? ? ?] ?];
      cbn in K; injection K as -> -> ->
  end.

Ltac follow_write :=
  match goal with
  | |- context [Consent.write_consent ?u ?q ?c ?T] =>
      let K := fresh "K" in
      let T' := fresh "T" in
      pose proof (write_consent_keeps_shown u q c T) as K;
      unfold same, after, Consent.shown in K;
      destruct (Consent.write_consent u q c T) as [[? | ? |] T'];
      destruct T' as [? ? ? ? ? ? ? ? ? ? ? ? ? ? ? ? [? ? ? ? ?] ?];
      cbn in K; injection K as -> -> ->
  end.

Lemma handleUpdatePermissions_shows (pid : string) (p : Permissions) (t : Tab) :
  let t' := after (Consent.handleUpdatePermissions pid p) t in
  let any := some_Boolean (Object_values p) in
  (outcome (Consent.handleUpdatePermissions pid p) t = Returns tt
   /\ Consent.shown t'
      = (Consent.with_permissions pid p any (ConsentPage.providers (consentPage t)),
         alerts t, false))
  \/ (outcome (Consent.handleUpdatePermissions pid p) t = Returns tt
      /\ Consent.shown t'
         = (ConsentPage.providers (consentPage t),
            (alerts t ++ ["Failed to update permissions. Please try again."])%list,
            ConsentPage.isModalOpen (consentPage t)))
  \/ (outcome (Consent.handleUpdatePermissions pid p) t = Hangs
      /\ Consent.shown t' = Consent.shown t).
Proof.
  cbv zeta. open_tab t. destruct page_ as [ps sel open ld err].
  unfold after, outcome, Consent.handleUpdatePermissions, Consent.shown, Date_now,
    Consent.setLoading, Consent.setProviders, Consent.setIsModalOpen, console_error, alert,
    finally, try_catch, bind, gets, modify, ret, throw.
  cbn -[auth_getUser Consent.write_consent].
  follow auth_getUser auth_getUser_keeps_shown;
    cbn -[auth_getUser Consent.write_consent].
  - match goal with
    | u : option SupabaseAuthContext.User |- _ => destruct u
    end; cbn -[auth_getUser Consent.write_consent].
    + follow_write; cbn; auto.
    + right. left. split; reflexivity.
  - right. left. split; reflexivity.
  - right. right. split; reflexivity.
Qed.

(** *** The modal's handler *)

Lemma platform_write_keeps_modal (s : AccessModal.t) (any : bool) :
  preserved (same accessModal) (ProviderAccessModal.platform_write s any).
Proof. keep_same. Qed.

Lemma handleUpdatePermissions_keeps_modal (pid : string) (p : Permissions) :
  preserved (same accessModal) (Consent.handleUpdatePermissions pid p).
Proof. keep_same. Qed.

Ltac follow_platform_write :=
  match goal with
  | |- context [ProviderAccessModal.platform_write ?s ?any ?T] =>
      let K := fresh "K" in
      let M := fresh "M" in
      let T' := fresh "T" in
      pose proof (platform_write_keeps_shown s any T) as K;
      pose proof (platform_write_keeps_modal s any T) as M;
      unfold same, after, Consent.shown in K, M;
      destruct (ProviderAccessModal.platform_write s any T) as [[[] | ? |] T'];
      destruct T' as [? ? ? ? ? ? ? ? ? ? ? ? ? ? ? ? [? ? ? ? ?] ?];
      cbn in K, M; injection K as -> -> ->; subst
  end.

Ltac follow_parent :=
  match goal with
  | |- context [Consent.handleUpdatePermissions ?q ?p ?T] =>
      let K := fresh "K" in
      let M := fresh "M" in
      let T' := fresh "T" in
      pose proof (handleUpdatePermissions_shows q p T) as K;
      pose proof (handleUpdatePermissions_keeps_modal q p T) as M;
      unfold same, after, outcome, Consent.shown in K, M; cbv zeta in K;
      destruct (Consent.handleUpdatePermissions q p T) as [[[] | ? |] T'];
      destruct T' as [? ? ? ? ? ? ? ? ? ? ? ? ? ? ? ? [? ? ? ? ?] ?];
      cbn in K, M;
      destruct K as [[Ko Ks] | [[Ko Ks] | [Ko Ks]]]; try discriminate Ko;
      injection Ks as -> -> ->; subst
  end.

Lemma save_shows (t : Tab) :
  let t' := after ProviderAccessModal.save t in
  let pid := id (AccessModal.provider (accessModal t)) in
  let p := AccessModal.currentPermissions (accessModal t) in
  let any := some_Boolean (Object_values p) in
  AccessModal.error (accessModal t') = None
  /\ ((outcome ProviderAccessModal.save t = Returns tt
       /\ Consent.shown t'
          = (Consent.with_permissions pid p any (ConsentPage.providers (consentPage t)),
             alerts t, false))
      \/ (outcome ProviderAccessModal.save t = Returns tt
          /\ Consent.shown t'
             = (ConsentPage.providers (consentPage t),
                (alerts t ++ ["Failed to update permissions. Please try again."])%list,
                false))
      \/ (outcome ProviderAccessModal.save t = Hangs
          /\ Consent.shown t' = Consent.shown t)).
Proof.
  cbv zeta. open_tab t. destruct page_ as [ps sel open ld err].
  destruct modal_ as [pr mld merr cur conf].
  unfold after, outcome, ProviderAccessModal.save, ProviderAccessModal.handleSaveChanges,
    ProviderAccessModal.fall_back, ProviderAccessModal.report, Consent.shown,
    ProviderAccessModal.setLoading, ProviderAccessModal.setError, Consent.setIsModalOpen,
    console_error, finally, try_catch, bind, gets, modify, ret, throw.
  cbn -[ProviderAccessModal.platform_write Consent.handleUpdatePermissions].
  follow_platform_write;
    cbn -[ProviderAccessModal.platform_write Consent.handleUpdatePermissions].
  all: try (follow_parent;
            cbn -[ProviderAccessModal.platform_write Consent.handleUpdatePermissions]).
  all: split; [reflexivity |].
  all: first [ left; split; reflexivity
             | right; left; split; reflexivity
             | right; right; split; reflexivity ].
Qed.

Lemma try_catch_never_throws {A : Type} (m : Eff A) (handler : Thrown -> Eff A) (t : Tab) :
  never_throws m -> try_catch m handler t = m t.
Proof.
  intros Hm. unfold try_catch. specialize (Hm t). unfold outcome in Hm.
  destruct (m t) as [[a | e |] t1]; try reflexivity.
  exfalso. apply (Hm e). reflexivity.
Qed.

Lemma fall_back_never_throws (s : AccessModal.t) :
  never_throws
    (ProviderAccessModal.fall_back Consent.handleUpdatePermissions
       (Consent.setIsModalOpen false) s).
Proof.
  unfold ProviderAccessModal.fall_back, Consent.setIsModalOpen.
  apply never_throws_bind; [apply handleUpdatePermissions_never_throws | intros _].
  apply never_throws_modify.
Qed.

(** When the modal's own write does not go through, what remains of the
    save is the parent's handler, then closing, then clearing the flag. *)
Lemma save_falls_back (t : Tab) :
  let started :=
    after (ProviderAccessModal.setLoading true;; ProviderAccessModal.setError None)%eff t in
  let s := accessModal started in
  let attempt :=
    ProviderAccessModal.platform_write s
      (some_Boolean (Object_values (AccessModal.currentPermissions s))) in
  let rest :=
    finally
      (ProviderAccessModal.fall_back Consent.handleUpdatePermissions
         (Consent.setIsModalOpen false) s)
      (ProviderAccessModal.setLoading false) in
  (forall e, outcome attempt started = Throws e ->
     ProviderAccessModal.save t
     = rest (after (console_error "Error updating in Supabase:") (after attempt started)))
  /\ (outcome attempt started = Returns false ->
      ProviderAccessModal.save t = rest (after attempt started)).
Proof.
  cbv zeta. open_tab t. destruct modal_ as [pr mld merr cur conf].
  split; [intros e He | intros He].
  all: unfold after, outcome, ProviderAccessModal.save,
         ProviderAccessModal.handleSaveChanges, ProviderAccessModal.fall_back,
         ProviderAccessModal.report, ProviderAccessModal.setLoading,
         ProviderAccessModal.setError, Consent.setIsModalOpen, console_error,
         finally, try_catch, bind, gets, modify, ret, throw in *.
  all: cbn -[ProviderAccessModal.platform_write Consent.handleUpdatePermissions] in *.
  all: destruct (ProviderAccessModal.platform_write _ _ _) as [[[] | e0 |] T2];
         cbn in He; try discriminate He.
  all: cbn -[Consent.handleUpdatePermissions].
  all: match goal with
       | |- context [Consent.handleUpdatePermissions ?q ?p ?T] =>
           let NT := fresh "NT" in
           pose proof (handleUpdatePermissions_never_throws q p T) as NT;
           unfold outcome in NT;
           destruct (Consent.handleUpdatePermissions q p T) as [[[] | e1 |] T3];
           [reflexivity | exfalso; apply (NT e1); reflexivity | reflexivity]
       end.
Qed.
(** What the save does, whatever the platform answers: the modal's save
    sends no request to the REST API, leaves the modal's error unset and its
    switches at the requested values; when its own platform write does not
    go through (it throws, or there is no user), the error is only logged
    and the save goes on with the parent's handler; and the consent list
    ends up showing the requested permissions, or is left as it was, with
    the alert of the parent's own failed write or with the save still
    waiting. *)
Lemma save_falls_back_to_parent (t : Tab) :
  let t' := after ProviderAccessModal.save t in
  let pid := id (AccessModal.provider (accessModal t)) in
  let p := AccessModal.currentPermissions (accessModal t) in
  let started :=
    after (ProviderAccessModal.setLoading true;; ProviderAccessModal.setError None)%eff t in
  let attempt :=
    ProviderAccessModal.platform_write (accessModal started)
      (some_Boolean (Object_values (AccessModal.currentPermissions (accessModal started)))) in
  let rest :=
    finally
      (ProviderAccessModal.fall_back Consent.handleUpdatePermissions
         (Consent.setIsModalOpen false) (accessModal started))
      (ProviderAccessModal.setLoading false) in
  sent t' = sent t
  /\ AccessModal.error (accessModal t') = None
  /\ AccessModal.currentPermissions (accessModal t') = p
  /\ (forall e, outcome attempt started = Throws e ->
        ProviderAccessModal.save t
        = rest (after (console_error "Error updating in Supabase:") (after attempt started)))
  /\ (outcome attempt started = Returns false ->
      ProviderAccessModal.save t = rest (after attempt started))
  /\ ((outcome ProviderAccessModal.save t = Returns tt
       /\ Consent.shown t'
          = (Consent.with_permissions pid p (some_Boolean (Object_values p))
               (ConsentPage.providers (consentPage t)),
             alerts t, false))
      \/ (outcome ProviderAccessModal.save t = Returns tt
          /\ Consent.shown t'
             = (ConsentPage.providers (consentPage t),
                (alerts t ++ ["Failed to update permissions. Please try again."])%list,
                false))
      \/ (outcome ProviderAccessModal.save t = Hangs
          /\ Consent.shown t' = Consent.shown t)).
Proof.
  cbv zeta.
  destruct (save_shows t) as [Herr Hshown].
  destruct (save_falls_back t) as [Hthrows Hnouser].
  split; [apply (save_keeps_sent t) |].
  split; [exact Herr |].
  split; [apply (save_keeps_switches t) |].
  split; [exact Hthrows |].
  split; [exact Hnouser | exact Hshown].
Qed.
End SaveFacts.

(** The modal's insert is rejected; the save goes on with the parent's
    handler, on the tab the rejected attempt left. *)
Lemma save_falls_back_to_parent_witness :
  let t :=
    Browser.with_backend
      [(40%N, Browser.Done); (60%N, Browser.Done); (90%N, Scenario.rejected);
       (50%N, Browser.Done); (70%N, Browser.Done); (70%N, Browser.Done)]
      Scenario.editing in
  let started :=
    Browser.after
      (ProviderAccessModal.setLoading true;; ProviderAccessModal.setError None)%eff t in
  let attempt :=
    ProviderAccessModal.platform_write (Browser.accessModal started)
      (Types.some_Boolean
         (Types.Object_values
            (AccessModal.currentPermissions (Browser.accessModal started)))) in
  ProviderAccessModal.save t
  = Browser.finally
      (ProviderAccessModal.fall_back Consent.handleUpdatePermissions
         (Consent.setIsModalOpen false) (Browser.accessModal started))
      (ProviderAccessModal.setLoading false)
      (Browser.after (Runtime.console_error "Error updating in Supabase:")
         (Browser.after attempt started)).
Proof.
  cbv zeta.
  destruct (save_falls_back_to_parent
              (Browser.with_backend
                 [(40%N, Browser.Done); (60%N, Browser.Done); (90%N, Scenario.rejected);
                  (50%N, Browser.Done); (70%N, Browser.Done); (70%N, Browser.Done)]
                 Scenario.editing))
    as (_ & _ & _ & H & _).
  apply (H (Runtime.backend_error "new row violates row-level security policy")).
  vm_compute. reflexivity.
Defined.

(** With the platform rejecting both the modal's write and the parent's,
    no request at all goes to the REST API, an alert is shown, and the
    consent list still has [p1] with every flag off, not the requested lab
    results. *)
Lemma save_rejected_twice :
  let t :=
    Browser.with_backend
      [(40%N, Browser.Done); (60%N, Browser.Done); (90%N, Scenario.rejected);
       (50%N, Browser.Done); (70%N, Browser.Done); (70%N, Scenario.rejected)]
      Scenario.editing in
  let t' := Browser.after ProviderAccessModal.save t in
  AccessModal.currentPermissions (Browser.accessModal t) = Types.mkPermissions true false false
  /\ Browser.outcome ProviderAccessModal.save t = Browser.Returns tt
  /\ Browser.sent t' = []
  /\ Browser.alerts t' = ["Failed to update permissions. Please try again."]
  /\ Browser.console t' = ["Error updating in Supabase:"; "Error updating permissions:"]
  /\ ConsentPage.providers (Browser.consentPage t') = [Scenario.p1]
  /\ Browser.consents t' !! ("u1", "p1") = None.
Proof. vm_compute. repeat split; reflexivity. Qed.

Section SaveDivergence.
Import JS Browser Runtime Types.

(** C2: the modal's save has no path to the REST API.  In whatever state it
    runs, it sends no request.  When its own platform write does not go
    through (it throws, or there is no user), the error is only logged, and
    what remains of the save is the consent screen's handler, which repeats
    the platform write, then closing the modal.  So with the platform
    rejecting both writes, Alice's save of lab results for [p1] sends
    nothing, shows the alert of the failed update, and leaves the consent
    list with [p1] and every flag off: neither a settings POST, nor a
    swallowed error, nor the requested value on the screen. *)
Theorem save_has_no_rest_fallback :
  (forall t, sent (after ProviderAccessModal.save t) = sent t)
  /\ (forall t,
        let started :=
          after (ProviderAccessModal.setLoading true;; ProviderAccessModal.setError None)%eff
            t in
        let s := accessModal started in
        let attempt :=
          ProviderAccessModal.platform_write s
            (some_Boolean (Object_values (AccessModal.currentPermissions s))) in
        let rest :=
          finally
            (ProviderAccessModal.fall_back Consent.handleUpdatePermissions
               (Consent.setIsModalOpen false) s)
            (ProviderAccessModal.setLoading false) in
        (forall e, outcome attempt started = Throws e ->
           ProviderAccessModal.save t
           = rest (after (console_error "Error updating in Supabase:")
                     (after attempt started)))
        /\ (outcome attempt started = Returns false ->
            ProviderAccessModal.save t = rest (after attempt started)))
  /\ (let t :=
        with_backend
          [(40%N, Done); (60%N, Done); (90%N, Scenario.rejected);
           (50%N, Done); (70%N, Done); (70%N, Scenario.rejected)]
          Scenario.editing in
      let t' := after ProviderAccessModal.save t in
      AccessModal.currentPermissions (accessModal t) = mkPermissions true false false
      /\ outcome ProviderAccessModal.save t = Returns tt
      /\ sent t' = []
      /\ alerts t' = ["Failed to update permissions. Please try again."]
      /\ console t' = ["Error updating in Supabase:"; "Error updating permissions:"]
      /\ ConsentPage.providers (consentPage t') = [Scenario.p1]
      /\ consents t' !! ("u1", "p1") = None).
Proof.
  split; [exact save_keeps_sent |].
  split; [exact save_falls_back | exact save_rejected_twice].
Qed.
End SaveDivergence.

(** * Further properties of the code *)

(** ** The two guards together, and the login screen's redirect *)

Section GuardPairFacts.
Import RouteGuard.
Context {LegacyUser SupabaseUser : Type}.

(** While a facade loads both guards wait; once neither does, exactly one
    of them shows its pages: with a platform user the protected screens are
    shown and the public ones send to ["/"], without one the public screens
    are shown and the protected ones send to ["/login"]. *)
Theorem guards_complementary
    (legacyUser : option LegacyUser) (legacyLoading : bool)
    (supabaseUser : option SupabaseUser) (supabaseLoading : bool) :
  let protected := ProtectedRoute legacyUser legacyLoading supabaseUser supabaseLoading in
  let public := PublicRoute legacyUser legacyLoading supabaseUser supabaseLoading in
  (legacyLoading || supabaseLoading = true -> protected = Spinner /\ public = Spinner)
  /\ (legacyLoading || supabaseLoading = false ->
      admits protected = negb (admits public)
      /\ (is_Some supabaseUser -> protected = Outlet /\ public = NavigateTo "/")
      /\ (supabaseUser = None -> protected = NavigateTo "/login" /\ public = Outlet)).
Proof.
  cbv zeta. unfold ProtectedRoute, PublicRoute. split.
  - intros ->. split; reflexivity.
  - intros ->. destruct supabaseUser as [u |]; cbn.
    + split; [reflexivity | split; [intros _; split; reflexivity | discriminate]].
    + split; [reflexivity | split; [intros [x Hx]; discriminate | intros _; split; reflexivity]].
Qed.
End GuardPairFacts.

Lemma guards_complementary_witness :
  RouteGuard.ProtectedRoute (@None unit) false (Some tt) false = RouteGuard.Outlet
  /\ RouteGuard.PublicRoute (@None unit) false (Some tt) false = RouteGuard.NavigateTo "/".
Proof.
  destruct (guards_complementary (@None unit) false (Some tt) false) as [_ H].
  destruct (H eq_refl) as (_ & Hs & _).
  apply Hs. exists tt. reflexivity.
Defined.

Section LoginRedirectFacts.
Import JS Browser Runtime RouteGuard.

(** A visitor who holds a legacy user and no platform session, neither
    facade loading, is shown the login screen by the public guard; the
    login screen's effect sends them to ["/"], changing nothing but the
    path; and the guard of ["/"] sends them back to ["/login"]. *)
Theorem legacy_only_visitor_bounces (t : Tab) (u : Json) :
  AuthContext.user (auth t) = Some u ->
  truthy_value (Of u) = true ->
  SupabaseAuthContext.user (supabaseAuth t) = None ->
  AuthContext.loading (auth t) = false ->
  SupabaseAuthContext.loading (supabaseAuth t) = false ->
  Router.PublicRoute t = Outlet
  /\ Login.checkAuthStatus t = (Returns tt, with_location "/" t)
  /\ Router.ProtectedRoute (with_location "/" t) = NavigateTo "/login"
  /\ Router.PublicRoute (with_location "/login" (with_location "/" t)) = Outlet.
Proof.
  intros Hu Ht Hs Hl1 Hl2. open_tab t.
  destruct auth_ as [au al ae], sauth_ as [su ss sl se]. cbn in *. subst.
  unfold Router.PublicRoute, Router.ProtectedRoute, PublicRoute, ProtectedRoute,
    Login.checkAuthStatus, bind, gets, navigate, modify. cbn.
  rewrite Ht, orb_true_r. repeat split; reflexivity.
Qed.
End LoginRedirectFacts.

Lemma legacy_only_visitor_bounces_witness :
  let t :=
    Browser.with_auth (AuthContext.mk (Some (JS.JObject [("id", JS.JString "7")])) false None)
      (Browser.with_supabaseAuth (SupabaseAuthContext.mk None None false None)
         (Browser.with_location "/login" Scenario.blank)) in
  Router.PublicRoute t = RouteGuard.Outlet
  /\ Login.checkAuthStatus t = (Browser.Returns tt, Browser.with_location "/" t)
  /\ Router.ProtectedRoute (Browser.with_location "/" t) = RouteGuard.NavigateTo "/login"
  /\ Router.PublicRoute (Browser.with_location "/login" (Browser.with_location "/" t))
     = RouteGuard.Outlet.
Proof.
  cbv zeta.
  apply (legacy_only_visitor_bounces _ (JS.JObject [("id", JS.JString "7")])); reflexivity.
Defined.

(** ** The REST client: what a request does *)

Section RequestFacts.
Import JS Api Browser Runtime.

(** A response outside 200..299 never gives a value: something is thrown.
    It is the typed error with the response's status, except in two cases
    where a [TypeError] is thrown instead: the body is the JSON [null], or
    the body's [message] has no string conversion (an object with an own
    key [toString], or an array holding one).  The typed error's message is
    the body's [message] converted to a string, the default one only when
    the body is not JSON, and empty when the body has no [message]. *)
Theorem handleResponse_rejects_non_ok (r : Response) :
  ok r = false ->
  exists e,
    handleResponse r = inl e
    /\ (forall why, json r = inl why ->
          e = mkThrown (ApiError (status r))
                (if status r =? 401 then "Invalid credentials" else "An error occurred"))
    /\ (json r = inr JNull -> e = mkThrown TypeError null_property_message)
    /\ (forall fs, json r = inr (JObject fs) ->
          match field "message" fs with
          | Some m =>
              match ToString m with
              | Some text => e = mkThrown (ApiError (status r)) text
              | None => e = not_primitive
              end
          | None => e = mkThrown (ApiError (status r)) ""
          end)
    /\ (forall v, json r = inr v -> v <> JNull -> (forall fs, v <> JObject fs) ->
          e = mkThrown (ApiError (status r)) "")
    /\ (class e = TypeError
        <-> json r = inr JNull
            \/ exists fs m, json r = inr (JObject fs)
                            /\ field "message" fs = Some m /\ ToString m = None)
    /\ (class e <> TypeError -> class e = ApiError (status r)).
Proof.
  intros Hok. unfold handleResponse. rewrite Hok. cbn.
  destruct r as [st [why | v]]; cbn.
  - eexists. split; [reflexivity |]. cbn.
    split; [intros why' _; reflexivity |]. split; [discriminate |].
    split; [discriminate |]. split; [discriminate |].
    split; [| reflexivity].
    split; [discriminate | intros [H | (fs & m & H & _)]; discriminate].
  - destruct v as [| b | canon | s | items | fs]; cbn.
    6: destruct (field "message" fs) as [m |] eqn:Hm; cbn;
         [destruct (ToString m) as [text |] eqn:Ht |].
    all: eexists; (split; [reflexivity |]); cbn.
    all: split; [discriminate |].
    all: split; [try reflexivity; discriminate |].
    all: split; [try discriminate; try (intros fs' [= <-]; rewrite Hm; try rewrite Ht; reflexivity) |].
    all: split; [intros v [= <-] Hn Ho; try reflexivity; try (contradiction Hn; reflexivity);
                 contradiction (Ho fs); reflexivity |].
    all: split; [| try reflexivity; intros H; contradiction H; reflexivity].
    all: split; try discriminate; try (intros _; left; reflexivity);
           try (intros _; right; exists fs, m; repeat split; assumption);
           try (intros _; reflexivity).
    all: intros [H | (fs' & m' & H & Hm' & Ht')]; try discriminate.
    all: injection H as <-; congruence.
Qed.

Lemma request_sent (method endpoint : string) (data : option Json) (t : Tab) :
  sent (after (request method endpoint data) t)
  = (sent t ++ [mkRequest method endpoint
                  (match localStorage t !! "token" with
                   | Some tk => if truthy tk then Some tk else None
                   | None => None
                   end) data])%list.
Proof.
  open_tab t. unfold after, request, send, getHeaders, getItem, await_fetch, settle, bind,
    gets, modify, ret, throw.
  cbn. destruct replies_ as [| [d f] rest]; cbn; [reflexivity |].
  destruct f as [r | why]; [destruct (handleResponse r) |]; reflexivity.
Qed.

(** A request is handed to [fetch] exactly once, with the stored token as
    its bearer when that is not empty; awaiting it takes one scripted
    answer, and neither the storage nor the path changes, however the
    request settles. *)
Theorem request_sends_once (method endpoint : string) (data : option Json) (t : Tab) :
  let t' := after (request method endpoint data) t in
  sent t'
  = (sent t ++ [mkRequest method endpoint
                  (match localStorage t !! "token" with
                   | Some tk => if truthy tk then Some tk else None
                   | None => None
                   end) data])%list
  /\ replies t' = tl (replies t)
  /\ localStorage t' = localStorage t
  /\ location t' = location t
  /\ (replies t = [] <-> outcome (request method endpoint data) t = Hangs).
Proof.
  cbv zeta. open_tab t. unfold after, outcome, request, send, getHeaders, getItem,
    await_fetch, settle, bind, gets, modify, ret, throw.
  cbn. destruct replies_ as [| [d f] rest]; cbn.
  - repeat split; reflexivity.
  - destruct f as [r | why]; [destruct (handleResponse r) |]; cbn;
      repeat split; try reflexivity; intros; discriminate.
Qed.
End RequestFacts.

(** A 404 with a message, and one whose message is an object that hides
    [toString]. *)
Lemma handleResponse_rejects_non_ok_witness :
  Api.handleResponse (Api.mkResponse 404 (inr (JS.JObject [("message", JS.JString "gone")])))
  = inl (JS.mkThrown (JS.ApiError 404) "gone")
  /\ Api.handleResponse
       (Api.mkResponse 404
          (inr (JS.JObject [("message", JS.JObject [("toString", JS.JNull)])])))
     = inl JS.not_primitive.
Proof.
  split.
  - destruct (handleResponse_rejects_non_ok
                (Api.mkResponse 404 (inr (JS.JObject [("message", JS.JString "gone")])))
                eq_refl) as (e & He & _ & _ & Hm & _).
    rewrite He. f_equal. exact (Hm _ eq_refl).
  - destruct (handleResponse_rejects_non_ok
                (Api.mkResponse 404
                   (inr (JS.JObject [("message", JS.JObject [("toString", JS.JNull)])])))
                eq_refl) as (e & He & _ & _ & Hm & _).
    rewrite He. f_equal. exact (Hm _ eq_refl).
Defined.

(** ** Blank input *)

Section TrimFacts.
Import JS.

Lemma trimStart_blank (s : string) :
  trimStart s = "" <-> every is_whitespace s = true.
Proof.
  induction s as [| c s IH]; cbn.
  - split; reflexivity.
  - destruct (is_whitespace c); cbn; [exact IH | split; discriminate].
Qed.

Lemma every_app (p : ascii -> bool) (s1 s2 : string) :
  every p (s1 ++ s2) = every p s1 && every p s2.
Proof.
  induction s1 as [| c s1 IH]; [reflexivity |].
  change (p c && every p (s1 ++ s2) = p c && every p s1 && every p s2).
  rewrite IH, andb_assoc. reflexivity.
Qed.

Lemma string_of_list_app (l1 l2 : list ascii) :
  string_of_list_ascii (l1 ++ l2) = string_of_list_ascii l1 ++ string_of_list_ascii l2.
Proof.
  induction l1 as [| c l1 IH]; [reflexivity |].
  change (String c (string_of_list_ascii (l1 ++ l2))
          = String c (string_of_list_ascii l1 ++ string_of_list_ascii l2)).
  rewrite IH. reflexivity.
Qed.

Lemma reverse_cons (c : ascii) (s : string) :
  reverse (String c s) = reverse s ++ String c "".
Proof. unfold reverse. cbn. apply string_of_list_app. Qed.

Lemma every_reverse (p : ascii -> bool) (s : string) :
  every p (reverse s) = every p s.
Proof.
  induction s as [| c s IH]; [reflexivity |].
  rewrite reverse_cons, every_app, IH. cbn.
  rewrite andb_true_r. apply andb_comm.
Qed.

Lemma reverse_empty (s : string) : reverse s = "" -> s = "".
Proof.
  destruct s as [| c s]; [reflexivity |].
  rewrite reverse_cons. destruct (reverse s); discriminate.
Qed.

Lemma trimStart_idle (s : string) :
  every is_whitespace (trimStart s) = true -> trimStart s = "".
Proof.
  induction s as [| c s IH]; [reflexivity |]. cbn.
  destruct (is_whitespace c) eqn:E; [exact IH |].
  cbn. rewrite E. discriminate.
Qed.

(** [s.trim()] is empty exactly when [s] holds nothing but whitespace. *)
Lemma trim_blank (s : string) : trim s = "" <-> every is_whitespace s = true.
Proof.
  unfold trim, trimEnd. split.
  - intros H. apply reverse_empty in H. apply trimStart_blank in H.
    rewrite every_reverse in H. apply trimStart_idle in H.
    apply trimStart_blank. exact H.
  - intros H. apply trimStart_blank in H. rewrite H. reflexivity.
Qed.

Lemma truthy_trim (s : string) : truthy (trim s) = negb (every is_whitespace s).
Proof.
  destruct (every is_whitespace s) eqn:E.
  - apply trim_blank in E. rewrite E. reflexivity.
  - destruct (trim s) eqn:T; [| reflexivity].
    apply trim_blank in T. congruence.
Qed.
End TrimFacts.

(** ** The legacy facade: signing in *)

Section LoginFacts.
Import JS Api Browser Runtime AuthProvider.
Variable JSON_stringify : Value -> string.

Ltac run_login :=
  unfold login, try_catch, finally, api_post, api_get, request, send, getHeaders, await_fetch,
    settle, prop, bind, getItem, setItem_value, setItem, navigate, gets, modify, ret, throw,
    setTimeout, clearTimeout, setLoading, setError, setUser.

Ltac run_login_in E :=
  unfold login, try_catch, finally, api_post, api_get, request, send, getHeaders, await_fetch,
    settle, prop, bind, getItem, setItem_value, setItem, navigate, gets, modify, ret, throw,
    setTimeout, clearTimeout, setLoading, setError, setUser in E.

Lemma snoc_differs {A : Type} (l : list A) (x : A) : (l ++ [x])%list <> l.
Proof.
  intros H. apply (f_equal (@List.length A)) in H.
  rewrite List.length_app in H. cbn in H. lia.
Qed.

(** What [settle] throws is an [Error]. *)
Lemma settle_throws_Error (f : Fetched) (t0 t1 : Tab) (e : Thrown) :
  settle f t0 = (Throws e, t1) -> instanceof_Error e = true.
Proof.
  destruct f as [r | why]; cbn.
  - unfold handleResponse.
    destruct (negb (ok r)); cbn.
    + destruct (json r) as [w | v]; cbn.
      * intros [= <- _]. reflexivity.
      * destruct (getProp v "message") as [m |]; [destruct (error_message m) |];
          intros [= <- _]; reflexivity.
    + destruct (json r) as [w | v]; cbn; [| discriminate].
      intros [= <- _]. reflexivity.
  - intros [= <- _]. reflexivity.
Qed.

(** An email or a password that is empty or all whitespace makes [login]
    show its message and clear the loading flag, with no request sent, no
    timer armed and nothing stored; a request is sent exactly when neither
    is blank. *)
Theorem login_validates_first (c : LoginCredentials) (t : Tab) :
  let t' := after (login JSON_stringify c) t in
  (every is_whitespace (login_email c) = true
   \/ every is_whitespace (login_password c) = true ->
   login JSON_stringify c t
   = (Returns tt,
      with_auth (AuthContext.mk (AuthContext.user (auth t)) false
                   (Some "Email and password are required")) t))
  /\ (sent t' <> sent t <->
      every is_whitespace (login_email c) = false
      /\ every is_whitespace (login_password c) = false).
Proof.
  cbv zeta. open_tab t. unfold after. unfold login at 1 2.
  rewrite !truthy_trim, !negb_involutive.
  destruct (every is_whitespace (login_email c)) eqn:He;
    destruct (every is_whitespace (login_password c)) eqn:Hp; cbn [orb].
  4: {
    split; [intros [H | H]; discriminate |].
    split; [intros _; split; reflexivity | intros _].
    run_login. cbn.
    destruct replies_ as [| [d f] rest]; cbn.
    - apply snoc_differs.
    - destruct f as [r | why]; [destruct (handleResponse r) as [e | v] |]; cbn.
      all: try (destruct (getProp v "token") as [token |]; cbn).
      all: try (destruct (value_text token); cbn).
      all: try (destruct (getProp v "user"); cbn).
      all: try (destruct (instanceof_Error _); cbn).
      all: apply snoc_differs.
  }
  all: run_login; cbn.
  all: split; [intros _; reflexivity |].
  all: split; [intros H; exfalso; apply H; reflexivity | intros [H1 H2]; discriminate].
Qed.

(** A login the server answers with an object, in time or late.  When the
    answer's [token] converts to a string, that string and the serialised
    [user] of the answer are stored (the text [undefined] for a token the
    answer lacks), the user is set, the error is the empty text, the flag is
    cleared and the path is ["/"]; from then on requests carry the stored
    token as their bearer.  When the token has no string conversion (an
    object with an own key [toString]), storing it throws: nothing is
    stored, the user and the path stay, the [TypeError]'s message is shown
    and the error is thrown again. *)
Theorem login_signs_in (c : LoginCredentials) (t : Tab)
    (d : N) (r : Response) (fs : list (string * Json)) (rest : list (N * Fetched)) :
  validated (Login c) = true ->
  replies t = (d, Responds r) :: rest ->
  handleResponse r = inr (JObject fs) ->
  let token := match field "token" fs with Some j => Of j | None => Undefined end in
  let user := match field "user" fs with Some j => Of j | None => Undefined end in
  let t' := after (login JSON_stringify c) t in
  (forall text, value_text token = Some text ->
     outcome (login JSON_stringify c) t = Returns tt
     /\ localStorage t'
        = <["user" := JSON_stringify user]> (<["token" := text]> (localStorage t))
     /\ auth t' = AuthContext.mk (as_user user) false (Some "")
     /\ location t' = "/"
     /\ (forall endpoint,
           sent (after (api_get endpoint) t')
           = (sent t' ++ [mkRequest "GET" endpoint
                            (if truthy text then Some text else None) None])%list))
  /\ (value_text token = None ->
      outcome (login JSON_stringify c) t = Throws not_primitive
      /\ localStorage t' = localStorage t
      /\ auth t'
         = AuthContext.mk (AuthContext.user (auth t)) false (Some (message not_primitive))
      /\ location t' = location t).
Proof.
  intros Hv Hr Hh. cbv zeta. open_tab t. subst replies_.
  cbn [validated] in Hv. apply andb_prop in Hv. destruct Hv as [Hv1 Hv2].
  unfold after, outcome.
  match goal with
  | |- context [login JSON_stringify c ?T] =>
      destruct (login JSON_stringify c T) as [o T'] eqn:E
  end.
  unfold login in E. rewrite Hv1, Hv2 in E. cbn [negb orb] in E.
  run_login_in E. cbn -[value_text] in E. rewrite Hh in E. cbn -[value_text] in E.
  destruct (value_text match field "token" fs with Some j => Of j | None => Undefined end)
    as [stored |] eqn:Ht; cbn in E.
  all: injection E as <- <-.
  all: split; [| intros [=]; cbn; try rewrite fold_fire_user; repeat split; reflexivity].
  2: intros text [=].
  intros text [= <-].
  split; [reflexivity |].
  split; [reflexivity |].
  split; [reflexivity |].
  split; [reflexivity |].
  intros ep.
  match goal with
  | |- context [api_get ?e ?T] => pose proof (request_sent "GET" e None T) as Hq
  end.
  unfold after in Hq; unfold api_get; rewrite Hq; cbn.
  rewrite lookup_insert_ne by discriminate; rewrite lookup_insert_eq.
  reflexivity.
Qed.

(** A login whose request fails shows the error's message, clears the
    flag and throws the same error again; nothing is stored, the user and
    the path stay as they were. *)
Theorem login_reports_and_rethrows (c : LoginCredentials) (t : Tab)
    (d : N) (f : Fetched) (rest : list (N * Fetched)) (e : Thrown) :
  validated (Login c) = true ->
  replies t = (d, f) :: rest ->
  (forall t0, settle f t0 = (Throws e, t0)) ->
  let t' := after (login JSON_stringify c) t in
  outcome (login JSON_stringify c) t = Throws e
  /\ auth t' = AuthContext.mk (AuthContext.user (auth t)) false (Some (message e))
  /\ localStorage t' = localStorage t
  /\ location t' = location t.
Proof.
  intros Hv Hr Hs. cbv zeta. open_tab t. subst replies_.
  cbn [validated] in Hv. apply andb_prop in Hv. destruct Hv as [Hv1 Hv2].
  pose proof (fun t0 => settle_throws_Error f t0 t0 e (Hs t0)) as He.
  unfold after, outcome.
  match goal with
  | |- context [login JSON_stringify c ?T] =>
      destruct (login JSON_stringify c T) as [o T'] eqn:E
  end.
  unfold login in E. rewrite Hv1, Hv2 in E. cbn [negb orb] in E.
  unfold try_catch, finally, api_post, request, send, getHeaders, await_fetch,
    bind, getItem, setItem, navigate, gets, modify, ret, throw, setTimeout,
    clearTimeout, setLoading, setError, setUser in E.
  cbn -[settle] in E. rewrite Hs in E. cbn in E. rewrite (He Scenario.blank) in E.
  cbn in E. injection E as <- <-. cbn.
  rewrite fold_fire_user. repeat split; reflexivity.
Qed.
End LoginFacts.

(** ** The legacy facade: errors stay inside, timers are cleared *)

Section LegacyOutcomeFacts.
Import JS Api Browser Runtime AuthProvider.
Variable JSON_stringify : Value -> string.

Ltac run_facade :=
  unfold register, login, resendVerification, forgotPassword, verifyForgotPassword,
    resetPassword, verifyTwoFactor, sendTwoFactorCode, updateProfile, updatePassword,
    getNotificationSettings, updateNotificationSettings, guarded_post,
    try_catch, finally, api_post, api_get, request, send, getHeaders, await_fetch,
    settle, prop, bind, getItem, setItem_value, setItem, navigate, gets, modify, ret, throw,
    setTimeout, clearTimeout, setLoading, setError, setUser.

Ltac by_cases :=
  repeat first
    [ progress cbn -[elapse forever Z.add]
    | match goal with
      | |- context [match ?l with [] => _ | _ :: _ => _ end] =>
          is_var l; destruct l as [| [? ?] ?]
      | f : Api.Fetched |- _ => destruct f
      | |- context [Api.handleResponse ?r] => destruct (Api.handleResponse r)
      | |- context [getProp ?o ?k] => destruct (getProp o k)
      | |- context [value_text ?v] => destruct (value_text v)
      | |- context [instanceof_Error ?e] => destruct (instanceof_Error e)
      | |- context [if ?b then _ else _] => destruct b
      end ].

(** Apart from [login] and [getNotificationSettings], which throw the
    error again, no operation of the legacy facade ever throws: a failed
    request only shows in the facade's error. *)
Theorem legacy_operations_never_throw (op : Operation) (t : Tab) (e : Thrown) :
  rethrows op = false ->
  outcome (perform JSON_stringify op) t <> Throws e.
Proof.
  intros Hr. open_tab t. unfold outcome.
  destruct op; try discriminate Hr; cbn [perform]; run_facade.
  all: by_cases; discriminate.
Qed.

(** An operation whose request is answered before the deadline, no other
    timer pending, leaves no timer behind and no timeout callback has run:
    the flag is cleared by the operation itself. *)
Theorem answered_in_time_clears_timer (op : Operation) (t : Tab)
    (d : N) (f : Fetched) (rest : list (N * Fetched)) :
  validated op = true ->
  timers t = [] ->
  replies t = (d, f) :: rest ->
  Z.of_N d < TIMEOUT_DURATION ->
  let t' := after (perform JSON_stringify op) t in
  timers t' = []
  /\ timed_out t' = timed_out t
  /\ AuthContext.loading (auth t') = false
  /\ replies t' = rest.
Proof.
  intros Hv Ht Hr Hd. cbv zeta. open_tab t. subst timers_ replies_.
  unfold TIMEOUT_DURATION in Hd.
  assert (Hdue : (clock + 15000 <=? clock + Z.of_N d) = false) by (apply Z.leb_gt; lia).
  unfold after.
  destruct op; cbn [perform validated] in *; run_facade.
  all: try (apply andb_prop in Hv; destruct Hv as [Hv1 Hv2]).
  all: try (apply andb_prop in Hv1; destruct Hv1 as [Hv0 Hv1]).
  all: try (apply negb_true_iff in Hv1).
  all: try rewrite Hv0.
  all: try rewrite Hv1.
  all: try rewrite Hv2.
  all: cbn [negb orb].
  all: repeat first
         [ progress cbn -[Z.add Z.leb Nat.eqb]
         | progress unfold due, TIMEOUT_DURATION
         | rewrite Hdue
         | rewrite Nat.eqb_refl
         | match goal with
           | f : Api.Fetched |- _ => destruct f
           | |- context [Api.handleResponse ?r] => destruct (Api.handleResponse r)
           | |- context [getProp ?o ?k] => destruct (getProp o k)
           | |- context [value_text ?v] => destruct (value_text v)
           | |- context [instanceof_Error ?e] => destruct (instanceof_Error e)
           end ].
  all: repeat split; reflexivity.
Qed.
End LegacyOutcomeFacts.

(** ** The legacy session adapter and the bridge *)

Section ServiceFacts.
Import JS Api Browser Runtime AuthService.

Lemma verification_key_inj (e1 e2 : string) :
  verification_key e1 = verification_key e2 -> e1 = e2.
Proof. unfold verification_key. cbn. intros [= H]. exact H. Qed.

(** After a verification email went out, a second request for the same
    address is refused for the next minute, counted from the moment the
    first was answered, in whatever state the tab is by then; what is on
    record for any other address is untouched. *)
Theorem resendVerification_twice (email : string) (t : Tab)
    (d : N) (r : Response) (v : Json) (rest : list (N * Fetched)) :
  cooled email t ->
  replies t = (d, Responds r) :: rest ->
  handleResponse r = inr v ->
  let t1 := after (resendVerification email) t in
  (forall t2,
      localStorage t2 !! verification_key email = localStorage t1 !! verification_key email ->
      now t2 < now t + Z.of_N d + cooldownPeriod ->
      resendVerification email t2 = (Throws (mkThrown PlainError rate_limit_message), t2))
  /\ (forall other,
        other <> email ->
        localStorage t1 !! verification_key other = localStorage t !! verification_key other).
Proof.
  intros Hc Hr Hv. cbv zeta.
  destruct (resendVerification_sent email t d r v rest Hc Hr Hv) as (_ & _ & Hs).
  cbv zeta in Hs. split.
  - intros t2 Hk Hlt. rewrite Hs, lookup_insert_eq in Hk.
    apply (resendVerification_limited email t2 (now t + Z.of_N d) Hk). lia.
  - intros other Hne. rewrite Hs. apply lookup_insert_ne.
    intros H. apply Hne. symmetry. apply verification_key_inj. exact H.
Qed.

(** [authService.logout] asks the server first: the two keys are removed
    only when that request succeeds; when it fails the error is thrown and
    both keys stay, and while it is pending nothing is removed either. *)
Theorem service_logout_asks_first (t : Tab) :
  let t' := after logout t in
  (forall d r v rest,
      replies t = (d, Responds r) :: rest -> handleResponse r = inr v ->
      outcome logout t = Returns tt
      /\ localStorage t' = delete "user" (delete "token" (localStorage t)))
  /\ (forall d f e rest,
        replies t = (d, f) :: rest -> (forall t0, settle f t0 = (Throws e, t0)) ->
        outcome logout t = Throws e /\ localStorage t' = localStorage t)
  /\ (replies t = [] -> outcome logout t = Hangs /\ localStorage t' = localStorage t).
Proof.
  cbv zeta. open_tab t.
  unfold after, outcome, logout, api_get, request, send, getHeaders, await_fetch,
    bind, getItem, removeItem, gets, modify, ret.
  split; [| split].
  - intros d r v rest -> Hh. cbn. rewrite Hh. cbn. split; reflexivity.
  - intros d f e rest -> Hs. cbn -[settle]. rewrite Hs. split; reflexivity.
  - intros ->. cbn. split; reflexivity.
Qed.

End ServiceFacts.

Section BridgeFacts.
Import JS Api Browser Runtime AuthBridge.

(** [authenticateLegacy] never throws, and is suspended only while the
    request is.  It gives back the answer exactly when the login request
    succeeded with a [token] that is truthy and converts to a string, and
    that string is then the stored token; in every other case in which the
    request is answered it gives back [null] and leaves the storage as it
    was. *)
Theorem authenticateLegacy_outcomes (email password : string) (t : Tab) :
  let run := authenticateLegacy email password in
  let t' := after run t in
  (forall e, outcome run t <> Throws e)
  /\ (replies t = [] <-> outcome run t = Hangs)
  /\ (forall response,
        outcome run t = Returns (Some response)
        <-> exists d r rest token text,
              replies t = (d, Responds r) :: rest
              /\ handleResponse r = inr response
              /\ getProp response "token" = Some token
              /\ truthy_value token = true
              /\ value_text token = Some text)
  /\ (forall response,
        outcome run t = Returns (Some response) ->
        exists token text,
          getProp response "token" = Some token
          /\ value_text token = Some text
          /\ localStorage t' = <["token" := text]> (localStorage t))
  /\ (outcome run t = Returns None -> localStorage t' = localStorage t)
  /\ sent t'
     = (sent t ++ [mkRequest "POST" "login"
                     (match localStorage t !! "token" with
                      | Some tk => if truthy tk then Some tk else None
                      | None => None
                      end)
                     (Some (JObject [("email", JString email);
                                     ("password", JString password)]))])%list.
Proof.
  cbv zeta. open_tab t.
  unfold after, outcome, authenticateLegacy, AuthService.token_of, try_catch, api_post,
    request, send, getHeaders, await_fetch, settle, bind, getItem, setItem_value, setItem,
    console_error, gets, modify, ret, throw.
  cbn -[truthy_value value_text].
  destruct replies_ as [| [d f] rest]; cbn -[truthy_value value_text].
  { split; [discriminate |]. split; [split; reflexivity |].
    split; [intros response; split;
              [discriminate | intros (? & ? & ? & ? & ? & H & _); discriminate H] |].
    repeat split; try discriminate; reflexivity. }
  destruct f as [r | why]; [destruct (handleResponse r) as [e | v] eqn:Hh |];
    cbn -[truthy_value value_text].
  2: destruct (getProp v "token") as [token |] eqn:Hp; cbn -[truthy_value value_text].
  2: destruct (truthy_value token) eqn:Ht; cbn -[truthy_value value_text].
  2: destruct (value_text token) as [text |] eqn:Hx; cbn -[truthy_value value_text].
  all: split; [intros; discriminate |].
  all: split; [split; discriminate |].
  all: split;
         [intros response; split;
            [try discriminate
            | intros (d' & r' & rest' & token' & text' & H1 & H2 & H3 & H4 & H5);
              try discriminate H1; injection H1 as <- <- <-;
              rewrite Hh in H2; try discriminate H2; injection H2 as <-;
              rewrite Hp in H3; try discriminate H3; injection H3 as <-; congruence]
         |].
  all: try (split; [try discriminate | split; [try discriminate; intros; reflexivity
                                              | reflexivity]]).
  - intros [= <-]. exists d, r, rest, token, text. repeat split; assumption.
  - intros response [= <-]. exists token, text. repeat split; assumption.
Qed.

(** [checkAuth], the platform having answered its session query: without
    a stored token no request is sent and [legacy] is false; with one,
    exactly one [GET me] goes out under that token, and [legacy] tells
    whether it succeeded; [supabase] is true only if the client holds a
    session. *)
Theorem checkAuth_probes_with_token (t : Tab)
    (d : N) (b : Reply) (others : list (N * Reply)) :
  backend t = (d, b) :: others ->
  accepted b = true ->
  let t' := after checkAuth t in
  let bearer := match localStorage t !! "token" with
                | Some tk => if truthy tk then Some tk else None
                | None => None
                end in
  (bearer = None ->
   outcome checkAuth t = Returns (match client_session t with Some _ => true | None => false end, false)
   /\ sent t' = sent t)
  /\ (forall tk, bearer = Some tk ->
        sent t' = (sent t ++ [mkRequest "GET" "me" (Some tk) None])%list
        /\ (forall s l, outcome checkAuth t = Returns (s, l) ->
              (s = true <-> is_Some (client_session t))
              /\ (l = true <->
                  exists d' r v rest,
                    replies t = (d', Responds r) :: rest /\ handleResponse r = inr v))).
Proof.
  intros Hb Ha. cbv zeta. open_tab t. subst backend_.
  unfold after, outcome, checkAuth, auth_getSession, await_backend, try_catch, api_get,
    request, send, getHeaders, await_fetch, settle, bind, getItem, gets, modify, ret, throw.
  destruct b as [| s0 | why | why]; try discriminate Ha; cbn.
  all: destruct (storage !! "token") as [tk |] eqn:Hst; cbn.
  all: try destruct (truthy tk) eqn:Htk; cbn.
  all: split; [try discriminate; intros _; split; reflexivity |].
  all: try (intros tk0; discriminate).
  all: intros tk0 [= <-].
  all: destruct replies_ as [| [d' [r | why']] rest]; cbn.
  all: rewrite ?Hst; cbn; rewrite ?Htk; cbn.
  all: try match goal with
           | |- context [handleResponse ?r] =>
               destruct (handleResponse r) as [e | v] eqn:Hh; cbn
           end.
  all: split; [reflexivity |].
  all: intros s l [= <- <-].
  all: (split;
        [ destruct session_; split; intros H; try discriminate; try reflexivity;
          try (eexists; reflexivity); destruct H; discriminate |]).
  all: split; intros H; try discriminate; try reflexivity.
  all: try (destruct H as (d2 & r2 & v2 & rest2 & H1 & H2); try discriminate H1;
            injection H1 as <- <- <-; congruence).
  all: do 4 eexists; split; [reflexivity | eassumption].
Qed.
End BridgeFacts.

(** ** The legacy facade when it mounts *)

Section MountFacts.
Import JS Api Browser Runtime AuthProvider.
Variable JSON_parse : string -> Thrown + Json.

(** The check run on mounting never throws, sends nothing and clears the
    loading flag; it ends in one of two states: both keys were stored and
    not empty and the stored user parsed, and then the storage is as it was
    and the user is the parsed one; or neither key is stored any more and
    there is no user, every other key being as it was. *)
Theorem checkAuthStatus_all_or_nothing (t : Tab) :
  let t' := after (checkAuthStatus JSON_parse) t in
  outcome (checkAuthStatus JSON_parse) t = Returns tt
  /\ AuthContext.loading (auth t') = false
  /\ sent t' = sent t
  /\ ((exists tk su v,
          localStorage t !! "token" = Some tk /\ truthy tk = true
          /\ localStorage t !! "user" = Some su /\ truthy su = true
          /\ JSON_parse su = inr v
          /\ localStorage t' = localStorage t
          /\ AuthContext.user (auth t') = as_user (Of v))
      \/ (localStorage t' !! "token" = None
          /\ localStorage t' !! "user" = None
          /\ AuthContext.user (auth t') = None
          /\ forall k, k <> "token" -> k <> "user" ->
               localStorage t' !! k = localStorage t !! k)).
Proof.
  cbv zeta. open_tab t.
  unfold after, outcome, checkAuthStatus, try_catch, finally, bind, getItem, removeItem,
    console_error, setUser, setLoading, gets, modify, ret, throw.
  cbn -[as_user].
  destruct (storage !! "token") as [tk |] eqn:Ht; cbn -[as_user].
  1: destruct (storage !! "user") as [su |] eqn:Hu; cbn -[as_user].
  1: destruct (truthy tk) eqn:Htk; cbn -[as_user].
  1: destruct (truthy su) eqn:Hsu; cbn -[as_user].
  1: destruct (JSON_parse su) as [e | v] eqn:Hp; cbn -[as_user].
  2: {
    split; [reflexivity |]. split; [reflexivity |]. split; [reflexivity |].
    left. exists tk, su, v. repeat split; try assumption; reflexivity.
  }
  all: split; [reflexivity |]; split; [reflexivity |]; split; [reflexivity |].
  all: right.
  all: split; [rewrite lookup_delete_ne by discriminate; apply lookup_delete_eq |].
  all: split; [apply lookup_delete_eq |].
  all: split; [reflexivity |].
  all: intros k Hk1 Hk2; rewrite !lookup_delete_ne by congruence; reflexivity.
Qed.
End MountFacts.

(** ** The platform facade: restoring, signing in, signing out *)

Section PlatformSessionFacts.
Import JS Browser Runtime SupabaseAuthProvider.

Ltac run_platform :=
  unfold initializeAuth, signIn, signUp, signOut, try_catch, finally, auth_getSession,
    auth_signInWithPassword, auth_signUp, auth_signOut, await_backend, set_session, notify,
    bind, getItem, setItem, removeItem, navigate, console_error, gets, modify, ret, throw,
    setLoading, setError, setUser, setSession.

(** Mounting the platform facade: once the platform has answered the
    session query, the facade holds the client's session and its user,
    listens to session changes and is no longer loading, so the guard admits
    exactly when the client held a session; when the query is refused the
    refusal's message is the facade's error; when it rejects or never
    settles the facade stays loading and the guard keeps showing the
    waiting state. *)
Theorem initializeAuth_restores_session (t : Tab) :
  let t' := after initializeAuth t in
  (forall d b others,
      backend t = (d, b) :: others -> accepted b = true ->
      outcome initializeAuth t = Returns tt
      /\ supabaseAuth t'
         = SupabaseAuthContext.mk
             (option_map SupabaseAuthContext.session_user (client_session t))
             (client_session t) false (SupabaseAuthContext.error (supabaseAuth t))
      /\ subscribed t' = true
      /\ (AuthContext.loading (auth t') = false ->
          (Router.ProtectedRoute t' = RouteGuard.Outlet <-> is_Some (client_session t))))
  /\ (forall d why others,
        backend t = (d, Failed why) :: others ->
        outcome initializeAuth t = Returns tt
        /\ supabaseAuth t'
           = SupabaseAuthContext.mk (SupabaseAuthContext.user (supabaseAuth t))
               (SupabaseAuthContext.session (supabaseAuth t)) false (Some why)
        /\ subscribed t' = true)
  /\ (backend t = [] \/ (exists d why others, backend t = (d, Raised why) :: others) ->
      outcome initializeAuth t <> Returns tt
      /\ SupabaseAuthContext.loading (supabaseAuth t') = true
      /\ Router.ProtectedRoute t' = RouteGuard.Spinner
      /\ Router.PublicRoute t' = RouteGuard.Spinner).
Proof.
  cbv zeta. open_tab t. destruct sauth_ as [su ss sl se].
  unfold after, outcome, Router.ProtectedRoute, Router.PublicRoute,
    RouteGuard.ProtectedRoute, RouteGuard.PublicRoute.
  split; [| split].
  - intros d b others -> Hb. run_platform.
    destruct b; try discriminate Hb; cbn.
    all: split; [reflexivity |]; split; [reflexivity |]; split; [reflexivity |].
    all: intros ->; destruct session_; cbn; split; intros H;
      try reflexivity; try discriminate; try (eexists; reflexivity);
      destruct H; discriminate.
  - intros d why others ->. run_platform. cbn. repeat split; reflexivity.
  - intros [-> | (d & why & others & ->)]; run_platform; cbn.
    all: rewrite orb_true_r; repeat split; try reflexivity; discriminate.
Qed.

(** A sign-in always returns with the loading flag cleared.  Granted a
    session, it leaves the client holding it, stores its access token, goes
    to ["/"] with no error, and, the facade listening, has the session's
    user, so that the guard admits; refused or rejected, it shows the
    reason and changes neither the session, the storage, the path nor the
    user. *)
Theorem signIn_outcomes (email password : string) (t : Tab)
    (d : N) (b : Reply) (others : list (N * Reply)) :
  backend t = (d, b) :: others ->
  let t' := after (signIn email password) t in
  outcome (signIn email password) t = Returns tt
  /\ SupabaseAuthContext.loading (supabaseAuth t') = false
  /\ match b with
     | Granted s =>
         client_session t' = Some s
         /\ localStorage t' = <["supabase_auth_token" := SupabaseAuthContext.access_token s]>
                                (localStorage t)
         /\ location t' = "/"
         /\ SupabaseAuthContext.error (supabaseAuth t') = None
         /\ (subscribed t = true ->
             SupabaseAuthContext.user (supabaseAuth t')
             = Some (SupabaseAuthContext.session_user s)
             /\ (AuthContext.loading (auth t') = false ->
                 Router.ProtectedRoute t' = RouteGuard.Outlet))
     | Failed why | Raised why =>
         SupabaseAuthContext.error (supabaseAuth t') = Some why
         /\ client_session t' = client_session t
         /\ localStorage t' = localStorage t
         /\ location t' = location t
         /\ SupabaseAuthContext.user (supabaseAuth t') = SupabaseAuthContext.user (supabaseAuth t)
     | Done =>
         SupabaseAuthContext.error (supabaseAuth t') = None
         /\ client_session t' = client_session t
         /\ localStorage t' = localStorage t
         /\ location t' = location t
     end.
Proof.
  intros Hb. cbv zeta. open_tab t. subst backend_. destruct sauth_ as [su ss sl se].
  unfold after, outcome, Router.ProtectedRoute, RouteGuard.ProtectedRoute.
  run_platform. destruct b; cbn.
  - repeat split; reflexivity.
  - destruct listening_; cbn.
    all: split; [reflexivity |]; split; [reflexivity |].
    all: split; [reflexivity |]; split; [reflexivity |].
    all: split; [reflexivity |]; split; [reflexivity |].
    all: try discriminate.
    intros _. split; [reflexivity |]. intros ->. reflexivity.
  - repeat split; reflexivity.
  - repeat split; reflexivity.
Qed.

(** None of the three operations of the platform facade ever throws:
    whatever the platform answers, a failure only shows in the facade's
    error. *)
Theorem platform_facade_never_throws (t : Tab) (e : Thrown) :
  (forall email password name, outcome (signUp email password name) t <> Throws e)
  /\ (forall email password, outcome (signIn email password) t <> Throws e)
  /\ outcome signOut t <> Throws e.
Proof.
  open_tab t. unfold outcome. split; [| split]; intros; run_platform.
  all: destruct backend_ as [| [d [| s | why | why]] others]; cbn; discriminate.
Qed.

(** [signOut] does not look at what the platform's sign-out gives back:
    when the platform refuses, no error is shown, the two legacy keys are
    removed and the path is ["/login"], while the session and the user are
    still there, so that the public guard sends the visitor on to ["/"]. *)
Theorem signOut_ignores_refusal (t : Tab) (d : N) (why : string) (others : list (N * Reply)) :
  backend t = (d, Failed why) :: others ->
  let t' := after signOut t in
  outcome signOut t = Returns tt
  /\ SupabaseAuthContext.error (supabaseAuth t') = SupabaseAuthContext.error (supabaseAuth t)
  /\ localStorage t' = delete "user" (delete "token" (localStorage t))
  /\ location t' = "/login"
  /\ client_session t' = client_session t
  /\ SupabaseAuthContext.user (supabaseAuth t') = SupabaseAuthContext.user (supabaseAuth t)
  /\ (is_Some (SupabaseAuthContext.user (supabaseAuth t)) ->
      AuthContext.loading (auth t') = false ->
      Router.PublicRoute t' = RouteGuard.NavigateTo "/"
      /\ Router.ProtectedRoute t' = RouteGuard.Outlet).
Proof.
  intros Hb. cbv zeta. open_tab t. subst backend_. destruct sauth_ as [su ss sl se].
  unfold after, outcome, Router.PublicRoute, Router.ProtectedRoute,
    RouteGuard.PublicRoute, RouteGuard.ProtectedRoute.
  run_platform. cbn.
  repeat (split; [reflexivity |]).
  intros [u ->] ->. split; reflexivity.
Qed.
End PlatformSessionFacts.

(** ** The consent screen: what every handler keeps *)

Section ConsentScreenFacts.
Import JS Browser Runtime Logic Types.

#[local] Instance screen_ok_refl : Reflexive screen_ok.
Proof. intros t. split; [reflexivity | auto]. Qed.

#[local] Instance screen_ok_trans : Transitive screen_ok.
Proof.
  intros t1 t2 t3 [H12 K12] [H23 K23]. split; [congruence | auto].
Qed.

Lemma screen_ok_same (t t' : Tab) :
  ConsentPage.providers (consentPage t') = ConsentPage.providers (consentPage t) ->
  screen_ok t t'.
Proof. intros H. unfold screen_ok. rewrite H. split; [reflexivity | auto]. Qed.

Lemma with_permissions_ok (pid : string) (p : Permissions) (ps : list Provider) :
  map identity (Consent.with_permissions pid p (some_Boolean (Object_values p)) ps)
  = map identity ps
  /\ (Forall Consent.status_agrees ps ->
      Forall Consent.status_agrees
        (Consent.with_permissions pid p (some_Boolean (Object_values p)) ps)).
Proof.
  unfold Consent.with_permissions. split.
  - rewrite List.map_map. apply List.map_ext. intros q.
    destruct (String.eqb (id q) pid); reflexivity.
  - intros H. induction H as [| q ps Hq Hps IH]; cbn; constructor; [| exact IH].
    destruct (String.eqb (id q) pid); [reflexivity | exact Hq].
Qed.

Lemma disconnected_ok (pid : string) (ps : list Provider) :
  map identity (Consent.disconnected pid ps) = map identity ps
  /\ (Forall Consent.status_agrees ps ->
      Forall Consent.status_agrees (Consent.disconnected pid ps)).
Proof.
  unfold Consent.disconnected. split.
  - rewrite List.map_map. apply List.map_ext. intros q.
    destruct (String.eqb (id q) pid); reflexivity.
  - intros H. induction H as [| q ps Hq Hps IH]; cbn; constructor; [| exact IH].
    destruct (String.eqb (id q) pid); [reflexivity | exact Hq].
Qed.

Lemma setProviders_with_permissions_ok (pid : string) (p : Permissions) :
  preserved screen_ok
    (Consent.setProviders
       (Consent.with_permissions pid p (some_Boolean (Object_values p)))).
Proof.
  intros t. open_tab t. destruct page_ as [ps sel open ld err].
  unfold after, Consent.setProviders, modify, screen_ok. cbn.
  apply with_permissions_ok.
Qed.

Lemma setProviders_disconnected_ok (pid : string) :
  preserved screen_ok (Consent.setProviders (Consent.disconnected pid)).
Proof.
  intros t. open_tab t. destruct page_ as [ps sel open ld err].
  unfold after, Consent.setProviders, modify, screen_ok. cbn.
  apply disconnected_ok.
Qed.

(** A step that leaves the list alone: run it on a tab given part by part. *)
Ltac list_untouched :=
  intros t; open_tab t; apply screen_ok_same; unfold after, await_backend; cbn;
  repeat match goal with
         | |- context [match ?x with _ => _ end] => destruct x; cbn
         end;
  reflexivity.

Ltac keep_screen :=
  unfold ProviderAccessModal.save, ProviderAccessModal.handleSaveChanges,
    ProviderAccessModal.remove, ProviderAccessModal.handleDelete,
    ProviderAccessModal.platform_write, ProviderAccessModal.platform_delete,
    ProviderAccessModal.fall_back, ProviderAccessModal.report,
    ProviderAccessModal.report_delete,
    Consent.handlePermissionToggle, Consent.handleUpdatePermissions,
    Consent.handleDeleteProvider, Consent.start_fetchProviders, Consent.write_consent,
    select_consent, update_consent, insert_consent, delete_consent, auth_getUser,
    Consent.setLoading, Consent.setError, Consent.setIsModalOpen,
    ProviderAccessModal.setLoading, ProviderAccessModal.setError,
    ProviderAccessModal.setConfirmingDelete,
    console_error, alert, Date_now;
  cbv zeta;
  repeat first
    [ apply setProviders_with_permissions_ok
    | apply setProviders_disconnected_ok
    | apply preserved_bind; [exact _ | | intros ?]
    | apply preserved_try_catch; [exact _ | | intros ?]
    | apply preserved_finally; [exact _ | | ]
    | apply preserved_ret; exact _
    | apply preserved_throw; exact _
    | apply preserved_gets; exact _
    | match goal with
      | |- preserved _ (match ?x with _ => _ end) => destruct x
      | |- preserved _ (if ?x then _ else _) => destruct x
      end
    | apply preserved_modify; list_untouched
    | list_untouched ].

Lemma toggle_keeps_screen (pid : string) (key : PermissionKey) :
  preserved screen_ok (Consent.handlePermissionToggle pid key).
Proof. keep_screen. Qed.

Lemma update_keeps_screen (pid : string) (p : Permissions) :
  preserved screen_ok (Consent.handleUpdatePermissions pid p).
Proof. keep_screen. Qed.

Lemma delete_keeps_screen (pid : string) :
  preserved screen_ok (Consent.handleDeleteProvider pid).
Proof. keep_screen. Qed.

Lemma save_keeps_screen : preserved screen_ok ProviderAccessModal.save.
Proof. keep_screen. Qed.

Lemma remove_keeps_screen : preserved screen_ok ProviderAccessModal.remove.
Proof. keep_screen. Qed.

(** However they settle, the handlers of the consent screen and of its
    modal leave the list about the same providers, in the same order, with
    their ids, names, logos and dates; and if every row's status agreed with
    its three switches before ([Granted] exactly when one is on), it does
    after. *)
Theorem consent_screen_stays_consistent (t : Tab) :
  (forall pid key, screen_ok t (after (Consent.handlePermissionToggle pid key) t))
  /\ (forall pid p, screen_ok t (after (Consent.handleUpdatePermissions pid p) t))
  /\ (forall pid, screen_ok t (after (Consent.handleDeleteProvider pid) t))
  /\ screen_ok t (after ProviderAccessModal.save t)
  /\ screen_ok t (after ProviderAccessModal.remove t).
Proof.
  split; [intros pid key; apply toggle_keeps_screen |].
  split; [intros pid p; apply update_keeps_screen |].
  split; [intros pid; apply delete_keeps_screen |].
  split; [apply save_keeps_screen | apply remove_keeps_screen].
Qed.
End ConsentScreenFacts.

(** ** The consent screen: failures change nothing *)

Section ConsentOutcomeFacts.
Import JS Browser Runtime Logic Types.

Ltac no_throw :=
  repeat first
    [ apply never_throws_ret
    | apply never_throws_gets
    | apply never_throws_modify
    | apply never_throws_try_catch; intros ?
    | apply never_throws_finally
    | apply never_throws_bind; [| intros ?]
    | match goal with
      | |- never_throws (if ?x then _ else _) => destruct x
      end ].

(** No handler of the consent screen or of its modal ever throws: what
    goes wrong ends in an alert, in the modal's error or in the console. *)
Theorem consent_handlers_never_throw (t : Tab) (e : Thrown) :
  (forall pid key, outcome (Consent.handlePermissionToggle pid key) t <> Throws e)
  /\ (forall pid p, outcome (Consent.handleUpdatePermissions pid p) t <> Throws e)
  /\ (forall pid, outcome (Consent.handleDeleteProvider pid) t <> Throws e)
  /\ outcome ProviderAccessModal.save t <> Throws e
  /\ outcome ProviderAccessModal.remove t <> Throws e
  /\ outcome ProviderAccessModal.cancel t <> Throws e.
Proof.
  split; [intros pid key | split; [intros pid p | split; [intros pid | split; [| split]]]].
  all: match goal with
       | |- outcome ?m ?T <> Throws ?E => cut (never_throws m); [intros H; apply H |]
       end.
  all: unfold Consent.handlePermissionToggle, Consent.handleUpdatePermissions,
         Consent.handleDeleteProvider, ProviderAccessModal.save,
         ProviderAccessModal.handleSaveChanges, ProviderAccessModal.remove,
         ProviderAccessModal.handleDelete, ProviderAccessModal.cancel,
         ProviderAccessModal.handleCancel, ProviderAccessModal.report,
         ProviderAccessModal.report_delete, ProviderAccessModal.setLoading,
         ProviderAccessModal.setError, ProviderAccessModal.setConfirmingDelete,
         Consent.setLoading, Consent.setIsModalOpen, console_error, alert.
  all: no_throw.
Qed.

(** *** What the platform calls leave of the screen and of the table *)

Ltac run_call :=
  unfold after, outcome, same, Consent.shown, Consent.write_consent, auth_getUser,
    select_consent, update_consent, insert_consent, delete_consent, await_backend,
    bind, gets, modify, ret, throw.

Lemma getUser_keeps (t : Tab) :
  Consent.shown (after auth_getUser t) = Consent.shown t
  /\ consents (after auth_getUser t) = consents t
  /\ client_session (after auth_getUser t) = client_session t
  /\ (forall u, outcome auth_getUser t = Returns (Some u) ->
        exists s, client_session t = Some s /\ u = SupabaseAuthContext.session_user s)
  /\ (client_session t = None -> forall u, outcome auth_getUser t <> Returns (Some u)).
Proof.
  open_tab t. run_call.
  destruct backend_ as [| [d [| s | why | why]] rest]; cbn.
  all: split; [reflexivity |]; split; [reflexivity |]; split; [reflexivity |].
  all: split; [| intros H u; try discriminate; rewrite H; discriminate].
  all: intros u Hu; try discriminate.
  all: destruct session_ as [s0 |]; try discriminate; injection Hu as <-.
  all: eexists; split; reflexivity.
Qed.

Lemma write_consent_keeps (u pid : string) (c : Db.Columns) (t : Tab) :
  let t' := after (Consent.write_consent u pid c) t in
  Consent.shown t' = Consent.shown t
  /\ client_session t' = client_session t
  /\ (outcome (Consent.write_consent u pid c) t <> Returns tt -> consents t' = consents t).
Proof.
  cbv zeta. open_tab t. run_call. unfold owns, uid. destruct session_ as [s0 |].
  all: repeat first
         [ progress cbn
         | match goal with
           | |- context [match ?l with [] => _ | _ :: _ => _ end] =>
               is_var l; destruct l as [| [? [| ? | ? | ?]] ?]
           | |- context [String.eqb ?a ?b] => destruct (String.eqb a b) eqn:?
           | |- context [@lookup _ _ (gmap _ _) _ ?k ?m] => destruct (m !! k) eqn:?
           end ].
  all: split; [reflexivity |]; split; [reflexivity |].
  all: intros H; try reflexivity; exfalso; apply H; reflexivity.
Qed.

Lemma delete_consent_keeps (u pid : string) (t : Tab) :
  let t' := after (delete_consent u pid) t in
  Consent.shown t' = Consent.shown t
  /\ client_session t' = client_session t
  /\ (outcome (delete_consent u pid) t <> Returns None -> consents t' = consents t)
  /\ (outcome (delete_consent u pid) t = Returns None ->
      consents t' = if owns u t then delete (u, pid) (consents t) else consents t).
Proof.
  cbv zeta. open_tab t. run_call. unfold owns, uid. destruct session_ as [s0 |].
  all: repeat first
         [ progress cbn
         | match goal with
           | |- context [match ?l with [] => _ | _ :: _ => _ end] =>
               is_var l; destruct l as [| [? [| ? | ? | ?]] ?]
           | |- context [String.eqb ?a ?b] => destruct (String.eqb a b) eqn:?
           end ].
  all: split; [reflexivity |]; split; [reflexivity |].
  all: split; [intros H; try reflexivity; exfalso; apply H; reflexivity |].
  all: intros H; try discriminate H; reflexivity.
Qed.

(** Follow a platform call whose effect on the screen and the table is
    known, whatever its outcome. *)
Ltac follow_user :=
  match goal with
  | |- context [auth_getUser ?T] =>
      let K := fresh "K" in
      let T' := fresh "T" in
      pose proof (getUser_keeps T) as K;
      unfold after, outcome, Consent.shown in K;
      destruct (auth_getUser T) as [[? | ? |] T'];
      destruct T' as [? ? ? ? ? ? ? ? ? ? ? ? ? ? ? ? [? ? ? ? ?] ?];
      cbn in K;
      let K1 := fresh "K" in
      let K2 := fresh "K" in
      let K3 := fresh "K" in
      let K4 := fresh "U" in
      let K5 := fresh "N" in
      destruct K as (K1 & K2 & K3 & K4 & K5); injection K1 as -> -> ->; subst
  end.

Ltac follow_write :=
  match goal with
  | |- context [Consent.write_consent ?u ?q ?c ?T] =>
      let K := fresh "K" in
      let T' := fresh "T" in
      pose proof (write_consent_keeps u q c T) as K;
      unfold after, outcome, Consent.shown in K; cbv zeta in K;
      destruct (Consent.write_consent u q c T) as [[[] | ? |] T'];
      destruct T' as [? ? ? ? ? ? ? ? ? ? ? ? ? ? ? ? [? ? ? ? ?] ?];
      cbn in K;
      let K1 := fresh "K" in
      let K2 := fresh "K" in
      let K3 := fresh "W" in
      destruct K as (K1 & K2 & K3); injection K1 as -> -> ->;
      try specialize (K3 ltac:(discriminate)); subst
  end.

Ltac follow_delete :=
  match goal with
  | |- context [delete_consent ?u ?q ?T] =>
      let K := fresh "K" in
      let T' := fresh "T" in
      pose proof (delete_consent_keeps u q T) as K;
      unfold after, outcome, Consent.shown in K; cbv zeta in K;
      destruct (delete_consent u q T) as [[[?|] | ? |] T'];
      destruct T' as [? ? ? ? ? ? ? ? ? ? ? ? ? ? ? ? [? ? ? ? ?] ?];
      cbn in K;
      let K1 := fresh "K" in
      let K2 := fresh "K" in
      let K3 := fresh "W" in
      let K4 := fresh "D" in
      destruct K as (K1 & K2 & K3 & K4); injection K1 as -> -> ->;
      try specialize (K3 ltac:(discriminate));
      try specialize (K4 eq_refl); subst
  end.

Ltac run_handler :=
  unfold after, outcome, Consent.handlePermissionToggle, Consent.handleUpdatePermissions,
    Consent.handleDeleteProvider, Consent.start_fetchProviders, Consent.shown, Date_now,
    Consent.setLoading, Consent.setError, Consent.setProviders, Consent.setIsModalOpen,
    console_error, alert, finally, try_catch, bind, gets, modify, ret, throw.


(** Without a platform session, whatever the platform answers to the
    question who the user is, each of the three handlers raises its alert
    and is over: one platform call was made, nothing was written and the
    list is as it was. *)
Theorem consent_needs_user (t : Tab) (d : N) (b : Reply) (others : list (N * Reply)) :
  client_session t = None ->
  backend t = (d, b) :: others ->
  let refused (run : Eff unit) (msg : string) : Prop :=
    outcome run t = Returns tt
    /\ Consent.shown (after run t)
       = (ConsentPage.providers (consentPage t), (alerts t ++ [msg])%list,
          ConsentPage.isModalOpen (consentPage t))
    /\ consents (after run t) = consents t
    /\ backend (after run t) = others in
  (forall pid key provider,
      Consent.find_provider pid (ConsentPage.providers (consentPage t)) = Some provider ->
      refused (Consent.handlePermissionToggle pid key)
        "Failed to update permission. Please try again.")
  /\ (forall pid p,
        refused (Consent.handleUpdatePermissions pid p)
          "Failed to update permissions. Please try again.")
  /\ (forall pid,
        refused (Consent.handleDeleteProvider pid)
          "Failed to disconnect provider. Please try again.").
Proof.
  intros Hs Hb. cbv zeta. open_tab t. subst session_ backend_.
  destruct page_ as [ps sel open ld err].
  split; [intros pid key provider Hf; cbn in Hf | split; [intros pid p | intros pid]].
  all: run_handler; unfold auth_getUser, await_backend, bind, gets, ret; cbn.
  all: rewrite ?Hf; cbn.
  all: destruct b; cbn; repeat split; reflexivity.
Qed.

(** A toggle for an id that is not in the list does nothing but clear the
    loading flag: no platform call, no alert, no write. *)
Theorem toggle_unknown_provider (pid : string) (key : PermissionKey) (t : Tab) :
  Consent.find_provider pid (ConsentPage.providers (consentPage t)) = None ->
  Consent.handlePermissionToggle pid key t = (Returns tt, after (Consent.setLoading false) t).
Proof.
  intros Hf. open_tab t. destruct page_ as [ps sel open ld err]. cbn in Hf.
  run_handler. cbn. rewrite Hf. reflexivity.
Qed.

(** Disconnecting a provider is all or nothing: either the record of the
    user for that provider is gone from the table, the list shows the
    provider disconnected with every switch off, the modal is closed and no
    alert was raised; or the alert was raised and neither the list nor the
    table has changed; or the platform has not answered and nothing has
    changed. *)
Theorem disconnect_is_atomic (pid : string) (t : Tab) :
  let run := Consent.handleDeleteProvider pid in
  let t' := after run t in
  (outcome run t = Returns tt
   /\ (exists s,
          client_session t = Some s
          /\ consents t'
             = delete (SupabaseAuthContext.id (SupabaseAuthContext.session_user s), pid)
                 (consents t))
   /\ Consent.shown t'
      = (Consent.disconnected pid (ConsentPage.providers (consentPage t)), alerts t, false)
   /\ ConsentPage.loading (consentPage t') = false
   /\ ConsentPage.error (consentPage t') = None)
  \/ (outcome run t = Returns tt
      /\ ConsentPage.loading (consentPage t') = false
      /\ Consent.shown t'
         = (ConsentPage.providers (consentPage t),
            (alerts t ++ ["Failed to disconnect provider. Please try again."])%list,
            ConsentPage.isModalOpen (consentPage t))
      /\ consents t' = consents t)
  \/ (outcome run t = Hangs
      /\ Consent.shown t' = Consent.shown t
      /\ consents t' = consents t).
Proof.
  cbv zeta. open_tab t. destruct page_ as [ps sel open ld err].
  unfold after, outcome, Consent.handleDeleteProvider, Consent.shown, finally, try_catch, bind.
  cbn -[auth_getUser delete_consent Consent.setProviders Consent.setIsModalOpen
        Consent.start_fetchProviders].
  follow_user;
    cbn -[auth_getUser delete_consent Consent.setProviders Consent.setIsModalOpen
          Consent.start_fetchProviders].
  - match goal with
    | u : option SupabaseAuthContext.User |- _ => destruct u as [who |]
    end;
      cbn -[auth_getUser delete_consent Consent.setProviders Consent.setIsModalOpen
            Consent.start_fetchProviders].
    + destruct (U who eq_refl) as (s & Hs & ->).
      follow_delete; cbn.
      * right. left. repeat split; reflexivity.
      * left. split; [reflexivity |]. split; [| repeat split; reflexivity].
        exists s. split; [reflexivity |].
        unfold owns, uid. cbn. rewrite String.eqb_refl. reflexivity.
      * right. left. repeat split; reflexivity.
      * right. right. repeat split; reflexivity.
    + right. left. repeat split; reflexivity.
  - right. left. repeat split; reflexivity.
  - right. right. repeat split; reflexivity.
Qed.
End ConsentOutcomeFacts.

(** ** The consent screen: what a write that goes through leaves *)

Section ConsentWriteFacts.
Import JS Browser Runtime Logic Types.

Lemma alter_present {K : Type} `{Countable K} {A : Type} (f : A -> A) (k : K) (m : gmap K A)
    (a : A) :
  m !! k = Some a -> alter f k m = <[k := f a]> m.
Proof.
  intros Hk. apply map_eq. intros i. destruct (decide (i = k)) as [-> | Hne].
  - rewrite lookup_alter_eq, lookup_insert_eq, Hk. reflexivity.
  - rewrite lookup_alter_ne, lookup_insert_ne by congruence. reflexivity.
Qed.

(** The read-then-write, the platform answering both calls. *)
Lemma write_consent_accepted (pid : string) (c : Db.Columns) (t : Tab)
    (s : SupabaseAuthContext.Session) (d2 d3 : N) (r2 r3 : Reply) (rest : list (N * Reply)) :
  client_session t = Some s ->
  backend t = (d2, r2) :: (d3, r3) :: rest ->
  accepted r2 = true -> accepted r3 = true ->
  let u := SupabaseAuthContext.id (SupabaseAuthContext.session_user s) in
  exists t',
    Consent.write_consent u pid c t = (Returns tt, t')
    /\ consents t'
       = <[(u, pid) :=
             match consents t !! (u, pid) with
             | Some old =>
                 Db.mkRow
                   (Db.mkColumns (Db.lab_results c) (Db.medications c) (Db.fitness_data c)
                      (Db.approved c) (now t + Z.of_N d2 + Z.of_N d3))
                   (Db.created_at old)
             | None => Db.mkRow c (now t + Z.of_N d2 + Z.of_N d3)
             end]> (consents t)
    /\ consentPage t' = consentPage t
    /\ accessModal t' = accessModal t
    /\ alerts t' = alerts t
    /\ sent t' = sent t
    /\ client_session t' = Some s
    /\ backend t' = rest
    /\ now t' = now t + Z.of_N d2 + Z.of_N d3.
Proof.
  intros Hs Hb H2 H3 u. unfold Consent.write_consent, bind.
  rewrite (select_consent_accepted u pid t d2 r2 _ Hb H2).
  pose proof (owns_session s t Hs) as Ho. fold u in Ho. rewrite Ho. cbn [fst snd].
  assert (Hs1 : client_session (elapse d2 (with_backend ((d3, r3) :: rest) t)) = Some s)
    by (open_tab t; exact Hs).
  assert (Hb1 : backend (elapse d2 (with_backend ((d3, r3) :: rest) t)) = (d3, r3) :: rest)
    by (open_tab t; reflexivity).
  assert (Hc1 : consents (elapse d2 (with_backend ((d3, r3) :: rest) t)) = consents t)
    by (open_tab t; reflexivity).
  assert (Hn1 : now (elapse d2 (with_backend ((d3, r3) :: rest) t)) = now t + Z.of_N d2)
    by (open_tab t; reflexivity).
  pose proof (owns_session s _ Hs1) as Ho1. fold u in Ho1.
  destruct (consents t !! (u, pid)) as [old |] eqn:Hrow.
  - rewrite (update_consent_accepted c u pid _ d3 r3 rest Hb1 H3 Ho1).
    cbn [ret]. eexists. split; [reflexivity |].
    rewrite Hc1, Hn1, (alter_present _ _ _ old Hrow).
    open_tab t. repeat split; try reflexivity. exact Hs.
  - rewrite (insert_consent_accepted u pid c _ d3 r3 rest Hb1 H3 Ho1)
      by (rewrite Hc1; exact Hrow).
    cbn [ret]. eexists. split; [reflexivity |].
    rewrite Hc1, Hn1.
    open_tab t. repeat split; try reflexivity. exact Hs.
Qed.

Ltac hold :=
  cbn -[Z.add auth_getUser Consent.write_consent delete_consent Consent.setProviders
        Consent.setIsModalOpen Consent.start_fetchProviders].

(** Use the write that goes through, and name the tab it leaves. *)
Ltac write_goes_through s d2 d3 r2 r3 rest :=
  match goal with
  | |- context [Consent.write_consent ?u ?q ?c ?T] =>
      let T' := fresh "T" in
      let E := fresh "E" in
      destruct (write_consent_accepted q c T s d2 d3 r2 r3 rest)
        as (T' & E & Hrows & Hpage & Hmodal & Halerts & Hsent & Hsess & Hback & Hnow);
      [first [reflexivity | eassumption] ..
      | cbv zeta in E; rewrite E;
        destruct T' as [? ? ? ? ? ? ? ? ? ? ? ? ? ? ? ? ? ?];
        cbn -[Z.add] in Hrows, Hpage, Hmodal, Halerts, Hsent, Hsess, Hback, Hnow; subst ]
  end.

(** A bulk save that the platform lets through writes exactly the three
    requested flags, with [approved] on when one of them is, to the record
    of the user for that provider: an existing record keeps its
    [created_at], a missing one is created, also when every flag is off.
    No other record changes, the list shows the requested flags, the modal
    is closed and no alert is raised. *)
Theorem bulk_save_writes_the_request (pid : string) (p : Permissions) (t : Tab)
    (s : SupabaseAuthContext.Session)
    (d1 d2 d3 : N) (r1 r2 r3 : Reply) (rest : list (N * Reply)) :
  client_session t = Some s ->
  backend t = (d1, r1) :: (d2, r2) :: (d3, r3) :: rest ->
  accepted r1 = true -> accepted r2 = true -> accepted r3 = true ->
  let k := (SupabaseAuthContext.id (SupabaseAuthContext.session_user s), pid) in
  let any := some_Boolean (Object_values p) in
  let t' := after (Consent.handleUpdatePermissions pid p) t in
  outcome (Consent.handleUpdatePermissions pid p) t = Returns tt
  /\ (exists row,
        consents t' !! k = Some row
        /\ Db.lab_results (Db.columns row) = labResults p
        /\ Db.medications (Db.columns row) = medications p
        /\ Db.fitness_data (Db.columns row) = fitnessData p
        /\ Db.approved (Db.columns row) = any
        /\ Db.created_at row
           = match consents t !! k with
             | Some old => Db.created_at old
             | None => now t + Z.of_N d1 + Z.of_N d2 + Z.of_N d3
             end)
  /\ (forall k', k' <> k -> consents t' !! k' = consents t !! k')
  /\ Consent.shown t'
     = (Consent.with_permissions pid p any (ConsentPage.providers (consentPage t)),
        alerts t, false)
  /\ backend t' = rest.
Proof.
  intros Hs Hb H1 H2 H3. cbv zeta. open_tab t. subst session_ backend_.
  destruct page_ as [ps sel open ld err].
  unfold after, outcome, Consent.handleUpdatePermissions, Consent.shown, Date_now,
    finally, try_catch, bind.
  hold. erewrite auth_getUser_accepted by (first [reflexivity | eassumption]). hold.
  write_goes_through s d2 d3 r2 r3 rest. cbn -[Z.add].
  split; [reflexivity |]. split; [| split; [| split; reflexivity]].
  - rewrite lookup_insert_eq. eexists. split; [reflexivity |].
    destruct (rows_ !! _); cbn -[Z.add]; repeat split; reflexivity.
  - intros k' Hk. apply lookup_insert_ne. congruence.
Qed.

Lemma delete_consent_accepted (u p : string) (t : Tab)
    (d : N) (r : Reply) (rest : list (N * Reply)) :
  backend t = (d, r) :: rest -> accepted r = true -> owns u t = true ->
  delete_consent u p t
  = (Returns None,
     with_consents (delete (u, p) (consents t)) (elapse d (with_backend rest t))).
Proof.
  intros Hb Hr Ho. unfold delete_consent, bind.
  rewrite (await_backend_accepted t d r rest Hb Hr).
  open_tab t. unfold owns, uid in *. cbn -[Z.add] in *.
  destruct r; try discriminate; cbn -[Z.add]; unfold owns, uid; cbn -[Z.add];
    rewrite Ho; reflexivity.
Qed.

Lemma disconnected_with_permissions (pid : string) (p : Permissions) (any : bool)
    (ps : list Provider) :
  Consent.disconnected pid (Consent.with_permissions pid p any ps)
  = Consent.disconnected pid ps.
Proof.
  unfold Consent.disconnected, Consent.with_permissions.
  rewrite List.map_map. apply List.map_ext. intros q.
  destruct (String.eqb (id q) pid) eqn:E; cbn; rewrite E; reflexivity.
Qed.

(** The toggle and the disconnect, when the platform lets every call
    through, with the tab they leave. *)
Lemma toggle_goes_through (pid : string) (key : PermissionKey) (t : Tab)
    (provider : Provider) (s : SupabaseAuthContext.Session)
    (d1 d2 d3 : N) (r1 r2 r3 : Reply) (rest : list (N * Reply)) :
  Consent.find_provider pid (ConsentPage.providers (consentPage t)) = Some provider ->
  client_session t = Some s ->
  backend t = (d1, r1) :: (d2, r2) :: (d3, r3) :: rest ->
  accepted r1 = true -> accepted r2 = true -> accepted r3 = true ->
  let k := (SupabaseAuthContext.id (SupabaseAuthContext.session_user s), pid) in
  let p' := set (permissions provider) key (negb (get (permissions provider) key)) in
  exists t1 row,
    Consent.handlePermissionToggle pid key t = (Returns tt, t1)
    /\ consents t1 = <[k := row]> (consents t)
    /\ Consent.shown t1
       = (Consent.with_permissions pid p' (some_Boolean (Object_values p'))
            (ConsentPage.providers (consentPage t)),
          alerts t, ConsentPage.isModalOpen (consentPage t))
    /\ client_session t1 = Some s
    /\ backend t1 = rest.
Proof.
  intros Hf Hs Hb H1 H2 H3. cbv zeta. open_tab t. subst session_ backend_.
  destruct page_ as [ps sel open ld err]. cbn in Hf.
  unfold Consent.handlePermissionToggle, Consent.shown, Date_now, finally, try_catch, bind.
  hold. rewrite Hf. hold.
  erewrite auth_getUser_accepted by (first [reflexivity | eassumption]). hold.
  write_goes_through s d2 d3 r2 r3 rest. cbn -[Z.add].
  do 2 eexists. split; [reflexivity |]. cbn -[Z.add]. repeat split; reflexivity.
Qed.

Lemma disconnect_goes_through (pid : string) (t : Tab) (s : SupabaseAuthContext.Session)
    (d1 d2 : N) (r1 r2 : Reply) (rest : list (N * Reply)) :
  client_session t = Some s ->
  backend t = (d1, r1) :: (d2, r2) :: rest ->
  accepted r1 = true -> accepted r2 = true ->
  let k := (SupabaseAuthContext.id (SupabaseAuthContext.session_user s), pid) in
  exists t2,
    Consent.handleDeleteProvider pid t = (Returns tt, t2)
    /\ consents t2 = delete k (consents t)
    /\ Consent.shown t2
       = (Consent.disconnected pid (ConsentPage.providers (consentPage t)), alerts t, false)
    /\ client_session t2 = Some s
    /\ backend t2 = rest
    /\ accessModal t2 = accessModal t
    /\ console t2 = console t.
Proof.
  intros Hs Hb H1 H2. cbv zeta. open_tab t. subst session_ backend_.
  destruct page_ as [ps sel open ld err].
  unfold Consent.handleDeleteProvider, Consent.shown, finally, try_catch, bind.
  hold. erewrite auth_getUser_accepted by (first [reflexivity | eassumption]). hold.
  erewrite delete_consent_accepted
    by (first [reflexivity | eassumption | apply owns_session; reflexivity]).
  cbn -[Z.add]. eexists. split; [reflexivity |]. cbn -[Z.add]. repeat split; reflexivity.
Qed.

(** Granting and then disconnecting, the platform letting the five calls
    through: the record the grant wrote is gone, and with it whatever
    record the user had for the provider; every other record is as it was,
    so a provider that had no record has none again; the list shows the
    provider disconnected, every switch off. *)
Theorem grant_then_disconnect (pid : string) (key : PermissionKey) (t : Tab)
    (provider : Provider) (s : SupabaseAuthContext.Session)
    (d1 d2 d3 d4 d5 : N) (r1 r2 r3 r4 r5 : Reply) (rest : list (N * Reply)) :
  Consent.find_provider pid (ConsentPage.providers (consentPage t)) = Some provider ->
  client_session t = Some s ->
  backend t = (d1, r1) :: (d2, r2) :: (d3, r3) :: (d4, r4) :: (d5, r5) :: rest ->
  accepted r1 = true -> accepted r2 = true -> accepted r3 = true ->
  accepted r4 = true -> accepted r5 = true ->
  let k := (SupabaseAuthContext.id (SupabaseAuthContext.session_user s), pid) in
  let t1 := after (Consent.handlePermissionToggle pid key) t in
  let t2 := after (Consent.handleDeleteProvider pid) t1 in
  outcome (Consent.handleDeleteProvider pid) t1 = Returns tt
  /\ is_Some (consents t1 !! k)
  /\ consents t2 = delete k (consents t)
  /\ (consents t !! k = None -> consents t2 = consents t)
  /\ Consent.shown t2
     = (Consent.disconnected pid (ConsentPage.providers (consentPage t)), alerts t, false)
  /\ backend t2 = rest.
Proof.
  intros Hf Hs Hb H1 H2 H3 H4 H5. cbv zeta.
  destruct (toggle_goes_through pid key t provider s d1 d2 d3 r1 r2 r3 _ Hf Hs Hb H1 H2 H3)
    as (t1 & row & E1 & Hrows1 & Hshown1 & Hs1 & Hb1).
  destruct (disconnect_goes_through pid t1 s d4 d5 r4 r5 rest Hs1 Hb1 H4 H5)
    as (t2 & E2 & Hrows2 & Hshown2 & _ & Hb2 & _).
  cbv zeta in *. unfold after, outcome. rewrite E1. cbn [fst snd]. rewrite E2. cbn [fst snd].
  unfold Consent.shown in Hshown1. injection Hshown1 as Hp1 Ha1 _.
  split; [reflexivity |].
  split; [rewrite Hrows1, lookup_insert_eq; eexists; reflexivity |].
  split; [rewrite Hrows2, Hrows1; apply delete_insert_eq |].
  split; [intros Hn; rewrite Hrows2, Hrows1, delete_insert_eq; apply delete_id; exact Hn |].
  split; [| exact Hb2].
  rewrite Hshown2, Hp1, Ha1, disconnected_with_permissions. reflexivity.
Qed.

(** The confirmed removal in the modal, the platform letting its four
    calls through (the modal's own two, then the two of the consent
    screen's handler): the record of the user for the modal's provider is
    gone and no other record has changed, the list shows the provider
    disconnected, the modal is closed, and its loading flag, its error and
    its question are cleared. *)
Theorem confirmed_removal_deletes (t : Tab) (s : SupabaseAuthContext.Session)
    (d1 d2 d3 d4 : N) (r1 r2 r3 r4 : Reply) (rest : list (N * Reply)) :
  AccessModal.confirmingDelete (accessModal t) = true ->
  client_session t = Some s ->
  backend t = (d1, r1) :: (d2, r2) :: (d3, r3) :: (d4, r4) :: rest ->
  accepted r1 = true -> accepted r2 = true -> accepted r3 = true -> accepted r4 = true ->
  let pid := id (AccessModal.provider (accessModal t)) in
  let k := (SupabaseAuthContext.id (SupabaseAuthContext.session_user s), pid) in
  let t' := after ProviderAccessModal.remove t in
  outcome ProviderAccessModal.remove t = Returns tt
  /\ consents t' = delete k (consents t)
  /\ Consent.shown t'
     = (Consent.disconnected pid (ConsentPage.providers (consentPage t)), alerts t, false)
  /\ accessModal t'
     = AccessModal.mk (AccessModal.provider (accessModal t)) false None
         (AccessModal.currentPermissions (accessModal t)) false
  /\ console t' = console t
  /\ backend t' = rest.
Proof.
  intros Hc Hs Hb H1 H2 H3 H4. cbv zeta. open_tab t. subst session_ backend_.
  destruct modal_ as [pr mld merr cur conf]. cbn in Hc. subst conf.
  unfold after, outcome, ProviderAccessModal.remove, ProviderAccessModal.handleDelete,
    ProviderAccessModal.platform_delete, Consent.shown, finally, try_catch, bind.
  cbn -[Z.add auth_getUser delete_consent Consent.handleDeleteProvider Consent.setIsModalOpen].
  erewrite auth_getUser_accepted by (first [reflexivity | eassumption]).
  cbn -[Z.add auth_getUser delete_consent Consent.handleDeleteProvider Consent.setIsModalOpen].
  erewrite delete_consent_accepted
    by (first [reflexivity | eassumption | apply owns_session; reflexivity]).
  cbn -[Z.add auth_getUser delete_consent Consent.handleDeleteProvider Consent.setIsModalOpen].
  match goal with
  | |- context [Consent.handleDeleteProvider ?q ?T] =>
      destruct (disconnect_goes_through q T s d3 d4 r3 r4 rest)
        as (T2 & E2 & Hrows & Hshown & Hsess & Hback & Hmodal & Hconsole);
        [first [reflexivity | eassumption] .. |]
  end.
  cbv zeta in E2. rewrite E2.
  destruct T2 as [? ? ? ? ? ? ? ? ? ? ? ? ? ? ? ? [? ? ? ? ?] ?].
  unfold Consent.shown in Hshown.
  cbn -[Z.add] in Hrows, Hshown, Hsess, Hback, Hmodal, Hconsole.
  injection Hshown as -> -> ->. subst. cbn -[Z.add].
  split; [reflexivity |]. split; [apply delete_delete_eq |].
  repeat split; reflexivity.
Qed.
End ConsentWriteFacts.

(** ** The access modal: switches, removal, cancelling *)

Section ModalFacts.
Import JS Browser Runtime Logic Types.

(** A switch of the modal only changes the modal's own copy of the
    permissions: the switched flag is negated, the other two stay, nothing
    else in the tab changes (no platform call, no record, no list), and
    switching again gives back the tab one started from. *)
Theorem modal_toggle_is_local (key : PermissionKey) (t : Tab) :
  let run := ProviderAccessModal.handlePermissionToggle key in
  let t1 := after run t in
  outcome run t = Returns tt
  /\ get (AccessModal.currentPermissions (accessModal t1)) key
     = negb (get (AccessModal.currentPermissions (accessModal t)) key)
  /\ (forall other,
        other <> key ->
        get (AccessModal.currentPermissions (accessModal t1)) other
        = get (AccessModal.currentPermissions (accessModal t)) other)
  /\ t1 = with_accessModal (accessModal t1) t
  /\ after run t1 = t.
Proof.
  cbv zeta. open_tab t. destruct modal_ as [pr ld err [a b c] conf].
  unfold after, outcome, ProviderAccessModal.handlePermissionToggle,
    ProviderAccessModal.setCurrentPermissions, modify.
  destruct key; cbn.
  all: split; [reflexivity |]; split; [reflexivity |].
  all: split; [intros other Ho; destruct other; try reflexivity; congruence |].
  all: split; [reflexivity |].
  all: rewrite negb_involutive; reflexivity.
Qed.

Section AnyParent.
Variable onDeleteProvider : string -> Eff unit.
Variable onClose : Eff unit.

(** Whatever the parent's handlers are, the first press on the removal
    button only asks for confirmation: nothing is called and nothing is
    deleted; cancelling then takes the question back without closing the
    modal, and the tab is as it was before the press. *)
Theorem removal_asks_first (t : Tab) :
  AccessModal.confirmingDelete (accessModal t) = false ->
  let asked := after (ProviderAccessModal.setConfirmingDelete true) t in
  ProviderAccessModal.handleDelete onDeleteProvider onClose t = (Returns tt, asked)
  /\ AccessModal.confirmingDelete (accessModal asked) = true
  /\ asked = with_accessModal (accessModal asked) t
  /\ ProviderAccessModal.handleCancel onClose asked = (Returns tt, t).
Proof.
  intros Hc. cbv zeta. open_tab t. destruct modal_ as [pr ld err cur conf].
  cbn in Hc. subst conf.
  unfold after, ProviderAccessModal.handleDelete, ProviderAccessModal.handleCancel,
    ProviderAccessModal.setConfirmingDelete, bind, gets, modify.
  cbn. repeat split; reflexivity.
Qed.
End AnyParent.
End ModalFacts.

(** ** Which addresses [register] accepts *)

Section EmailFacts.
Import JS AuthProvider.

Lemma append_nil_l (s : string) : "" ++ s = s.
Proof. reflexivity. Qed.

Lemma append_String (c : ascii) (s1 s2 : string) : String c s1 ++ s2 = String c (s1 ++ s2).
Proof. reflexivity. Qed.

Lemma append_empty (s1 s2 : string) : s1 ++ s2 = "" -> s1 = "" /\ s2 = "".
Proof.
  destruct s1; [rewrite append_nil_l; auto | rewrite append_String; discriminate].
Qed.

Lemma append_cons (s1 s2 : string) (c : ascii) (s : string) :
  s1 ++ s2 = String c s ->
  (s1 = "" /\ s2 = String c s) \/ (exists s1', s1 = String c s1' /\ s = s1' ++ s2).
Proof.
  destruct s1 as [| c1 s1'].
  - rewrite append_nil_l. intros ->. left. split; reflexivity.
  - rewrite append_String. intros [= -> <-]. right. exists s1'. split; reflexivity.
Qed.

Lemma lang_empty (r : regex) (s : string) : lang r s -> s = "" -> nullable r = true.
Proof.
  induction 1 as [| p c Hp | r1 r2 s1 s2 H1 IH1 H2 IH2 | r1 r2 s H IH | r1 r2 s H IH
                  | r | r s1 s2 H1 IH1 H2 IH2]; intros Hs; cbn.
  - reflexivity.
  - discriminate.
  - apply append_empty in Hs. destruct Hs as [-> ->]. rewrite IH1, IH2; reflexivity.
  - rewrite IH; [reflexivity | exact Hs].
  - rewrite IH; [apply orb_true_r | exact Hs].
  - reflexivity.
  - reflexivity.
Qed.

Lemma nullable_lang (r : regex) : nullable r = true -> lang r "".
Proof.
  induction r as [| | p | r1 IH1 r2 IH2 | r1 IH1 r2 IH2 | r IH]; cbn; intros H.
  - discriminate.
  - constructor.
  - discriminate.
  - apply andb_prop in H. destruct H as [H1 H2].
    change "" with ("" ++ ""). constructor; auto.
  - apply orb_prop in H. destruct H as [H | H]; [apply lang_alt_l | apply lang_alt_r]; auto.
  - constructor.
Qed.

Lemma lang_deriv (r : regex) (s' : string) :
  lang r s' -> forall c s, s' = String c s -> lang (deriv c r) s.
Proof.
  induction 1 as [| p c0 Hp | r1 r2 s1 s2 H1 IH1 H2 IH2 | r1 r2 s0 H IH | r1 r2 s0 H IH
                  | r | r s1 s2 H1 IH1 H2 IH2]; intros c s Hs; cbn.
  - discriminate.
  - injection Hs as <- <-. rewrite Hp. constructor.
  - apply append_cons in Hs. destruct Hs as [[-> ->] | (s1' & -> & ->)].
    + rewrite (lang_empty r1 "" H1 eq_refl). apply lang_alt_r. apply IH2. reflexivity.
    + destruct (nullable r1); [apply lang_alt_l |]; constructor; auto.
  - apply lang_alt_l. auto.
  - apply lang_alt_r. auto.
  - discriminate.
  - apply append_cons in Hs. destruct Hs as [[-> ->] | (s1' & -> & ->)].
    + apply IH2. reflexivity.
    + constructor; auto.
Qed.

Lemma deriv_lang (r : regex) : forall c s, lang (deriv c r) s -> lang r (String c s).
Proof.
  induction r as [| | p | r1 IH1 r2 IH2 | r1 IH1 r2 IH2 | r IH]; cbn; intros c s H.
  - inversion H.
  - inversion H.
  - destruct (p c) eqn:Hp; inversion H; subst. constructor. exact Hp.
  - destruct (nullable r1) eqn:Hn.
    + inversion H as [| | | r1' r2' s' H' | r1' r2' s' H' | |]; subst.
      * inversion H' as [| | r1' r2' s1 s2 Ha Hb | | | |]; subst.
        change (String c (s1 ++ s2)) with (String c s1 ++ s2). constructor; auto.
      * change (String c s) with ("" ++ String c s).
        constructor; [apply nullable_lang; exact Hn | auto].
    + inversion H as [| | r1' r2' s1 s2 Ha Hb | | | |]; subst.
      change (String c (s1 ++ s2)) with (String c s1 ++ s2). constructor; auto.
  - inversion H; subst; [apply lang_alt_l | apply lang_alt_r]; auto.
  - inversion H as [| | r1' r2' s1 s2 Ha Hb | | | |]; subst.
    change (String c (s1 ++ s2)) with (String c s1 ++ s2). constructor; auto.
Qed.

(** Matching by derivatives decides the language. *)
Lemma matches_lang (s : string) : forall r, matches r s = true <-> lang r s.
Proof.
  induction s as [| c s IH]; intros r; cbn.
  - split; [apply nullable_lang | intros H; apply (lang_empty r "" H eq_refl)].
  - rewrite IH. split; [apply deriv_lang | intros H; apply (lang_deriv r _ H c s eq_refl)].
Qed.

Lemma lang_star_class (p : ascii -> bool) (s : string) :
  lang (Star (Class p)) s <-> every p s = true.
Proof.
  split.
  - intros H. remember (Star (Class p)) as r eqn:Hr.
    induction H as [| | | | | r0 | r0 s1 s2 H1 IH1 H2 IH2]; try discriminate Hr.
    + reflexivity.
    + injection Hr as ->. inversion H1; subst.
      rewrite append_String, append_nil_l. cbn.
      rewrite IH2 by reflexivity. rewrite andb_true_r. assumption.
  - revert s. induction s as [| c s IH]; cbn; intros H.
    + constructor.
    + apply andb_prop in H. destruct H as [Hc Hs].
      change (String c s) with (String c "" ++ s).
      constructor; [constructor; exact Hc | auto].
Qed.

Lemma lang_plus_class (p : ascii -> bool) (s : string) :
  lang (Plus (Class p)) s <-> s <> "" /\ every p s = true.
Proof.
  unfold Plus. split.
  - intros H. inversion H as [| | r1 r2 s1 s2 H1 H2 | | | |]; subst.
    inversion H1; subst. apply lang_star_class in H2.
    rewrite append_String, append_nil_l. cbn.
    split; [discriminate | rewrite H2; rewrite andb_true_r; assumption].
  - intros [Hne H]. destruct s as [| c s]; [congruence |]. cbn in H.
    apply andb_prop in H. destruct H as [Hc Hs].
    change (String c s) with (String c "" ++ s).
    constructor; [constructor; exact Hc | apply lang_star_class; exact Hs].
Qed.

Lemma lang_chr (c : ascii) (s : string) : lang (Chr c) s <-> s = String c "".
Proof.
  unfold Chr. split.
  - intros H. inversion H as [| p c' Hp | | | | |]; subst.
    apply Ascii.eqb_eq in Hp. subst. reflexivity.
  - intros ->. constructor. apply Ascii.eqb_refl.
Qed.

(** The addresses [register] lets through are exactly those of the form
    [a@b.c] where [a], [b] and [c] are not empty and hold neither
    whitespace nor ["@"]: exactly one ["@"], something before it, and after
    it a dot with something on both sides. *)
Theorem email_pattern_accepts (s : string) :
  matches email_pattern s = true
  <-> exists a b c,
        s = a ++ "@" ++ b ++ "." ++ c
        /\ a <> "" /\ b <> "" /\ c <> ""
        /\ every local_char a = true
        /\ every local_char b = true
        /\ every local_char c = true.
Proof.
  rewrite matches_lang. unfold email_pattern. split.
  - intros H.
    inversion H as [| | r1 r2 a s1 Ha H1 | | | |]; subst.
    inversion H1 as [| | r1 r2 at_ s2 Hat H2 | | | |]; subst.
    inversion H2 as [| | r1 r2 b s3 Hb H3 | | | |]; subst.
    inversion H3 as [| | r1 r2 dot c Hdot Hc | | | |]; subst.
    apply lang_plus_class in Ha, Hb, Hc. apply lang_chr in Hat, Hdot. subst.
    exists a, b, c. destruct Ha, Hb, Hc. repeat split; assumption.
  - intros (a & b & c & -> & Ha & Hb & Hc & Ea & Eb & Ec).
    constructor; [apply lang_plus_class; split; assumption |].
    change ("@" ++ b ++ "." ++ c) with (String "@" "" ++ (b ++ "." ++ c)).
    constructor; [apply lang_chr; reflexivity |].
    constructor; [apply lang_plus_class; split; assumption |].
    change ("." ++ c) with (String "." "" ++ c).
    constructor; [apply lang_chr; reflexivity |].
    apply lang_plus_class; split; assumption.
Qed.
End EmailFacts.

(** * Worked instances *)

(** A blank password: the message, and nothing sent. *)
Lemma login_validates_first_witness :
  AuthProvider.login (fun _ => "") (AuthProvider.mkLoginCredentials "a@b.co" "   " None)
    Scenario.blank
  = (Browser.Returns tt,
     Browser.with_auth (AuthContext.mk None false (Some "Email and password are required"))
       Scenario.blank).
Proof.
  destruct (login_validates_first (fun _ => "")
              (AuthProvider.mkLoginCredentials "a@b.co" "   " None) Scenario.blank)
    as [H _].
  apply H. right. reflexivity.
Defined.

(** The server answers a login with a user and no token: the text
    [undefined] is what gets stored as the token.  And with a token that
    hides [toString]: the login throws and nothing is stored. *)
Lemma login_signs_in_witness :
  let answer body :=
    Browser.with_replies [(120%N, Api.Responds (Api.mkResponse 200 (inr (JS.JObject body))))]
      Scenario.blank in
  let c := AuthProvider.mkLoginCredentials "a@b.co" "secret12" None in
  let login := AuthProvider.login (fun _ => "") c in
  let plain := [("user", JS.JObject [("id", JS.JString "7")])] in
  let hidden := [("token", JS.JObject [("toString", JS.JNull)])] in
  (Browser.localStorage (Browser.after login (answer plain)) !! "token" = Some "undefined"
   /\ Browser.location (Browser.after login (answer plain)) = "/")
  /\ (Browser.outcome login (answer hidden) = Browser.Throws JS.not_primitive
      /\ Browser.localStorage (Browser.after login (answer hidden)) = ∅).
Proof.
  cbv zeta. split.
  - destruct (login_signs_in (fun _ => "")
                (AuthProvider.mkLoginCredentials "a@b.co" "secret12" None)
                (Browser.with_replies
                   [(120%N, Api.Responds
                              (Api.mkResponse 200
                                 (inr (JS.JObject
                                         [("user", JS.JObject [("id", JS.JString "7")])]))))]
                   Scenario.blank)
                120%N
                (Api.mkResponse 200
                   (inr (JS.JObject [("user", JS.JObject [("id", JS.JString "7")])])))
                [("user", JS.JObject [("id", JS.JString "7")])] [])
      as [H _].
    + vm_compute. reflexivity.
    + reflexivity.
    + reflexivity.
    + destruct (H "undefined" eq_refl) as (_ & Hs & _ & Hl & _).
      split; [rewrite Hs; reflexivity | exact Hl].
  - destruct (login_signs_in (fun _ => "")
                (AuthProvider.mkLoginCredentials "a@b.co" "secret12" None)
                (Browser.with_replies
                   [(120%N, Api.Responds
                              (Api.mkResponse 200
                                 (inr (JS.JObject
                                         [("token", JS.JObject [("toString", JS.JNull)])]))))]
                   Scenario.blank)
                120%N
                (Api.mkResponse 200
                   (inr (JS.JObject [("token", JS.JObject [("toString", JS.JNull)])])))
                [("token", JS.JObject [("toString", JS.JNull)])] [])
      as [_ H].
    + vm_compute. reflexivity.
    + reflexivity.
    + reflexivity.
    + destruct (H eq_refl) as (Ho & Hs & _). split; [exact Ho | exact Hs].
Defined.

(** The server refuses the login with 401 and no JSON body. *)
Lemma login_reports_and_rethrows_witness :
  let t :=
    Browser.with_replies
      [(120%N, Api.Responds (Api.mkResponse 401 (inl "Unexpected end of JSON input")))]
      Scenario.blank in
  let c := AuthProvider.mkLoginCredentials "a@b.co" "secret12" None in
  Browser.outcome (AuthProvider.login (fun _ => "") c) t
  = Browser.Throws (JS.mkThrown (JS.ApiError 401) "Invalid credentials")
  /\ Browser.auth (Browser.after (AuthProvider.login (fun _ => "") c) t)
     = AuthContext.mk None false (Some "Invalid credentials").
Proof.
  cbv zeta.
  destruct (login_reports_and_rethrows (fun _ => "")
              (AuthProvider.mkLoginCredentials "a@b.co" "secret12" None)
              (Browser.with_replies
                 [(120%N, Api.Responds
                            (Api.mkResponse 401 (inl "Unexpected end of JSON input")))]
                 Scenario.blank)
              120%N
              (Api.Responds (Api.mkResponse 401 (inl "Unexpected end of JSON input")))
              [] (JS.mkThrown (JS.ApiError 401) "Invalid credentials"))
    as (Ho & Ha & _).
  - vm_compute. reflexivity.
  - reflexivity.
  - intros t0. reflexivity.
  - split; [exact Ho | exact Ha].
Defined.

(** A password reset the server answers with 500: the error shows in the
    facade, nothing is thrown. *)
Lemma legacy_operations_never_throw_witness :
  Browser.outcome
    (AuthProvider.perform (fun _ => "") (AuthProvider.ForgotPassword "a@b.co"))
    (Browser.with_replies
       [(120%N, Api.Responds (Api.mkResponse 500 (inl "Unexpected end of JSON input")))]
       Scenario.blank)
  = Browser.Returns tt
  /\ Browser.outcome
       (AuthProvider.perform (fun _ => "") (AuthProvider.ForgotPassword "a@b.co"))
       (Browser.with_replies
          [(120%N, Api.Responds (Api.mkResponse 500 (inl "Unexpected end of JSON input")))]
          Scenario.blank)
     <> Browser.Throws (JS.mkThrown (JS.ApiError 500) "An error occurred").
Proof.
  split; [vm_compute; reflexivity |].
  apply (legacy_operations_never_throw (fun _ => "")). reflexivity.
Defined.

(** A registration answered after 120 ms. *)
Lemma answered_in_time_clears_timer_witness :
  let t :=
    Browser.with_replies [(120%N, Api.Responds (Api.mkResponse 200 (inr (JS.JObject []))))]
      Scenario.blank in
  let op :=
    AuthProvider.Register (AuthProvider.mkRegisterCredentials "a@b.co" "secret12" "Ann" None) in
  Browser.timers (Browser.after (AuthProvider.perform (fun _ => "") op) t) = []
  /\ Browser.timed_out (Browser.after (AuthProvider.perform (fun _ => "") op) t) = [].
Proof.
  cbv zeta.
  destruct (answered_in_time_clears_timer (fun _ => "")
              (AuthProvider.Register
                 (AuthProvider.mkRegisterCredentials "a@b.co" "secret12" "Ann" None))
              (Browser.with_replies
                 [(120%N, Api.Responds (Api.mkResponse 200 (inr (JS.JObject []))))]
                 Scenario.blank)
              120%N (Api.Responds (Api.mkResponse 200 (inr (JS.JObject [])))) [])
    as (Ht & Hf & _).
  - vm_compute. reflexivity.
  - reflexivity.
  - reflexivity.
  - vm_compute. reflexivity.
  - split; [exact Ht | exact Hf].
Defined.

(** A second request for the same address, straight after the first was
    answered. *)
Lemma resendVerification_twice_witness :
  let t :=
    Browser.with_replies [(120%N, Api.Responds (Api.mkResponse 200 (inr (JS.JObject []))))]
      Scenario.blank in
  let t1 := Browser.after (AuthService.resendVerification "a@b.co") t in
  AuthService.resendVerification "a@b.co" t1
  = (Browser.Throws (JS.mkThrown JS.PlainError AuthService.rate_limit_message), t1).
Proof.
  cbv zeta.
  destruct (resendVerification_twice "a@b.co"
              (Browser.with_replies
                 [(120%N, Api.Responds (Api.mkResponse 200 (inr (JS.JObject []))))]
                 Scenario.blank)
              120%N (Api.mkResponse 200 (inr (JS.JObject []))) (JS.JObject []) [])
    as [H _].
  - left. vm_compute. reflexivity.
  - reflexivity.
  - reflexivity.
  - apply H; [reflexivity | vm_compute; reflexivity].
Defined.

(** The server answers the logout with 200 and an empty body: the call
    throws and the token is still stored. *)
Lemma service_logout_asks_first_witness :
  let t :=
    Browser.with_replies
      [(120%N, Api.Responds (Api.mkResponse 200 (inl "Unexpected end of JSON input")))]
      Scenario.both_sessions in
  Browser.outcome AuthService.logout t
  = Browser.Throws (JS.mkThrown JS.SyntaxError "Unexpected end of JSON input")
  /\ Browser.localStorage (Browser.after AuthService.logout t)
     = Browser.localStorage t.
Proof.
  cbv zeta.
  destruct (service_logout_asks_first
              (Browser.with_replies
                 [(120%N, Api.Responds
                            (Api.mkResponse 200 (inl "Unexpected end of JSON input")))]
                 Scenario.both_sessions))
    as (_ & H & _).
  apply (H 120%N
           (Api.Responds (Api.mkResponse 200 (inl "Unexpected end of JSON input")))
           (JS.mkThrown JS.SyntaxError "Unexpected end of JSON input") []);
    [reflexivity | intros t0; reflexivity].
Defined.

(** The platform answers, a token is stored, and the probe is refused. *)
Lemma checkAuth_probes_with_token_witness :
  let t :=
    Browser.with_backend [(40%N, Browser.Done)]
      (Browser.with_replies
         [(120%N, Api.Responds (Api.mkResponse 401 (inl "Unexpected end of JSON input")))]
         Scenario.both_sessions) in
  Browser.sent (Browser.after AuthBridge.checkAuth t)
  = [Api.mkRequest "GET" "me" (Some "legacy-token") None].
Proof.
  cbv zeta.
  destruct (checkAuth_probes_with_token
              (Browser.with_backend [(40%N, Browser.Done)]
                 (Browser.with_replies
                    [(120%N, Api.Responds
                               (Api.mkResponse 401 (inl "Unexpected end of JSON input")))]
                    Scenario.both_sessions))
              40%N Browser.Done [] eq_refl eq_refl)
    as [_ H].
  destruct (H "legacy-token") as [Hs _]; [vm_compute; reflexivity |].
  exact Hs.
Defined.

(** Alice's session is found when the platform facade mounts. *)
Lemma initializeAuth_restores_session_witness :
  let t := Browser.with_backend [(40%N, Browser.Done)]
             (Browser.with_client_session (Some Scenario.alice_session) Scenario.blank) in
  Browser.supabaseAuth (Browser.after SupabaseAuthProvider.initializeAuth t)
  = SupabaseAuthContext.mk (Some Scenario.alice) (Some Scenario.alice_session) false None.
Proof.
  cbv zeta.
  destruct (initializeAuth_restores_session
              (Browser.with_backend [(40%N, Browser.Done)]
                 (Browser.with_client_session (Some Scenario.alice_session) Scenario.blank)))
    as [H _].
  destruct (H 40%N Browser.Done [] eq_refl eq_refl) as (_ & Hs & _).
  exact Hs.
Defined.

(** The platform refuses the password. *)
Lemma signIn_outcomes_witness :
  let t := Browser.with_backend [(40%N, Browser.Failed "Invalid login credentials")]
             Scenario.blank in
  SupabaseAuthContext.error
    (Browser.supabaseAuth (Browser.after (SupabaseAuthProvider.signIn "a@b.co" "nope") t))
  = Some "Invalid login credentials"
  /\ Browser.location (Browser.after (SupabaseAuthProvider.signIn "a@b.co" "nope") t) = "/".
Proof.
  cbv zeta.
  destruct (signIn_outcomes "a@b.co" "nope"
              (Browser.with_backend [(40%N, Browser.Failed "Invalid login credentials")]
                 Scenario.blank)
              40%N (Browser.Failed "Invalid login credentials") [] eq_refl)
    as (_ & _ & He & _ & _ & Hl & _).
  split; [exact He | exact Hl].
Defined.

(** The platform refuses to sign Alice out. *)
Lemma signOut_ignores_refusal_witness :
  let t := Browser.with_backend [(40%N, Browser.Failed "network")] Scenario.both_sessions in
  Browser.location (Browser.after SupabaseAuthProvider.signOut t) = "/login"
  /\ Router.PublicRoute (Browser.after SupabaseAuthProvider.signOut t)
     = RouteGuard.NavigateTo "/".
Proof.
  cbv zeta.
  destruct (signOut_ignores_refusal
              (Browser.with_backend [(40%N, Browser.Failed "network")] Scenario.both_sessions)
              40%N "network" [] eq_refl)
    as (_ & _ & _ & Hl & _ & _ & Hg).
  split; [exact Hl |].
  apply Hg; [exists Scenario.alice; reflexivity | vm_compute; reflexivity].
Defined.


(** Nobody is signed in on the platform. *)
Lemma consent_needs_user_witness :
  let t := Browser.with_backend [(40%N, Browser.Done)]
             (Browser.with_consentPage (ConsentPage.mk [Scenario.p1] None false false None)
                Scenario.blank) in
  Browser.alerts (Browser.after (Consent.handleDeleteProvider "p1") t)
  = ["Failed to disconnect provider. Please try again."].
Proof.
  cbv zeta.
  destruct (consent_needs_user
              (Browser.with_backend [(40%N, Browser.Done)]
                 (Browser.with_consentPage
                    (ConsentPage.mk [Scenario.p1] None false false None) Scenario.blank))
              40%N Browser.Done [] eq_refl eq_refl)
    as (_ & _ & H).
  destruct (H "p1") as (_ & Hs & _).
  exact (f_equal (fun x => snd (fst x)) Hs).
Defined.

(** A toggle for a provider that is not on Alice's list. *)
Lemma toggle_unknown_provider_witness :
  Consent.handlePermissionToggle "p9" Types.LabResults
    (Browser.with_backend Scenario.answers Scenario.signed_in)
  = (Browser.Returns tt,
     Browser.after (Consent.setLoading false)
       (Browser.with_backend Scenario.answers Scenario.signed_in)).
Proof.
  apply (toggle_unknown_provider "p9" Types.LabResults
           (Browser.with_backend Scenario.answers Scenario.signed_in)).
  reflexivity.
Defined.

(** Alice saves the modal with every switch off, having no record. *)
Lemma bulk_save_writes_the_request_witness :
  let t := Browser.with_backend Scenario.answers Scenario.signed_in in
  let t' :=
    Browser.after
      (Consent.handleUpdatePermissions "p1" (Types.mkPermissions false false false)) t in
  exists row,
    Browser.consents t' !! ("u1", "p1") = Some row
    /\ Db.approved (Db.columns row) = false.
Proof.
  cbv zeta.
  destruct (bulk_save_writes_the_request "p1" (Types.mkPermissions false false false)
              (Browser.with_backend Scenario.answers Scenario.signed_in)
              Scenario.alice_session 40%N 60%N 90%N Browser.Done Browser.Done Browser.Done
              [(50%N, Browser.Done); (70%N, Browser.Done); (70%N, Browser.Done)]
              eq_refl eq_refl eq_refl eq_refl eq_refl)
    as (_ & (row & Hrow & _ & _ & _ & Ha & _) & _).
  exists row. split; [exact Hrow | exact Ha].
Defined.

(** Alice grants lab results to [p1], then disconnects it. *)
Lemma grant_then_disconnect_witness :
  let t := Browser.with_backend Scenario.answers Scenario.signed_in in
  let t1 := Browser.after (Consent.handlePermissionToggle "p1" Types.LabResults) t in
  let t2 := Browser.after (Consent.handleDeleteProvider "p1") t1 in
  is_Some (Browser.consents t1 !! ("u1", "p1"))
  /\ Browser.consents t2 = Browser.consents t.
Proof.
  cbv zeta.
  destruct (grant_then_disconnect "p1" Types.LabResults
              (Browser.with_backend Scenario.answers Scenario.signed_in)
              Scenario.p1 Scenario.alice_session 40%N 60%N 90%N 50%N 70%N
              Browser.Done Browser.Done Browser.Done Browser.Done Browser.Done
              [(70%N, Browser.Done)]
              eq_refl eq_refl eq_refl eq_refl eq_refl eq_refl eq_refl eq_refl)
    as (_ & H1 & _ & H2 & _).
  split; [exact H1 | apply H2; reflexivity].
Defined.

(** Alice confirms the removal of [p1] in the modal. *)
Lemma confirmed_removal_deletes_witness :
  let t :=
    Browser.with_accessModal (AccessModal.mk Scenario.p1 false None
                                (Types.mkPermissions false false false) true)
      Scenario.with_record in
  Browser.consents (Browser.after ProviderAccessModal.remove t) !! ("u1", "p1") = None
  /\ Browser.accessModal (Browser.after ProviderAccessModal.remove t)
     = AccessModal.mk Scenario.p1 false None (Types.mkPermissions false false false) false.
Proof.
  cbv zeta.
  destruct (confirmed_removal_deletes
              (Browser.with_accessModal
                 (AccessModal.mk Scenario.p1 false None
                    (Types.mkPermissions false false false) true)
                 Scenario.with_record)
              Scenario.alice_session 40%N 60%N 90%N 50%N
              Browser.Done Browser.Done Browser.Done Browser.Done
              [(70%N, Browser.Done); (70%N, Browser.Done)]
              eq_refl eq_refl eq_refl eq_refl eq_refl eq_refl eq_refl)
    as (_ & Hc & _ & Hm & _).
  cbv zeta in Hc. split; [rewrite Hc; apply lookup_delete_eq | exact Hm].
Defined.

(** The first press on the removal button, with the consent screen's
    handlers. *)
Lemma removal_asks_first_witness :
  ProviderAccessModal.remove Scenario.editing
  = (Browser.Returns tt,
     Browser.after (ProviderAccessModal.setConfirmingDelete true) Scenario.editing)
  /\ ProviderAccessModal.cancel
       (Browser.after (ProviderAccessModal.setConfirmingDelete true) Scenario.editing)
     = (Browser.Returns tt, Scenario.editing).
Proof.
  destruct (removal_asks_first Consent.handleDeleteProvider (Consent.setIsModalOpen false)
              Scenario.editing eq_refl)
    as (H1 & _ & _ & H2).
  split; [exact H1 | exact H2].
Defined.

(** An address [register] accepts, and one it does not. *)
Lemma email_pattern_accepts_witness :
  JS.matches AuthProvider.email_pattern "ann@example.org" = true
  /\ JS.matches AuthProvider.email_pattern "ann@example" = false.
Proof.
  split.
  - apply (proj2 (email_pattern_accepts "ann@example.org")).
    exists "ann", "example", "org". repeat split; try discriminate; reflexivity.
  - vm_compute. reflexivity.
Defined.

(** The server answers with a token, and with one that hides [toString]:
    the second answer is dropped, and nothing is stored. *)
Lemma authenticateLegacy_outcomes_witness :
  let answer token :=
    Browser.with_replies
      [(120%N, Api.Responds (Api.mkResponse 200 (inr (JS.JObject [("token", token)]))))]
      Scenario.blank in
  let run := AuthBridge.authenticateLegacy "a@b.co" "secret12" in
  let hidden := JS.JObject [("toString", JS.JNumber "1")] in
  (Browser.outcome run (answer (JS.JString "abc"))
   = Browser.Returns (Some (JS.JObject [("token", JS.JString "abc")]))
   /\ Browser.localStorage (Browser.after run (answer (JS.JString "abc"))) !! "token"
      = Some "abc")
  /\ (Browser.outcome run (answer hidden) = Browser.Returns None
      /\ Browser.localStorage (Browser.after run (answer hidden)) = ∅).
Proof.
  cbv zeta. split.
  - destruct (authenticateLegacy_outcomes "a@b.co" "secret12"
                (Browser.with_replies
                   [(120%N, Api.Responds
                              (Api.mkResponse 200
                                 (inr (JS.JObject [("token", JS.JString "abc")]))))]
                   Scenario.blank))
      as (_ & _ & Hiff & Hst & _).
    assert (Ho : Browser.outcome (AuthBridge.authenticateLegacy "a@b.co" "secret12")
                   (Browser.with_replies
                      [(120%N, Api.Responds
                                 (Api.mkResponse 200
                                    (inr (JS.JObject [("token", JS.JString "abc")]))))]
                      Scenario.blank)
                 = Browser.Returns (Some (JS.JObject [("token", JS.JString "abc")]))).
    { apply (proj2 (Hiff (JS.JObject [("token", JS.JString "abc")]))).
      exists 120%N,
        (Api.mkResponse 200 (inr (JS.JObject [("token", JS.JString "abc")]))),
        [], (JS.Of (JS.JString "abc")), "abc".
      repeat split; reflexivity. }
    split; [exact Ho |].
    destruct (Hst _ Ho) as (token & text & Hp & Hx & Hs).
    injection Hp as <-. injection Hx as <-.
    rewrite Hs. reflexivity.
  - destruct (authenticateLegacy_outcomes "a@b.co" "secret12"
                (Browser.with_replies
                   [(120%N, Api.Responds
                              (Api.mkResponse 200
                                 (inr (JS.JObject
                                         [("token",
                                           JS.JObject [("toString", JS.JNumber "1")])]))))]
                   Scenario.blank))
      as (_ & _ & _ & _ & Hnone & _).
    assert (Ho : Browser.outcome (AuthBridge.authenticateLegacy "a@b.co" "secret12")
                   (Browser.with_replies
                      [(120%N, Api.Responds
                                 (Api.mkResponse 200
                                    (inr (JS.JObject
                                            [("token",
                                              JS.JObject [("toString", JS.JNumber "1")])]))))]
                      Scenario.blank)
                 = Browser.Returns None)
      by (vm_compute; reflexivity).
    split; [exact Ho | rewrite (Hnone Ho); reflexivity].
Defined.
